(** * Expense lifecycle and payout safety (server/graphql/common/expenses.ts)

    A shallow embedding of the expense state machine, its permission
    evaluators, the balance guard, the soft lock and the 2FA rolling limit,
    followed by the properties the specification states about them.

    Conventions of the embedding:
    - a JavaScript [number] is an exact rational or one of the IEEE special
      values; binary64 rounding of intermediate results is not modelled
      (amounts are integers in minor units, rates are rationals);
    - an [async] function that reads or writes the database, the cache or an
      external collaborator is a computation in the state-and-exception
      monad [M] over [World];
    - functions imported from modules outside this file of the repository
      ([canUseFeature], [getFxRate], the payment providers, ...) are fields
      of [Env]: their results are inputs of the model. *)

From Stdlib Require Import ZArith QArith Qcanon Qround Ascii String List Bool Lia.
From stdpp Require Import gmap strings pretty.

Local Open Scope Z_scope.
Local Open Scope string_scope.

(** ** JavaScript numbers *)

Module Js.

Inductive number : Type :=
| Fin (q : Qc)
| Infinity
| NegInfinity
| NaN.

Definition ofZ (z : Z) : number := Fin (Q2Qc (inject_Z z)).
Definition ofQ (q : Q) : number := Fin (Q2Qc q).

Definition zero : Qc := Q2Qc 0.
Definition half : Qc := Q2Qc (1 # 2).

Definition is_zero (q : Qc) : bool := bool_decide (q = zero).
Definition is_pos (q : Qc) : bool := bool_decide (zero < q)%Qc.

Definition neg (a : number) : number :=
  match a with
  | Fin q => Fin (- q)%Qc
  | Infinity => NegInfinity
  | NegInfinity => Infinity
  | NaN => NaN
  end.

(** [a + b] *)
Definition add (a b : number) : number :=
  match a, b with
  | NaN, _ | _, NaN => NaN
  | Fin x, Fin y => Fin (x + y)%Qc
  | Infinity, NegInfinity | NegInfinity, Infinity => NaN
  | Infinity, _ | _, Infinity => Infinity
  | NegInfinity, _ | _, NegInfinity => NegInfinity
  end.

(** [a - b] *)
Definition sub (a b : number) : number := add a (neg b).

(** Sign of an infinite product or quotient. *)
Definition signed_inf (positive : bool) : number :=
  if positive then Infinity else NegInfinity.

(** [a * b] *)
Definition mul (a b : number) : number :=
  match a, b with
  | NaN, _ | _, NaN => NaN
  | Fin x, Fin y => Fin (x * y)%Qc
  | Fin x, Infinity | Infinity, Fin x =>
      if is_zero x then NaN else signed_inf (is_pos x)
  | Fin x, NegInfinity | NegInfinity, Fin x =>
      if is_zero x then NaN else signed_inf (negb (is_pos x))
  | Infinity, Infinity | NegInfinity, NegInfinity => Infinity
  | Infinity, NegInfinity | NegInfinity, Infinity => NegInfinity
  end.

(** [a / b]; a zero divisor is the positive zero. *)
Definition div (a b : number) : number :=
  match a, b with
  | NaN, _ | _, NaN => NaN
  | Fin x, Fin y =>
      if is_zero y
      then (if is_zero x then NaN else signed_inf (is_pos x))
      else Fin (x / y)%Qc
  | Fin _, (Infinity | NegInfinity) => Fin zero
  | Infinity, Fin y => signed_inf (is_zero y || is_pos y)
  | NegInfinity, Fin y => signed_inf (negb (is_zero y || is_pos y))
  | (Infinity | NegInfinity), (Infinity | NegInfinity) => NaN
  end.

(** [Math.round]: nearest integer, ties towards +Infinity. *)
Definition round_Qc (q : Qc) : Z := Qfloor (q + half)%Qc.

Definition round (a : number) : number :=
  match a with
  | Fin q => ofZ (round_Qc q)
  | _ => a
  end.

(** [a < b] *)
Definition lt (a b : number) : bool :=
  match a, b with
  | NaN, _ | _, NaN => false
  | Fin x, Fin y => bool_decide (x < y)%Qc
  | _, NegInfinity => false
  | NegInfinity, _ => true
  | Infinity, _ => false
  | Fin _, Infinity => true
  end.

(** [a > b] and [a >= b] *)
Definition gt (a b : number) : bool := lt b a.

Definition ge (a b : number) : bool :=
  match a, b with
  | NaN, _ | _, NaN => false
  | Fin x, Fin y => bool_decide (y <= x)%Qc
  | Infinity, _ => true
  | _, NegInfinity => true
  | _, _ => false
  end.

(** Truthiness of a number: [0] and [NaN] are falsy. *)
Definition truthy (a : number) : bool :=
  match a with
  | Fin q => negb (is_zero q)
  | NaN => false
  | _ => true
  end.

(** [x || 0] for an optional number *)
Definition or_zero (a : option number) : number :=
  match a with
  | Some n => if truthy n then n else ofZ 0
  | None => ofZ 0
  end.

End Js.

#[global] Instance Js_number_eq_dec : EqDecision Js.number.
Proof. solve_decision. Defined.

(** ** Enumerations *)

Inductive ExpenseStatus : Type :=
| DRAFT | UNVERIFIED | PENDING | INCOMPLETE | APPROVED | REJECTED | SPAM
| ERROR | SCHEDULED_FOR_PAYMENT | PROCESSING | PAID | CANCELED
| INVITE_DECLINED.

#[global] Instance ExpenseStatus_eq_dec : EqDecision ExpenseStatus.
Proof. solve_decision. Defined.

Definition statusName (s : ExpenseStatus) : string :=
  match s with
  | DRAFT => "DRAFT" | UNVERIFIED => "UNVERIFIED" | PENDING => "PENDING"
  | INCOMPLETE => "INCOMPLETE" | APPROVED => "APPROVED"
  | REJECTED => "REJECTED" | SPAM => "SPAM" | ERROR => "ERROR"
  | SCHEDULED_FOR_PAYMENT => "SCHEDULED_FOR_PAYMENT"
  | PROCESSING => "PROCESSING" | PAID => "PAID" | CANCELED => "CANCELED"
  | INVITE_DECLINED => "INVITE_DECLINED"
  end.

Inductive ExpenseType : Type :=
| RECEIPT | INVOICE | GRANT | CHARGE | SETTLEMENT | UNCLASSIFIED.

#[global] Instance ExpenseType_eq_dec : EqDecision ExpenseType.
Proof. solve_decision. Defined.

Inductive PayoutMethodTypes : Type :=
| BANK_ACCOUNT | PAYPAL | ACCOUNT_BALANCE | STRIPE | OTHER.

#[global] Instance PayoutMethodTypes_eq_dec : EqDecision PayoutMethodTypes.
Proof. solve_decision. Defined.

Definition payoutMethodTypeName (t : PayoutMethodTypes) : string :=
  match t with
  | BANK_ACCOUNT => "BANK_ACCOUNT" | PAYPAL => "PAYPAL"
  | ACCOUNT_BALANCE => "ACCOUNT_BALANCE" | STRIPE => "STRIPE"
  | OTHER => "OTHER"
  end.

(** [expense.feesPayer] is a string column; any value other than the two
    supported ones reaches the final [else] of the fee computation. *)
Module ExpenseFeesPayer.
Inductive t : Type :=
| COLLECTIVE | PAYEE | Unsupported (name : string).
End ExpenseFeesPayer.

#[global] Instance ExpenseFeesPayer_eq_dec : EqDecision ExpenseFeesPayer.t.
Proof. solve_decision. Defined.

Module CollectiveType.
Inductive t : Type :=
| COLLECTIVE | EVENT | FUND | PROJECT | ORGANIZATION | USER | VENDOR.
End CollectiveType.

#[global] Instance CollectiveType_eq_dec : EqDecision CollectiveType.t.
Proof. solve_decision. Defined.

Module ExpenseLockableFields.
Inductive t : Type := AMOUNT | PAYEE | DESCRIPTION | TYPE.
End ExpenseLockableFields.

#[global] Instance ExpenseLockableFields_eq_dec :
  EqDecision ExpenseLockableFields.t.
Proof. solve_decision. Defined.

Inductive FEATURE : Type := USE_EXPENSES | PAYPAL_PAYOUTS.

#[global] Instance FEATURE_eq_dec : EqDecision FEATURE.
Proof. solve_decision. Defined.

(** ** Errors *)

Inductive ErrorClass : Type :=
| Unauthorized | Forbidden | ValidationFailed | NotFound | BadRequest
| FeatureNotAllowedForUser | FeatureNotSupportedForCollective
| ServerError
| PlainError       (* [new Error(...)] *)
| AssertionError   (* [assert(cond, 'message')] *)
| TypeError.       (* property access on [null] / [undefined] *)

#[global] Instance ErrorClass_eq_dec : EqDecision ErrorClass.
Proof. solve_decision. Defined.

Inductive EXPENSE_PERMISSION_ERROR_CODES : Type :=
| INVALID_SCOPE | UNSUPPORTED_STATUS | UNSUPPORTED_USER_FEATURE
| UNSUPPORTED_TYPE | MINIMAL_CONDITION_NOT_MET | AUTHOR_CANNOT_APPROVE.

Record Exception : Type := mkException {
  class : ErrorClass;
  message : string;
  code : option EXPENSE_PERMISSION_ERROR_CODES;
}.

Definition raise (c : ErrorClass) (msg : string) : Exception :=
  mkException c msg None.

Definition forbidden (msg : string) (c : EXPENSE_PERMISSION_ERROR_CODES)
  : Exception := mkException Forbidden msg (Some c).

(** A string between double quotes, as the messages interpolate it. *)
Definition quoted (s : string) : string :=
  String (ascii_of_nat 34) (s ++ String (ascii_of_nat 34) EmptyString).

Definition typeError : Exception :=
  raise TypeError "Cannot read properties of null".

Inductive Result (A : Type) : Type :=
| Ok (a : A)
| Throw (e : Exception).

Arguments Ok {A} a.
Arguments Throw {A} e.

Definition isOk {A} (r : Result A) : bool :=
  match r with Ok _ => true | Throw _ => false end.

(** [assert(cond, error)] of Node: throws the given error object, or an
    [AssertionError] carrying the message when a string is given. *)
Definition assert (cond : bool) (e : Exception) : Result unit :=
  if cond then Ok tt else Throw e.

Definition bindR {A B} (r : Result A) (k : A -> Result B) : Result B :=
  match r with
  | Ok a => k a
  | Throw e => Throw e
  end.

Notation "'let?' x ':=' r 'in' k" := (bindR r (fun x => k))
  (at level 10, x name, r at level 100, k at level 200,
   format "'[v' 'let?'  x  ':='  r  'in' '/' k ']'").

(** ** Data model *)

(** The resolved value of the [EXPENSE_AUTHOR_CANNOT_APPROVE] policy. *)
Module Policy.
Record t : Type := mk {
  enabled : bool;
  amountInCents : Z;
  appliesToHostedCollectives : bool;
  appliesToSingleAdminCollectives : bool;
}.
End Policy.

#[global] Instance Policy_eq_dec : EqDecision Policy.t.
Proof. solve_decision. Defined.

(** A fiscal host, as far as this file reads it. *)
Module Host.
Record t : Type := mk {
  id : Z;
  currency : string;
  (** [settings.payoutsTwoFactorAuth.enabled] *)
  payoutsTwoFactorAuth_enabled : option bool;
  (** [settings.payoutsTwoFactorAuth.rollingLimit] *)
  payoutsTwoFactorAuth_rollingLimit : option Z;
  (** [settings.transferwise.ott] *)
  transferwise_ott : option bool;
  (** what [getPolicy(host, EXPENSE_AUTHOR_CANNOT_APPROVE)] resolves to *)
  authorCannotApprove : Policy.t;
}.
End Host.

#[global] Instance Host_eq_dec : EqDecision Host.t.
Proof. solve_decision. Defined.

Module Collective.
Record t : Type := mk {
  id : Z;
  type : CollectiveType.t;
  currency : string;
  HostCollectiveId : option Z;
  ParentCollectiveId : option Z;
  (** [approvedAt] is set *)
  approvedAt : bool;
  isActive : bool;
  (** the preloaded [host] association, when there is one *)
  host : option Host.t;
  (** what [getPolicy(collective, EXPENSE_AUTHOR_CANNOT_APPROVE)] resolves to *)
  authorCannotApprove : Policy.t;
  (** [canBeUsedAsPayoutProfile()] *)
  canBeUsedAsPayoutProfile : bool;
}.
End Collective.

#[global] Instance Collective_eq_dec : EqDecision Collective.t.
Proof. solve_decision. Defined.

(** A user object with the methods of the [User] model this file calls. *)
Module User.
Record t : Type := mk {
  id : Z;
  email : string;
  (** [user.isAdmin(CollectiveId)] *)
  isAdmin : option Z -> bool;
  (** [user.isAdminOfCollective(collective)] *)
  isAdminOfCollective : option Collective.t -> bool;
  (** [user.isAdminOfPlatform()] *)
  isAdminOfPlatform : bool;
  (** [user.collective], the profile of the user *)
  collective : option Collective.t;
}.
End User.

(** The payee an invitation draft was created for ([expense.data.payee]):
    the keys that [pick(payee, ['id', 'legacyId', 'slug'])] and the e-mail
    comparison read. *)
Module DraftPayee.
Record t : Type := mk {
  id : option Z;
  legacyId : option Z;
  slug : option string;
  email : option string;
}.
End DraftPayee.

(** A bank transfer quote ([expense.data.quote], or a fresh one). *)
Module Quote.
Record t : Type := mk {
  sourceCurrency : string;
  targetCurrency : string;
  (** [paymentOption.fee.total], when a payment option is present *)
  paymentOption_fee_total : option Js.number;
}.
End Quote.

Module ExpenseTaxDefinition.
Record t : Type := mk {
  type : string;
  rate : Js.number;
}.
End ExpenseTaxDefinition.

Module ExpenseItem.
Record t : Type := mk {
  id : option Z;
  (** [None] stands for [null] / [undefined] *)
  amount : option Z;
  description : option string;
  url : option string;
  (** [expenseCurrencyFxRate], for an item in another currency *)
  expenseCurrencyFxRate : option Js.number;
}.
End ExpenseItem.

(** The [data] JSON column of an expense; a [null] column is the bag in
    which every key is absent. *)
Module Data.
Record t : Type := mk {
  isLocked : option bool;
  lockedFields : option (list ExpenseLockableFields.t);
  payee : option DraftPayee.t;
  draftKey : option string;
  quote : option Quote.t;
  taxes : option (list ExpenseTaxDefinition.t);
  (** presence of the other keys a previous automatic payment leaves *)
  transfer : bool;
  fund : bool;
  recipient : bool;
  paymentOption : bool;
}.

Definition empty : t :=
  mk None None None None None None false false false false.

(** [{ ...data, isLocked: b }] *)
Definition set_isLocked (b : bool) (d : t) : t :=
  mk (Some b) (lockedFields d) (payee d) (draftKey d) (quote d) (taxes d)
     (transfer d) (fund d) (recipient d) (paymentOption d).

(** [omit(data, ['transfer', 'quote', 'fund', 'recipient', 'paymentOption'])] *)
Definition omit_payment (d : t) : t :=
  mk (isLocked d) (lockedFields d) (payee d) (draftKey d) None (taxes d)
     false false false false.

(** truthiness of [data?.isLocked] *)
Definition locked (d : t) : bool :=
  match isLocked d with Some true => true | _ => false end.
End Data.

Module PayoutMethod.
Record t : Type := mk {
  id : Z;
  type : PayoutMethodTypes;
  (** [data.email], for PayPal *)
  email : option string;
  (** [unfilteredData.currency], for bank accounts *)
  currency : option string;
}.
End PayoutMethod.

Module Expense.
Record t : Type := mk {
  id : Z;
  UserId : Z;
  CollectiveId : Z;
  FromCollectiveId : Z;
  HostCollectiveId : option Z;
  status : ExpenseStatus;
  type : ExpenseType;
  amount : Z;
  currency : string;
  description : string;
  tags : option (list string);
  feesPayer : ExpenseFeesPayer.t;
  onHold : bool;
  legacyPayoutMethod : string;
  PayoutMethodId : option Z;
  PaymentMethodId : option Z;
  RecurringExpenseId : option Z;
  VirtualCardId : option Z;
  AccountingCategoryId : option Z;
  lastEditedById : option Z;
  (** the loaded associations *)
  collective : option Collective.t;
  fromCollective : option Collective.t;
  items : list ExpenseItem.t;
  attachedFiles : list string;
  data : Data.t;
}.

Definition set_status (s : ExpenseStatus) (e : t) : t :=
  mk (id e) (UserId e) (CollectiveId e) (FromCollectiveId e)
     (HostCollectiveId e) s (type e) (amount e) (currency e)
     (description e) (tags e) (feesPayer e) (onHold e)
     (legacyPayoutMethod e) (PayoutMethodId e) (PaymentMethodId e)
     (RecurringExpenseId e) (VirtualCardId e) (AccountingCategoryId e)
     (lastEditedById e) (collective e) (fromCollective e) (items e)
     (attachedFiles e) (data e).

Definition set_lastEditedById (u : option Z) (e : t) : t :=
  mk (id e) (UserId e) (CollectiveId e) (FromCollectiveId e)
     (HostCollectiveId e) (status e) (type e) (amount e) (currency e)
     (description e) (tags e) (feesPayer e) (onHold e)
     (legacyPayoutMethod e) (PayoutMethodId e) (PaymentMethodId e)
     (RecurringExpenseId e) (VirtualCardId e) (AccountingCategoryId e)
     u (collective e) (fromCollective e) (items e)
     (attachedFiles e) (data e).

Definition set_feesPayer (f : ExpenseFeesPayer.t) (e : t) : t :=
  mk (id e) (UserId e) (CollectiveId e) (FromCollectiveId e)
     (HostCollectiveId e) (status e) (type e) (amount e) (currency e)
     (description e) (tags e) f (onHold e)
     (legacyPayoutMethod e) (PayoutMethodId e) (PaymentMethodId e)
     (RecurringExpenseId e) (VirtualCardId e) (AccountingCategoryId e)
     (lastEditedById e) (collective e) (fromCollective e) (items e)
     (attachedFiles e) (data e).

Definition set_PaymentMethodId (p : option Z) (e : t) : t :=
  mk (id e) (UserId e) (CollectiveId e) (FromCollectiveId e)
     (HostCollectiveId e) (status e) (type e) (amount e) (currency e)
     (description e) (tags e) (feesPayer e) (onHold e)
     (legacyPayoutMethod e) (PayoutMethodId e) p
     (RecurringExpenseId e) (VirtualCardId e) (AccountingCategoryId e)
     (lastEditedById e) (collective e) (fromCollective e) (items e)
     (attachedFiles e) (data e).

Definition set_HostCollectiveId (h : option Z) (e : t) : t :=
  mk (id e) (UserId e) (CollectiveId e) (FromCollectiveId e)
     h (status e) (type e) (amount e) (currency e)
     (description e) (tags e) (feesPayer e) (onHold e)
     (legacyPayoutMethod e) (PayoutMethodId e) (PaymentMethodId e)
     (RecurringExpenseId e) (VirtualCardId e) (AccountingCategoryId e)
     (lastEditedById e) (collective e) (fromCollective e) (items e)
     (attachedFiles e) (data e).

(** the columns an edit writes *)
Definition set_edited (desc : string) (ty : ExpenseType) (cur : string)
  (amt : Z) (s : ExpenseStatus) (u : option Z) (e : t) : t :=
  mk (id e) (UserId e) (CollectiveId e) (FromCollectiveId e)
     (HostCollectiveId e) s ty amt cur
     desc (tags e) (feesPayer e) (onHold e)
     (legacyPayoutMethod e) (PayoutMethodId e) (PaymentMethodId e)
     (RecurringExpenseId e) (VirtualCardId e) (AccountingCategoryId e)
     u (collective e) (fromCollective e) (items e)
     (attachedFiles e) (data e).

Definition set_data (d : Data.t) (e : t) : t :=
  mk (id e) (UserId e) (CollectiveId e) (FromCollectiveId e)
     (HostCollectiveId e) (status e) (type e) (amount e) (currency e)
     (description e) (tags e) (feesPayer e) (onHold e)
     (legacyPayoutMethod e) (PayoutMethodId e) (PaymentMethodId e)
     (RecurringExpenseId e) (VirtualCardId e) (AccountingCategoryId e)
     (lastEditedById e) (collective e) (fromCollective e) (items e)
     (attachedFiles e) d.
End Expense.

(** The incoming request: the authenticated user, the result of
    [checkScope(req, scope)] and the data loaders it carries. *)
Record Request : Type := mkRequest {
  remoteUser : option User.t;
  checkScope : string -> bool;
  (** [req.loaders.Collective.byId.load] *)
  loadCollective : Z -> option Collective.t;
  (** the same loader, for the host of a collective *)
  loadHost : Z -> option Host.t;
  (** [req.loaders.Member.countAdminMembersOfCollective.load] *)
  countAdminMembersOfCollective : Z -> Z;
}.

(** The edit input ([ExpenseData]): the keys the checks below read.
    [otherChanges] records that one of the remaining keys (long description,
    private message, payout method, ...) carries a changing value. *)
Module ExpenseData.
Inductive accountingCategoryInput : Type :=
| Undefined
| Null
| Category (id : Z).

Record t : Type := mk {
  id : Z;
  description : option string;
  type : option ExpenseType;
  currency : option string;
  amount : option Js.number;
  items : option (list ExpenseItem.t);
  tax : option (list ExpenseTaxDefinition.t);
  tags : option (list string);
  accountingCategory : accountingCategoryInput;
  attachedFiles : option (list string);
  fromCollective : option Collective.t;
  otherChanges : bool;
}.
End ExpenseData.

(** What [checkLockedFields] receives as the updated payee. *)
Inductive PayeeInput : Type :=
| PayeeLegacyId (legacyId : option Z)          (* [{ legacyId }] *)
| PayeeAccount (id : option Z)                 (* a [Collective] *)
| PayeeEmail (email : string).                 (* [{ email, name }] *)

Module PairStats.
Record t : Type := mk {
  (** [None] when [latestRate] is not a number *)
  latestRate : option Js.number;
  stddev : Js.number;
}.
End PairStats.

(** [FeesArgs] *)
Module FeesArgs.
Record t : Type := mk {
  paymentProcessorFeeInCollectiveCurrency : option Js.number;
  hostFeeInCollectiveCurrency : option Js.number;
  platformFeeInCollectiveCurrency : option Js.number;
}.
Definition empty : t := mk None None None.
End FeesArgs.

(** [PayExpenseArgs] *)
Module PayExpenseArgs.
Record t : Type := mk {
  id : Z;
  forceManual : bool;
  feesPayer : option ExpenseFeesPayer.t;
  paymentProcessorFeeInHostCurrency : option Z;
  totalAmountPaidInHostCurrency : option Z;
  (** a [paymentMethodService] was given *)
  paymentMethodService : bool;
  (** the fee keys that [pick(args, ...)] may find on the object *)
  manualFees : FeesArgs.t;
}.
End PayExpenseArgs.

(** ** Collaborators *)

(** Calls that leave the process: payment providers, the ledger, the
    two-factor library.  Each is recorded in the trace of the world, and
    its outcome is read from the environment. *)
Inductive ExternalCall : Type :=
| TransferwiseQuoteExpense
| TransferwisePayExpense
| PaypalAdaptivePay
| GetAccountForPaymentProvider
| FindOrCreatePaymentMethod
| CreateTransactionsForManuallyPaidExpense
| CreateTransactionsFromPaidExpense
| SetAndSavePaymentMethodIfMissing
| PaymentMethodUpdateBalance
| TwoFactorValidateRequest
| TwoFactorEnforceForAccount
| TwoFactorEnforceForAccountsUserIsAdminOf.

#[global] Instance ExternalCall_eq_dec : EqDecision ExternalCall.
Proof. solve_decision. Defined.

(** [executePaymentResponse.paymentExecStatus] of the PayPal adaptive
    answer, with what the answer carries in each case: the approval URL,
    the first error message. *)
Inductive PaymentExecStatus : Type :=
| COMPLETED
| CREATED (paymentApprovalUrl : string)
| EXEC_ERROR (errorMessage : string)
| EXEC_OTHER.

Record Env : Type := mkEnv {
  (** lib/user-permissions *)
  canUseFeature : option User.t -> FEATURE -> bool;
  (** constants/platform *)
  PlatformUserId : Z;
  (** [getPolicy(undefined, EXPENSE_AUTHOR_CANNOT_APPROVE)] *)
  defaultAuthorCannotApprove : Policy.t;
  (** [models.Expense.computeTotalAmountForExpense] *)
  computeTotalAmountForExpense :
    list ExpenseItem.t -> list ExpenseTaxDefinition.t -> Js.number;
  (** [@opencollective/taxes] *)
  accountHasVAT : option Collective.t -> option Host.t -> bool;
  accountHasGST : option Host.t -> bool;
  (** [fetchAccountWithReference], giving the id of the account *)
  fetchAccountWithReference : DraftPayee.t -> option Z;
  (** [models.User.findOne({ where: { CollectiveId } })], giving the e-mail *)
  findUserByCollectiveId : option Z -> option string;
  (** [collective.getBalanceWithBlockedFunds()] *)
  getBalanceWithBlockedFunds : Collective.t -> Z;
  (** lib/currency *)
  getFxRate : string -> string -> Js.number;
  convertToCurrency : Z -> string -> string -> Z;
  (** [models.CurrencyExchangeRate.getPairStats] *)
  getPairStats : string -> string -> option PairStats.t;
  (** [models.PayoutMethod.typeSupportsFeesPayer] *)
  typeSupportsFeesPayer : option PayoutMethodTypes -> bool;
  (** [expense.getPayoutMethodTypeFromLegacy()] *)
  getPayoutMethodTypeFromLegacy : Expense.t -> PayoutMethodTypes;
  (** [expense.getPayoutMethod()] *)
  getPayoutMethod : Expense.t -> option PayoutMethod.t;
  (** [collective.getHostCollective()] *)
  getHostCollective : Collective.t -> option Host.t;
  (** lib/math *)
  floatAmountToCents : Js.number -> Js.number;
  (** lib/utils: an amount in minor units, shown in its currency *)
  formatCurrency : Js.number -> string -> string;
  (** the quote [paymentProviders.transferwise.quoteExpense] answers *)
  transferwiseQuote : Expense.t -> Quote.t;
  (** [paymentProviders.paypal.types.adaptive.fees] *)
  paypalAdaptiveFees : Z -> string -> Host.t -> option Js.number;
  (** [paymentExecStatus] of the answer of the PayPal adaptive [pay] *)
  paypalPaymentExecStatus : Expense.t -> PaymentExecStatus;
  (** the name of the PayPal adaptive payment method of the host, when
      [host.getPaymentMethod] finds one *)
  hostPaypalPaymentMethod : Host.t -> option string;
  (** [twoFactorAuthLib.userHasTwoFactorAuthEnabled] *)
  userHasTwoFactorAuthEnabled : option User.t -> bool;
  (** [parseToBoolean(process.env.DISABLE_PAYPAL_ADAPTIVE) && !remoteUser.isRoot()] *)
  paypalAdaptiveUnderMaintenance : option User.t -> bool;
  (** the error an external call fails with, if it fails *)
  failure : ExternalCall -> option Exception;
  (** Verdicts of validators of this file that [editExpense] runs before
      its permission check and that read models outside the source tree
      ([AccountingCategory], account settings, [UploadedFile]); the host
      argument of the first stands for [expense.host ?? collective.host]. *)
  checkCanUseAccountingCategory :
    option User.t -> ExpenseType -> Z -> option Host.t -> Collective.t ->
    Result unit;
  checkExpenseType :
    ExpenseType -> option Collective.t -> Collective.t -> Expense.t ->
    option User.t -> Result unit;
  (** [prepareExpenseItemInputs] on a non-empty input *)
  prepareItems :
    Request -> string -> list ExpenseItem.t -> Result (list ExpenseItem.t);
  (** [flatten(models.ExpenseItem.diffDBEntries(existing, items)).length > 0] *)
  itemsDiffer : list ExpenseItem.t -> list ExpenseItem.t -> bool;
  (** the id of the payment method [host.findOrCreatePaymentMethod] gives *)
  manualPaymentMethodId : Host.t -> Z;
}.

(** ** The world and the monad of effects *)

Inductive ActivityType : Type :=
| COLLECTIVE_EXPENSE_APPROVED
| COLLECTIVE_EXPENSE_UNAPPROVED
| COLLECTIVE_EXPENSE_REJECTED
| COLLECTIVE_EXPENSE_MARKED_AS_SPAM
| COLLECTIVE_EXPENSE_PROCESSING
| COLLECTIVE_EXPENSE_PAID
| COLLECTIVE_EXPENSE_UPDATED.

Inductive Effect : Type :=
| ActivityCreated (type : ActivityType) (ExpenseId : Z) (UserId : option Z)
| NotifiedTeamAboutSpamExpense (ExpenseId : Z)
| Called (c : ExternalCall).

Record World : Type := mkWorld {
  (** the [Expenses] table *)
  Expenses : gmap Z Expense.t;
  (** the ids of the live rows of [RecurringExpenses] *)
  RecurringExpenses : gset Z;
  (** the features users were limited from, most recent first *)
  limitedFeatures : list (Z * FEATURE);
  (** the cache (expiry is not modelled) *)
  cache : gmap string Z;
  (** activities and external calls, oldest first *)
  trace : list Effect;
}.

Definition set_Expenses (f : gmap Z Expense.t -> gmap Z Expense.t)
  (w : World) : World :=
  mkWorld (f (Expenses w)) (RecurringExpenses w) (limitedFeatures w)
    (cache w) (trace w).

Definition set_RecurringExpenses (f : gset Z -> gset Z) (w : World) : World :=
  mkWorld (Expenses w) (f (RecurringExpenses w)) (limitedFeatures w)
    (cache w) (trace w).

Definition set_limitedFeatures
  (f : list (Z * FEATURE) -> list (Z * FEATURE)) (w : World) : World :=
  mkWorld (Expenses w) (RecurringExpenses w) (f (limitedFeatures w))
    (cache w) (trace w).

Definition set_cache (f : gmap string Z -> gmap string Z) (w : World)
  : World :=
  mkWorld (Expenses w) (RecurringExpenses w) (limitedFeatures w)
    (f (cache w)) (trace w).

Definition set_trace (f : list Effect -> list Effect) (w : World) : World :=
  mkWorld (Expenses w) (RecurringExpenses w) (limitedFeatures w)
    (cache w) (f (trace w)).

Definition M (A : Type) : Type := World -> Result A * World.

Definition ret {A} (a : A) : M A := fun w => (Ok a, w).

Definition throw {A} (e : Exception) : M A := fun w => (Throw e, w).

Definition bind {A B} (c : M A) (k : A -> M B) : M B :=
  fun w =>
    match c w with
    | (Ok a, w') => k a w'
    | (Throw e, w') => (Throw e, w')
    end.

Notation "'let*' x ':=' c 'in' k" := (bind c (fun x => k))
  (at level 10, x name, c at level 100, k at level 200,
   format "'[v' 'let*'  x  ':='  c  'in' '/' k ']'").

Definition liftR {A} (r : Result A) : M A := fun w => (r, w).

Definition gets {A} (f : World -> A) : M A := fun w => (Ok (f w), w).

Definition modify (f : World -> World) : M unit := fun w => (Ok tt, f w).

(** [try { body } catch (error) { handler(error) }] *)
Definition tryCatch {A} (body : M A) (handler : Exception -> M A) : M A :=
  fun w =>
    match body w with
    | (Ok a, w') => (Ok a, w')
    | (Throw e, w') => handler e w'
    end.

(** [try { body } finally { cleanup }]: the cleanup always runs, and an
    exception of the cleanup replaces the outcome of the body. *)
Definition tryFinally {A} (body : M A) (cleanup : M unit) : M A :=
  fun w =>
    match body w with
    | (r, w') =>
        match cleanup w' with
        | (Ok _, w'') => (r, w'')
        | (Throw e, w'') => (Throw e, w'')
        end
    end.

Definition record (e : Effect) : M unit :=
  modify (set_trace (fun t => (t ++ [e])%list)).

(** An awaited call to an external collaborator. *)
Definition call (env : Env) (c : ExternalCall) : M unit :=
  let* _ := record (Called c) in
  match failure env c with
  | None => ret tt
  | Some e => throw e
  end.

(** [models.Expense.findByPk(id)] *)
Definition findByPk (id : Z) : M (option Expense.t) :=
  gets (fun w => Expenses w !! id).

(** [expense.update(values)]: the row is written with the new values. *)
Definition update (e : Expense.t) : M Expense.t :=
  let* _ := modify (set_Expenses (fun t => <[Expense.id e := e]> t)) in
  ret e.

(** [expense.createActivity(type, user)] *)
Definition createActivity (type : ActivityType) (e : Expense.t)
  (user : option User.t) : M unit :=
  record (ActivityCreated type (Expense.id e) (User.id <$> user)).

(** [cache.get(key)] and [cache.set(key, value, ttl)] *)
Definition cache_get (key : string) : M (option Z) :=
  gets (fun w => cache w !! key).

Definition cache_set (key : string) (value : Z) (ttl : Z) : M unit :=
  modify (set_cache (fun c => <[key := value]> c)).

(** [req.remoteUser.id], a [TypeError] without a user. *)
Definition remoteUser_id (req : Request) : Result Z :=
  match remoteUser req with
  | Some u => Ok (User.id u)
  | None => Throw typeError
  end.

(** ** Permission evaluators *)

(** A role predicate [(req, expense) => Promise<boolean>]. *)
Definition Condition : Type := Request -> Expense.t -> Result bool.

(** Truthiness of a nullable id. *)
Definition truthyId (i : option Z) : bool :=
  match i with
  | Some n => negb (bool_decide (n = 0))
  | None => false
  end.

(** [expense.collective || (await req.loaders.Collective.byId.load(expense.CollectiveId))] *)
Definition loadedCollective (req : Request) (expense : Expense.t)
  : option Collective.t :=
  match Expense.collective expense with
  | Some c => Some c
  | None => loadCollective req (Expense.CollectiveId expense)
  end.

Definition loadedFromCollective (req : Request) (expense : Expense.t)
  : option Collective.t :=
  match Expense.fromCollective expense with
  | Some c => Some c
  | None => loadCollective req (Expense.FromCollectiveId expense)
  end.

Definition isOwner : Condition := fun req expense =>
  let fromCollective := loadedFromCollective req expense in
  match remoteUser req with
  | None => Ok false
  | Some user =>
      if bool_decide (User.id user = Expense.UserId expense) then
        match fromCollective with
        | None => Throw typeError
        | Some payee =>
            if negb (bool_decide (Collective.type payee = CollectiveType.VENDOR))
            then Ok true
            else Ok (User.isAdminOfCollective user fromCollective)
        end
      else
        match fromCollective with
        | None => Ok false
        | Some _ => Ok (User.isAdminOfCollective user fromCollective)
        end
  end.

Definition toLowerCase_ascii (c : ascii) : ascii :=
  let n := nat_of_ascii c in
  if (Nat.leb 65 n && Nat.leb n 90)%bool then ascii_of_nat (n + 32) else c.

Fixpoint toLowerCase (s : string) : string :=
  match s with
  | EmptyString => EmptyString
  | String c s' => String (toLowerCase_ascii c) (toLowerCase s')
  end.

Definition isDraftPayee (env : Env) : Condition := fun req expense =>
  match remoteUser req with
  | None => Ok false
  | Some user =>
      match Data.payee (Expense.data expense) with
      | None => Ok false
      | Some payee =>
          match DraftPayee.id payee, DraftPayee.legacyId payee,
                DraftPayee.slug payee with
          | None, None, None =>
              match DraftPayee.email payee with
              | Some email =>
                  if bool_decide (email = EmptyString) then Ok false
                  else Ok (bool_decide (User.email user = toLowerCase email))
              | None => Ok false
              end
          | _, _, _ =>
              match fetchAccountWithReference env payee with
              | None => Ok false
              | Some id => Ok (User.isAdmin user (Some id))
              end
          end
      end
  end.

Definition isPlatformAdmin (req : Request) : bool :=
  match remoteUser req with
  | None => false
  | Some user => User.isAdminOfPlatform user
  end.

Definition isCollectiveAdmin (req : Request) (expense : Expense.t) : bool :=
  match remoteUser req with
  | None => false
  | Some user => User.isAdminOfCollective user (loadedCollective req expense)
  end.

Definition isHostAdmin (req : Request) (expense : Expense.t) : bool :=
  match remoteUser req with
  | None => false
  | Some user =>
      if truthyId (Expense.HostCollectiveId expense)
      then User.isAdmin user (Expense.HostCollectiveId expense)
      else
        match loadedCollective req expense with
        | None => false
        | Some collective =>
            User.isAdmin user (Collective.HostCollectiveId collective)
            && Collective.isActive collective
        end
  end.

(** A predicate that cannot throw, as a [Condition]. *)
Definition cond (f : Request -> Expense.t -> bool) : Condition :=
  fun req expense => Ok (f req expense).

(** The [for] loop of [remoteUserMeetsOneCondition]. *)
Fixpoint meetsOne (conditions : list Condition) (req : Request)
  (expense : Expense.t) : Result bool :=
  match conditions with
  | [] => Ok false
  | condition :: rest =>
      let? met := condition req expense in
      if met then Ok true else meetsOne rest req expense
  end.

Definition remoteUserMeetsOneCondition (req : Request) (expense : Expense.t)
  (conditions : list Condition) (throw : bool) : Result bool :=
  match remoteUser req with
  | None =>
      if throw
      then Throw (forbidden "User is required" MINIMAL_CONDITION_NOT_MET)
      else Ok false
  | Some _ =>
      let? met := meetsOne conditions req expense in
      if met then Ok true
      else if throw
      then Throw (forbidden
                    "You do not have the necessary permissions to perform this action"
                    MINIMAL_CONDITION_NOT_MET)
      else Ok false
  end.

Definition validateExpenseScope (req : Request) (throw : bool) : Result bool :=
  if negb (checkScope req "expenses") then
    if throw
    then Throw (forbidden
                  "You do not have the necessary scope to perform this action"
                  INVALID_SCOPE)
    else Ok false
  else Ok true.

(** The shared opening of the write evaluators. *)
Definition missingScope (throw : bool) : Result bool :=
  if throw
  then Throw (forbidden "Your current token is missing the necessary scope"
                INVALID_SCOPE)
  else Ok false.

(** [if (options?.throw) { throw error } return false] *)
Definition deny (throw : bool) (e : Exception) : Result bool :=
  if throw then Throw e else Ok false.

Definition includes_status (l : list ExpenseStatus) (s : ExpenseStatus)
  : bool := bool_decide (s ∈ l).

Definition canEditExpense (env : Env) (req : Request) (expense : Expense.t)
  (throw : bool) : Result bool :=
  let? scope := validateExpenseScope req throw in
  if negb scope then missingScope throw
  else
    let nonEditableStatuses :=
      [PAID; PROCESSING; SCHEDULED_FOR_PAYMENT; CANCELED; INVITE_DECLINED] in
    if bool_decide (Expense.type expense = CHARGE)
       && includes_status [PAID; PROCESSING] (Expense.status expense)
    then remoteUserMeetsOneCondition req expense
           [isOwner; cond isHostAdmin; cond isCollectiveAdmin] throw
    else if bool_decide (Expense.status expense = DRAFT)
    then remoteUserMeetsOneCondition req expense
           [isOwner; cond isHostAdmin; isDraftPayee env] throw
    else if includes_status nonEditableStatuses (Expense.status expense)
    then deny throw (forbidden "Can not edit expense in current status"
                       UNSUPPORTED_STATUS)
    else if negb (canUseFeature env (remoteUser req) USE_EXPENSES)
    then deny throw (forbidden "User cannot edit expenses"
                       UNSUPPORTED_USER_FEATURE)
    else remoteUserMeetsOneCondition req expense
           [isOwner; cond isHostAdmin; cond isCollectiveAdmin] throw.

Definition canPayExpense (env : Env) (req : Request) (expense : Expense.t)
  (throw : bool) : Result bool :=
  let? scope := validateExpenseScope req throw in
  if negb scope then missingScope throw
  else if negb (includes_status [APPROVED; ERROR] (Expense.status expense))
  then deny throw (forbidden "Can not pay expense in current status"
                     UNSUPPORTED_STATUS)
  else if negb (canUseFeature env (remoteUser req) USE_EXPENSES)
  then deny throw (forbidden "User cannot pay expenses"
                     UNSUPPORTED_USER_FEATURE)
  else remoteUserMeetsOneCondition req expense [cond isHostAdmin] throw.

(** [getPolicy(account, POLICIES.EXPENSE_AUTHOR_CANNOT_APPROVE)] *)
Definition getPolicy_host (env : Env) (host : option Host.t) : Policy.t :=
  match host with
  | Some h => Host.authorCannotApprove h
  | None => defaultAuthorCannotApprove env
  end.

(** The host that [canApprove] resolves on [expense.collective.host]. *)
Definition approvalHost (req : Request) (collective : Collective.t)
  : option Host.t :=
  if truthyId (Collective.HostCollectiveId collective)
     && Collective.approvedAt collective
  then
    match Collective.host collective with
    | Some h => Some h
    | None =>
        match Collective.HostCollectiveId collective with
        | Some hid => loadHost req hid
        | None => None
        end
    end
  else Collective.host collective.

(** The policy that [canApprove] applies to the author. *)
Definition authorPolicy (env : Env) (req : Request)
  (collective : Collective.t) : Policy.t :=
  let hostPolicy := getPolicy_host env (approvalHost req collective) in
  let collectivePolicy := Collective.authorCannotApprove collective in
  if Policy.enabled hostPolicy && Policy.appliesToHostedCollectives hostPolicy
  then
    if negb (Policy.appliesToSingleAdminCollectives hostPolicy)
    then
      if bool_decide
           (countAdminMembersOfCollective req (Collective.id collective) = 1)
      then collectivePolicy
      else hostPolicy
    else hostPolicy
  else collectivePolicy.

Definition canApprove (env : Env) (req : Request) (expense : Expense.t)
  (throw : bool) : Result bool :=
  let? scope := validateExpenseScope req throw in
  if negb scope then missingScope throw
  else if negb (includes_status [PENDING; REJECTED; INCOMPLETE]
                  (Expense.status expense))
  then deny throw
         (forbidden ("Can not approve expense in current status ("
                     ++ statusName (Expense.status expense) ++ ")")
            UNSUPPORTED_STATUS)
  else if negb (canUseFeature env (remoteUser req) USE_EXPENSES)
  then deny throw (forbidden "User cannot approve expenses"
                     UNSUPPORTED_USER_FEATURE)
  else
    match loadedCollective req expense with
    | None => Throw typeError
    | Some collective =>
        let policy := authorPolicy env req collective in
        let? isAuthor :=
          if Policy.enabled policy
             && bool_decide (Expense.amount expense >= Policy.amountInCents policy)
          then
            let? id := remoteUser_id req in
            Ok (bool_decide (id = Expense.UserId expense))
          else Ok false in
        if isAuthor
        then deny throw (forbidden "User cannot approve their own expenses"
                           AUTHOR_CANNOT_APPROVE)
        else if bool_decide (Expense.status expense = INCOMPLETE)
        then
          if isHostAdmin req expense then Ok true
          else deny throw
                 (forbidden "Only host admins can approve incomplete expenses"
                    MINIMAL_CONDITION_NOT_MET)
        else remoteUserMeetsOneCondition req expense
               [cond isCollectiveAdmin; cond isHostAdmin] throw
    end.

Definition canReject (env : Env) (req : Request) (expense : Expense.t)
  (throw : bool) : Result bool :=
  let? scope := validateExpenseScope req throw in
  if negb scope then missingScope throw
  else if negb (includes_status [PENDING; UNVERIFIED; INCOMPLETE]
                  (Expense.status expense))
  then deny throw
         (forbidden ("Can not reject expense in current status ("
                     ++ statusName (Expense.status expense) ++ ")")
            UNSUPPORTED_STATUS)
  else if negb (canUseFeature env (remoteUser req) USE_EXPENSES)
  then deny throw (forbidden "User cannot reject expenses"
                     UNSUPPORTED_USER_FEATURE)
  else if bool_decide (Expense.type expense = SETTLEMENT)
  then remoteUserMeetsOneCondition req expense
         [cond (fun req _ => isPlatformAdmin req)] throw
  else remoteUserMeetsOneCondition req expense
         [cond isCollectiveAdmin; cond isHostAdmin] throw.

Definition canMarkAsSpam (env : Env) (req : Request) (expense : Expense.t)
  (throw : bool) : Result bool :=
  let? scope := validateExpenseScope req throw in
  if negb scope then missingScope throw
  else if negb (includes_status [REJECTED] (Expense.status expense))
  then deny throw
         (forbidden ("Can not mark expense as spam in current status ("
                     ++ statusName (Expense.status expense) ++ ")")
            UNSUPPORTED_STATUS)
  else if negb (canUseFeature env (remoteUser req) USE_EXPENSES)
  then deny throw (forbidden "User cannot mark expenses as spam"
                     UNSUPPORTED_USER_FEATURE)
  else if bool_decide (Expense.UserId expense = PlatformUserId env)
  then deny throw (forbidden "Cannot mark platform expenses as spam"
                     UNSUPPORTED_USER_FEATURE)
  else remoteUserMeetsOneCondition req expense
         [cond isCollectiveAdmin; cond isHostAdmin] throw.

Definition canUnapprove (env : Env) (req : Request) (expense : Expense.t)
  (throw : bool) : Result bool :=
  let? scope := validateExpenseScope req throw in
  if negb scope then missingScope throw
  else if negb (includes_status [INCOMPLETE; APPROVED; ERROR]
                  (Expense.status expense))
  then deny throw
         (forbidden ("Can not unapprove expense in current status ("
                     ++ statusName (Expense.status expense) ++ ")")
            UNSUPPORTED_STATUS)
  else if negb (canUseFeature env (remoteUser req) USE_EXPENSES)
  then deny throw (forbidden "User cannot unapprove expenses"
                     UNSUPPORTED_USER_FEATURE)
  else if bool_decide (Expense.status expense = INCOMPLETE)
  then remoteUserMeetsOneCondition req expense [cond isHostAdmin] throw
  else remoteUserMeetsOneCondition req expense
         [cond isCollectiveAdmin; cond isHostAdmin] throw.

(** ** Expense actions *)

Definition approveExpense (env : Env) (req : Request) (expense : Expense.t)
  : M Expense.t :=
  if bool_decide (Expense.status expense = APPROVED) then ret expense
  else
    let* allowed := liftR (canApprove env req expense true) in
    if negb allowed then throw (raise Forbidden EmptyString)
    else
      let* id := liftR (remoteUser_id req) in
      let* updatedExpense :=
        update (Expense.set_lastEditedById (Some id)
                  (Expense.set_status APPROVED expense)) in
      let* _ := createActivity COLLECTIVE_EXPENSE_APPROVED updatedExpense
                  (remoteUser req) in
      ret updatedExpense.

Definition unapproveExpense (env : Env) (req : Request) (expense : Expense.t)
  : M Expense.t :=
  if bool_decide (Expense.status expense = PENDING) then ret expense
  else
    let* allowed := liftR (canUnapprove env req expense true) in
    if negb allowed then throw (raise Forbidden EmptyString)
    else
      let* id := liftR (remoteUser_id req) in
      let* updatedExpense :=
        update (Expense.set_lastEditedById (Some id)
                  (Expense.set_status PENDING expense)) in
      let* _ := createActivity COLLECTIVE_EXPENSE_UNAPPROVED updatedExpense
                  (remoteUser req) in
      ret updatedExpense.

Definition rejectExpense (env : Env) (req : Request) (expense : Expense.t)
  : M Expense.t :=
  if bool_decide (Expense.status expense = REJECTED) then ret expense
  else
    let* allowed := liftR (canReject env req expense true) in
    if negb allowed then throw (raise Forbidden EmptyString)
    else
      let* id := liftR (remoteUser_id req) in
      let* updatedExpense :=
        update (Expense.set_lastEditedById (Some id)
                  (Expense.set_status REJECTED expense)) in
      let* _ := createActivity COLLECTIVE_EXPENSE_REJECTED updatedExpense
                  (remoteUser req) in
      ret updatedExpense.

(** Modelled from the spec: [user.limitFeature(feature, reason)] of the
    [User] model is not in the source tree; the specification says the
    feature of the submitter "becomes disabled".  The limitation is
    recorded for the submitter the expense names ([getSubmitterUser]). *)
Definition limitFeature (UserId : Z) (feature : FEATURE) : M unit :=
  modify (set_limitedFeatures (fun l => (UserId, feature) :: l)).

(** Modelled from the spec: [expense.getRecurringExpense()] followed by
    [recurringExpense.destroy()]; "any linked recurring-expense record is
    deleted". *)
Definition destroyRecurringExpense (expense : Expense.t) : M unit :=
  match Expense.RecurringExpenseId expense with
  | None => ret tt
  | Some id =>
      let* live := gets (fun w => bool_decide (id ∈ RecurringExpenses w)) in
      if live
      then modify (set_RecurringExpenses (fun s => s ∖ {[id]}))
      else ret tt
  end.

Definition markExpenseAsSpam (env : Env) (req : Request) (expense : Expense.t)
  : M Expense.t :=
  if bool_decide (Expense.status expense = SPAM) then ret expense
  else
    let* allowed := liftR (canMarkAsSpam env req expense true) in
    if negb allowed then throw (raise Forbidden EmptyString)
    else
      let* id := liftR (remoteUser_id req) in
      let* updatedExpense :=
        update (Expense.set_lastEditedById (Some id)
                  (Expense.set_status SPAM expense)) in
      (* Limit the user so they can't submit expenses in the future *)
      let* _ := limitFeature (Expense.UserId updatedExpense) USE_EXPENSES in
      (* Cancel recurring expense *)
      let* _ := destroyRecurringExpense updatedExpense in
      let* _ := createActivity COLLECTIVE_EXPENSE_MARKED_AS_SPAM
                  updatedExpense (remoteUser req) in
      let* _ := record (NotifiedTeamAboutSpamExpense
                          (Expense.id updatedExpense)) in
      ret updatedExpense.

(** ** Two-factor rolling limit *)

Definition ROLLING_LIMIT_CACHE_VALIDITY : Z := 3600.

Definition validateExpensePayout2FALimit (env : Env) (req : Request)
  (host : Host.t) (expense : Expense.t) (expensePaidAmountKey : string)
  : M unit :=
  let hostPayoutTwoFactorAuthenticationRollingLimit :=
    default 1000000 (Host.payoutsTwoFactorAuth_rollingLimit host) in
  let* currentPaidExpenseAmountCache := cache_get expensePaidAmountKey in
  let currentPaidExpenseAmount := default 0 currentPaidExpenseAmountCache in
  let expenseAmountInHostCurrency :=
    convertToCurrency env (Expense.amount expense) (Expense.currency expense)
      (Host.currency host) in
  let use2FAToken :=
    bool_decide (currentPaidExpenseAmountCache = None)
    || bool_decide (currentPaidExpenseAmount + expenseAmountInHostCurrency
                    > hostPayoutTwoFactorAuthenticationRollingLimit) in
  if negb (userHasTwoFactorAuthEnabled env (remoteUser req))
  then throw (raise PlainError
                "Host has two-factor authentication enabled for large payouts.")
  else
    let* _ := call env TwoFactorValidateRequest in
    if use2FAToken
    then cache_set expensePaidAmountKey 0 ROLLING_LIMIT_CACHE_VALIDITY
    else cache_set expensePaidAmountKey
           (currentPaidExpenseAmount + expenseAmountInHostCurrency)
           ROLLING_LIMIT_CACHE_VALIDITY.

(** ** Validation of items and attached files *)

Definition isNil {A} (x : option A) : bool :=
  match x with None => true | Some _ => false end.

(** Truthiness of an optional string ([item.url]). *)
Definition truthyString (s : option string) : bool :=
  match s with
  | Some v => negb (bool_decide (v = EmptyString))
  | None => false
  end.

(** The [forEach] that checks the amounts stops at the first item whose
    amount is nil. *)
Fixpoint firstItemWithoutAmount (items : list ExpenseItem.t) (idx : nat)
  : option (ExpenseItem.t * nat) :=
  match items with
  | [] => None
  | item :: rest =>
      if isNil (ExpenseItem.amount item) then Some (item, idx)
      else firstItemWithoutAmount rest (S idx)
  end.

Definition checkExpenseItems (env : Env) (expenseType : ExpenseType)
  (items : option (list ExpenseItem.t))
  (taxes : list ExpenseTaxDefinition.t) : Result unit :=
  match items with
  | None =>
      Throw (raise ValidationFailed
               "Your expense needs to have at least one item")
  | Some items =>
      if bool_decide (length items = 0%nat)
      then Throw (raise ValidationFailed
                    "Your expense needs to have at least one item")
      else if Nat.ltb 300 (length items)
      then Throw (raise ValidationFailed
                    "Expenses cannot have more than 300 items")
      else
        match firstItemWithoutAmount items 0 with
        | Some (item, idx) =>
            Throw (raise ValidationFailed
                     ("Amount not set for item "
                      ++ match ExpenseItem.description item with
                         | Some description =>
                             if truthyString (Some description)
                             then quoted description
                             else "number " ++ pretty idx
                         | None => "number " ++ pretty idx
                         end))
        | None =>
            let sumItems := computeTotalAmountForExpense env items taxes in
            if negb (Js.truthy sumItems)
            then Throw (raise ValidationFailed
                          "The sum of all items must be above 0")
            else
              match expenseType with
              | RECEIPT =>
                  if existsb (fun a => negb (truthyString (ExpenseItem.url a)))
                       items
                  then Throw (raise ValidationFailed
                                "Some items are missing a file")
                  else Ok tt
              | INVOICE =>
                  if existsb (fun a => truthyString (ExpenseItem.url a)) items
                  then Throw (raise ValidationFailed
                                "Invoice items cannot have a file attached. To attach documentation. please use `attachedFiles` on the expense instead.")
                  else Ok tt
              | _ => Ok tt
              end
        end
  end.

(** [size(expenseData.attachedFiles) > 15], in [createExpense] and in
    [editExpense]. *)
Definition checkAttachedFiles (attachedFiles : option (list string))
  : Result unit :=
  if Nat.ltb 15 (length (default [] attachedFiles))
  then Throw (raise ValidationFailed
                "The number of files that you can attach to an expense is limited to 15")
  else Ok tt.

(** Modelled from the spec: [models.Expense.computeTotalAmountForExpense]
    is not in the source tree; "amount always equals the sum of line
    items' amounts expressed in expense currency (after FX normalization)
    plus taxes". *)
Definition itemAmountInExpenseCurrency (item : ExpenseItem.t) : Js.number :=
  Js.round (Js.mul (Js.ofZ (default 0 (ExpenseItem.amount item)))
              (default (Js.ofZ 1) (ExpenseItem.expenseCurrencyFxRate item))).

Definition totalAmountForExpense (items : list ExpenseItem.t)
  (taxes : list ExpenseTaxDefinition.t) : Js.number :=
  Js.round
    (fold_left
       (fun total item =>
          let amount := itemAmountInExpenseCurrency item in
          let totalTaxes :=
            fold_left
              (fun t tax => Js.add t (Js.mul amount (ExpenseTaxDefinition.rate tax)))
              taxes (Js.ofZ 0) in
          Js.add total (Js.add amount totalTaxes))
       items (Js.ofZ 0)).

(** ** Locked fields and edition *)

(** [isValueChanging(expense, expenseData, key)], key by key:
    [!isNil(value) && !isEqual(value, expense[key])]. *)
Definition changing {A} `{EqDecision A} (value : option A) (current : A)
  : bool :=
  match value with
  | None => false
  | Some v => negb (bool_decide (v = current))
  end.

Definition isValueChanging_description (expense : Expense.t)
  (expenseData : ExpenseData.t) : bool :=
  changing (ExpenseData.description expenseData) (Expense.description expense).

Definition isValueChanging_type (expense : Expense.t)
  (expenseData : ExpenseData.t) : bool :=
  changing (ExpenseData.type expenseData) (Expense.type expense).

Definition isValueChanging_currency (expense : Expense.t)
  (expenseData : ExpenseData.t) : bool :=
  changing (ExpenseData.currency expenseData) (Expense.currency expense).

Definition isValueChanging_amount (expense : Expense.t)
  (expenseData : ExpenseData.t) : bool :=
  changing (ExpenseData.amount expenseData) (Js.ofZ (Expense.amount expense)).

(** Input objects are never deeply equal to model instances: two arrays
    are equal only when both are empty. *)
Definition isValueChanging_items (expense : Expense.t)
  (expenseData : ExpenseData.t) : bool :=
  match ExpenseData.items expenseData with
  | None => false
  | Some l =>
      negb (bool_decide (length l = 0%nat)
            && bool_decide (length (Expense.items expense) = 0%nat))
  end.

Definition isValueChanging_attachedFiles (expense : Expense.t)
  (expenseData : ExpenseData.t) : bool :=
  match ExpenseData.attachedFiles expenseData with
  | None => false
  | Some l =>
      negb (bool_decide (length l = 0%nat)
            && bool_decide (length (Expense.attachedFiles expense) = 0%nat))
  end.

(** [expense.tax] does not exist. *)
Definition isValueChanging_tax (expenseData : ExpenseData.t) : bool :=
  negb (isNil (ExpenseData.tax expenseData)).

Definition isValueChanging_tags (expense : Expense.t)
  (expenseData : ExpenseData.t) : bool :=
  match ExpenseData.tags expenseData with
  | None => false
  | Some l => negb (bool_decide (Some l = Expense.tags expense))
  end.

Definition isValueChanging_fromCollective (expense : Expense.t)
  (expenseData : ExpenseData.t) : bool :=
  match ExpenseData.fromCollective expenseData with
  | None => false
  | Some c => negb (bool_decide (Some c = Expense.fromCollective expense))
  end.

(** [!isUndefined(value) && (value?.id ?? null) !== expense.AccountingCategoryId] *)
Definition isValueChanging_accountingCategory (expense : Expense.t)
  (expenseData : ExpenseData.t) : bool :=
  match ExpenseData.accountingCategory expenseData with
  | ExpenseData.Undefined => false
  | ExpenseData.Null =>
      negb (bool_decide (Expense.AccountingCategoryId expense = None))
  | ExpenseData.Category id =>
      negb (bool_decide (Expense.AccountingCategoryId expense = Some id))
  end.

Definition includes_lock (l : list ExpenseLockableFields.t)
  (f : ExpenseLockableFields.t) : bool := bool_decide (f ∈ l).

Definition payeeInput_id (p : PayeeInput) : option Z :=
  match p with
  | PayeeLegacyId i => i
  | PayeeAccount i => i
  | PayeeEmail _ => None
  end.

(** The [PAYEE] block of [checkLockedFields]. *)
Definition checkLockedPayee (env : Env) (existing : Expense.t)
  (payee : PayeeInput) : Result unit :=
  match Data.payee (Expense.data existing) with
  | None => Throw typeError
  | Some expectedPayee =>
      match DraftPayee.id expectedPayee with
      | Some expectedId =>
          let updatedId := payeeInput_id payee in
          assert (truthyId updatedId && bool_decide (Some expectedId = updatedId))
            (raise Forbidden "Payee cannot be edited")
      | None =>
          match DraftPayee.email expectedPayee with
          | Some expectedEmail =>
              match payee with
              | PayeeEmail email =>
                  assert (bool_decide (expectedEmail = email))
                    (raise Forbidden "Payee cannot be edited")
              | _ =>
                  let updatedId := payeeInput_id payee in
                  assert
                    (bool_decide (findUserByCollectiveId env updatedId
                                  = Some expectedEmail))
                    (raise Forbidden "Payee cannot be edited")
              end
          | None => Ok tt
          end
      end
  end.

Definition checkLockedFields (env : Env) (existing : Expense.t)
  (updated : ExpenseData.t) (payee : option PayeeInput) : Result unit :=
  match Data.lockedFields (Expense.data existing) with
  | None => Ok tt
  | Some lockedFields =>
      if includes_lock lockedFields ExpenseLockableFields.DESCRIPTION
         && isValueChanging_description existing updated
      then Throw (raise Forbidden "Description cannot be edited")
      else if includes_lock lockedFields ExpenseLockableFields.TYPE
              && isValueChanging_type existing updated
      then Throw (raise Forbidden "Type cannot be edited")
      else
        let? _ :=
          match payee with
          | Some p =>
              if includes_lock lockedFields ExpenseLockableFields.PAYEE
              then checkLockedPayee env existing p
              else Ok tt
          | None => Ok tt
          end in
        if includes_lock lockedFields ExpenseLockableFields.AMOUNT
        then
          let? _ := assert (negb (isValueChanging_amount existing updated))
                      (raise Forbidden "Amount cannot be edited") in
          assert (negb (isValueChanging_currency existing updated))
            (raise Forbidden "Currency cannot be edited")
        else Ok tt
  end.

Definition checkTaxes (env : Env) (account : option Collective.t)
  (host : option Host.t) (expenseType : ExpenseType)
  (taxes : list ExpenseTaxDefinition.t) : Result unit :=
  match taxes with
  | [] => Ok tt
  | [tax] =>
      if negb (bool_decide (expenseType = INVOICE))
      then Throw (raise ValidationFailed "Only invoices can have taxes")
      else
        let rate := ExpenseTaxDefinition.rate tax in
        if Js.lt rate (Js.ofZ 0) || Js.gt rate (Js.ofZ 1)
        then Throw (raise ValidationFailed
                      ("Tax rate for " ++ ExpenseTaxDefinition.type tax
                       ++ " must be between 0% and 100%"))
        else if bool_decide (ExpenseTaxDefinition.type tax = "VAT")
                && negb (accountHasVAT env account host)
        then Throw (raise ValidationFailed
                      "This account does not have VAT enabled")
        else if bool_decide (ExpenseTaxDefinition.type tax = "GST")
                && negb (accountHasGST env host)
        then Throw (raise ValidationFailed
                      "This host does not have GST enabled")
        else Ok tt
  | _ => Throw (raise ValidationFailed "Only one tax is allowed per expense")
  end.

Definition hasMultiCurrency (collective : Collective.t)
  (host : option Host.t) : bool :=
  bool_decide (Some (Collective.currency collective) = (Host.currency <$> host)).

Definition prepareExpenseItemInputs (env : Env) (req : Request)
  (expenseCurrency : string) (itemsInput : option (list ExpenseItem.t))
  : Result (option (list ExpenseItem.t)) :=
  match itemsInput with
  | None => Ok None
  | Some [] => Ok (Some [])
  | Some l =>
      let? prepared := prepareItems env req expenseCurrency l in
      Ok (Some prepared)
  end.

Definition changesRequireStatusUpdate (expense : Expense.t)
  (newExpenseData : ExpenseData.t) (hasItemsChanges : bool)
  (hasPayoutChanges : bool) : bool :=
  let hasAmountChanges :=
    match ExpenseData.amount newExpenseData with
    | None => false
    | Some a => negb (bool_decide (a = Js.ofZ (Expense.amount expense)))
    end in
  let isPaidOrProcessingCharge :=
    bool_decide (Expense.type expense = CHARGE)
    && includes_status [PAID; PROCESSING] (Expense.status expense) in
  if isPaidOrProcessingCharge && negb hasAmountChanges then false
  else hasItemsChanges || hasAmountChanges || hasPayoutChanges.

Module EditOptions.
Record t : Type := mk {
  overrideRemoteUser : option User.t;
  skipPermissionCheck : bool;
  skipActivity : bool;
}.
Definition none : t := mk None false false.
End EditOptions.

(** What a validated edit is about to write. *)
Module EditPlan.
Record t : Type := mk {
  expense : Expense.t;
  user : User.t;
  items : list ExpenseItem.t;
  taxes : list ExpenseTaxDefinition.t;
  hasItemChanges : bool;
}.
End EditPlan.

Inductive EditRoute : Type :=
| OnlyTagsAndAccountingCategory (expense : Expense.t)
| FullEdit (plan : EditPlan.t).

(** A card charge that is paid or being paid: only a few fields of it can
    be edited. *)
Definition isPaidCreditCardCharge (expense : Expense.t) : bool :=
  bool_decide (Expense.type expense = CHARGE)
  && includes_status [PAID; PROCESSING] (Expense.status expense)
  && truthyId (Expense.VirtualCardId expense).

(** [editExpense], from its first line to the call of [checkLockedFields]
    included.  Nothing is written to the database on the way; the 2FA
    enforcement is an external call. *)
Definition editExpense_checks (env : Env) (req : Request)
  (expenseData : ExpenseData.t) (options : EditOptions.t) : M EditRoute :=
  let actor :=
    match EditOptions.overrideRemoteUser options with
    | Some u => Some u
    | None => remoteUser req
    end in
  match actor with
  | None => throw (raise Unauthorized
                     "You need to be logged in to edit an expense")
  | Some user =>
  if negb (canUseFeature env actor USE_EXPENSES)
  then throw (raise FeatureNotAllowedForUser EmptyString)
  else
  let* found := findByPk (ExpenseData.id expenseData) in
  match found with
  | None => throw (raise NotFound "Expense not found")
  | Some expense =>
  match Expense.collective expense with
  | None => throw (raise NotFound "Expense not found")
  | Some collective =>
  let host := Collective.host collective in
  let expenseType :=
    default (Expense.type expense) (ExpenseData.type expenseData) in
  let isPaidCreditCardCharge := isPaidCreditCardCharge expense in
  (* Check category only if it's changing *)
  let* _ :=
    match ExpenseData.accountingCategory expenseData with
    | ExpenseData.Category category =>
        liftR (checkCanUseAccountingCategory env actor expenseType
                 category host collective)
    | _ => ret tt
    end in
  let onlyTagsAndAccountingCategory :=
    negb (isValueChanging_description expense expenseData
          || isValueChanging_type expense expenseData
          || isValueChanging_currency expense expenseData
          || isValueChanging_amount expense expenseData
          || isValueChanging_items expense expenseData
          || isValueChanging_tax expenseData
          || isValueChanging_attachedFiles expense expenseData
          || isValueChanging_fromCollective expense expenseData
          || ExpenseData.otherChanges expenseData) in
  if onlyTagsAndAccountingCategory
  then ret (OnlyTagsAndAccountingCategory expense)
  else
  let* _ :=
    if negb (isNil (remoteUser req)) && negb isPaidCreditCardCharge
    then call env TwoFactorEnforceForAccountsUserIsAdminOf
    else ret tt in
  (* Load the payee profile *)
  let fromCollective :=
    match ExpenseData.fromCollective expenseData with
    | Some c => Some c
    | None => Expense.fromCollective expense
    end in
  (* When changing the type, we must make sure that the new type is allowed *)
  let* _ :=
    if isValueChanging_type expense expenseData
    then liftR (checkExpenseType env expenseType fromCollective collective
                  expense actor)
    else ret tt in
  (* Let submitter customize the currency *)
  let isChangingCurrency := isValueChanging_currency expense expenseData in
  if isChangingCurrency
     && negb (bool_decide (ExpenseData.currency expenseData
                           = Some (Collective.currency collective)))
     && negb (hasMultiCurrency collective host)
  then throw (raise FeatureNotSupportedForCollective
                "Multi-currency expenses are not enabled for this account")
  else
  let expenseCurrency :=
    default (Expense.currency expense) (ExpenseData.currency expenseData) in
  let* prepared :=
    liftR (prepareExpenseItemInputs env req expenseCurrency
             (ExpenseData.items expenseData)) in
  let updatedItemsData := default (Expense.items expense) prepared in
  let hasItemChanges := itemsDiffer env (Expense.items expense)
                          updatedItemsData in
  let taxes :=
    match ExpenseData.tax expenseData with
    | Some t => t
    | None => default [] (Data.taxes (Expense.data expense))
    end in
  let* _ := liftR (checkTaxes env (Some collective) host expenseType taxes) in
  let* permitted :=
    if EditOptions.skipPermissionCheck options then ret true
    else liftR (canEditExpense env req expense false) in
  if negb permitted
  then throw (raise Forbidden
                "You don't have permission to edit this expense")
  else if isPaidCreditCardCharge && negb hasItemChanges
  then throw (raise ValidationFailed
                "You need to include Expense Items when adding missing information to card charge expenses")
  else
  let* _ := liftR (checkAttachedFiles (ExpenseData.attachedFiles expenseData)) in
  (* Check payee *)
  let* _ :=
    match ExpenseData.fromCollective expenseData with
    | None => ret tt
    | Some newPayee =>
        match Expense.fromCollective expense with
        | None => throw typeError
        | Some payee =>
            if bool_decide (Collective.id newPayee = Collective.id payee)
            then ret tt
            else if negb (EditOptions.skipPermissionCheck options)
                    && negb (User.isAdminOfCollective user fromCollective)
            then throw (raise ValidationFailed
                          "You must be an admin of the account to submit an expense in its name")
            else if negb (Collective.canBeUsedAsPayoutProfile newPayee)
            then throw (raise ValidationFailed
                          "This account cannot be used for payouts")
            else if bool_decide (Collective.type newPayee
                                 = CollectiveType.VENDOR)
            then liftR (assert
                          (bool_decide (Collective.ParentCollectiveId newPayee
                                        = Collective.HostCollectiveId collective))
                          (raise ValidationFailed
                             "Vendor must belong to the same Fiscal Host as the Collective"))
            else ret tt
        end
    end in
  let amount := computeTotalAmountForExpense env updatedItemsData taxes in
  let updated :=
    ExpenseData.mk (ExpenseData.id expenseData)
      (ExpenseData.description expenseData) (ExpenseData.type expenseData)
      (ExpenseData.currency expenseData) (Some amount)
      (Some updatedItemsData) (ExpenseData.tax expenseData)
      (ExpenseData.tags expenseData)
      (ExpenseData.accountingCategory expenseData)
      (ExpenseData.attachedFiles expenseData)
      (ExpenseData.fromCollective expenseData)
      (ExpenseData.otherChanges expenseData) in
  let payee :=
    match EditOptions.overrideRemoteUser options with
    | Some u =>
        match User.collective u with
        | Some c => Some c
        | None => ExpenseData.fromCollective expenseData
        end
    | None => ExpenseData.fromCollective expenseData
    end in
  let* _ :=
    liftR (checkLockedFields env expense updated
             ((fun c => PayeeAccount (Some (Collective.id c))) <$> payee)) in
  ret (FullEdit (EditPlan.mk expense user updatedItemsData taxes
                   hasItemChanges))
  end end end.

(** The integer a finite number stands for, when a column is written. *)
Definition toInteger (n : Js.number) : Z :=
  match n with
  | Js.Fin q => Qfloor q
  | _ => 0
  end.

(** The write phase of [editExpense], as far as the columns of the row
    that can be locked go: the row receives the picked fields
    ([EXPENSE_PAID_CHARGE_EDITABLE_FIELDS] for a paid card charge,
    [EXPENSE_EDITABLE_FIELDS] otherwise), the amount recomputed from the
    items and the status that [changesRequireStatusUpdate] gives.  Changed
    items go through [checkExpenseItems] first.  The updates of the
    accounting category, of the tags, of the payout method, of the
    attached files, of the invoice file and of [data] are left out, and
    the items read again after their update are taken to be the prepared
    ones. *)
Definition editExpense_write (env : Env) (expenseData : ExpenseData.t)
  (options : EditOptions.t) (plan : EditPlan.t) : M Expense.t :=
  let expense := EditPlan.expense plan in
  let hasItemChanges := EditPlan.hasItemChanges plan in
  let expenseType :=
    default (Expense.type expense) (ExpenseData.type expenseData) in
  let paidCharge := isPaidCreditCardCharge expense in
  let description :=
    default (Expense.description expense)
      (ExpenseData.description expenseData) in
  let type := if paidCharge then Expense.type expense else expenseType in
  let currency :=
    if paidCharge then Expense.currency expense
    else default (Expense.currency expense)
           (ExpenseData.currency expenseData) in
  (* Update items *)
  let* _ :=
    if hasItemChanges
    then liftR (checkExpenseItems env expenseType
                  (Some (EditPlan.items plan)) (EditPlan.taxes plan))
    else ret tt in
  (* When updating amount, attachment or payoutMethod, we reset its status
     to PENDING *)
  let shouldUpdateStatus :=
    changesRequireStatusUpdate expense expenseData hasItemChanges false in
  let status :=
    if bool_decide (Expense.status expense = INCOMPLETE)
    then (if changesRequireStatusUpdate expense expenseData hasItemChanges
               false
          then PENDING else APPROVED)
    else if shouldUpdateStatus then PENDING
    else Expense.status expense in
  let amount :=
    computeTotalAmountForExpense env (EditPlan.items plan)
      (EditPlan.taxes plan) in
  let* updatedExpense :=
    update (Expense.set_edited description type currency (toInteger amount)
              status (Some (User.id (EditPlan.user plan))) expense) in
  let* _ :=
    if EditOptions.skipActivity options then ret tt
    else createActivity COLLECTIVE_EXPENSE_UPDATED updatedExpense
           (Some (EditPlan.user plan)) in
  ret updatedExpense.

(** [editExpense].  The relaxed path for tags and accounting category has
    its own permission checks; it is an argument here. *)
Definition editExpense (env : Env)
  (editOnlyTagsAndAccountingCategory :
     Expense.t -> ExpenseData.t -> M Expense.t)
  (req : Request) (expenseData : ExpenseData.t) (options : EditOptions.t)
  : M Expense.t :=
  let* route := editExpense_checks env req expenseData options in
  match route with
  | OnlyTagsAndAccountingCategory expense =>
      editOnlyTagsAndAccountingCategory expense expenseData
  | FullEdit plan => editExpense_write env expenseData options plan
  end.

(** ** Soft lock *)

(** The transaction that takes the lock. *)
Definition acquireLock (id : Z) : M unit :=
  let* found := findByPk id in
  match found with
  | None => throw (raise NotFound "Expense not found")
  | Some expense =>
      if Data.locked (Expense.data expense)
      then throw (raise PlainError
                    "This expense is already been processed, please try again later")
      else
        let* _ := update (Expense.set_data
                            (Data.set_isLocked true (Expense.data expense))
                            expense) in
        ret tt
  end.

(** The [finally] block: the row is read again and unlocked. *)
Definition releaseLock (id : Z) : M unit :=
  let* found := findByPk id in
  match found with
  | None => throw typeError
  | Some expense =>
      let* _ := update (Expense.set_data
                          (Data.set_isLocked false (Expense.data expense))
                          expense) in
      ret tt
  end.

Definition lockExpense {A} (id : Z) (callback : M A) : M A :=
  let* _ := acquireLock id in
  tryFinally callback (releaseLock id).

(** ** Fees *)

Module Fees.
(** The three fees, in one currency. *)
Record t : Type := mk {
  paymentProcessorFee : option Js.number;
  hostFee : option Js.number;
  platformFee : option Js.number;
}.
Definition empty : t := mk None None None.
End Fees.

Module ExpenseFees.
Record t : Type := mk {
  feesInCollectiveCurrency : FeesArgs.t;
  feesInHostCurrency : Fees.t;
  feesInExpenseCurrency : Fees.t;
  (** absent from the answer of a forced manual payment *)
  totalAmountToPay : option Js.number;
}.
End ExpenseFees.

Definition payoutMethodTypeOf (env : Env) (expense : Expense.t)
  (payoutMethod : option PayoutMethod.t) : PayoutMethodTypes :=
  match payoutMethod with
  | Some pm => PayoutMethod.type pm
  | None => getPayoutMethodTypeFromLegacy env expense
  end.

Definition quoteExpense (env : Env) (expense : Expense.t) : M Quote.t :=
  match Expense.collective expense with
  | None => throw typeError
  | Some collective =>
      match getHostCollective env collective with
      | None => throw (raise PlainError "Host not found for account")
      | Some host =>
          let* _ := call env GetAccountForPaymentProvider in
          let* _ := call env TransferwiseQuoteExpense in
          ret (transferwiseQuote env expense)
      end
  end.

(** The expense arrives with its collective loaded (the guard has read
    its balance); the reload of a missing one is not modelled. *)
Definition getExpenseFees (env : Env) (expense : Expense.t)
  (host : option Host.t) (fees : FeesArgs.t)
  (payoutMethod : option PayoutMethod.t) (useExistingWiseData : bool)
  : M ExpenseFees.t :=
  match Expense.collective expense, host with
  | None, _ | _, None => throw typeError
  | Some collective, Some host =>
  let collectiveToHostFxRate :=
    getFxRate env (Collective.currency collective) (Host.currency host) in
  let payoutMethodType := payoutMethodTypeOf env expense payoutMethod in
  let* paymentProcessorFeeInCollectiveCurrency :=
    match payoutMethodType with
    | BANK_ACCOUNT =>
        let existingQuote := Data.quote (Expense.data expense) in
        let* existingFee :=
          match existingQuote with
          | Some q =>
              if useExistingWiseData
                 && bool_decide (Quote.sourceCurrency q = Host.currency host)
              then
                match payoutMethod with
                | None => throw typeError
                | Some pm =>
                    if bool_decide (Some (Quote.targetCurrency q)
                                    = PayoutMethod.currency pm)
                    then ret (Quote.paymentOption_fee_total q)
                    else ret None
                end
              else ret None
          | None => ret None
          end in
        match existingFee with
        | Some total =>
            ret (Some (floatAmountToCents env
                         (Js.div total collectiveToHostFxRate)))
        | None =>
            let* quote := quoteExpense env expense in
            match Quote.paymentOption_fee_total quote with
            | None =>
                throw (raise BadRequest
                         "Could not find available payment option for this transaction.")
            | Some total =>
                (* Quote is always in host currency *)
                ret (Some (floatAmountToCents env
                             (Js.div total collectiveToHostFxRate)))
            end
        end
    | PAYPAL =>
        ret (paypalAdaptiveFees env (Expense.amount expense)
               (Collective.currency collective) host)
    | _ => ret (FeesArgs.paymentProcessorFeeInCollectiveCurrency fees)
    end in
  (* Build fees in host currency *)
  let inHost (fee : option Js.number) : option Js.number :=
    Some (Js.round (Js.mul collectiveToHostFxRate (Js.or_zero fee))) in
  let feesInHostCurrency :=
    Fees.mk (inHost paymentProcessorFeeInCollectiveCurrency)
      (inHost (FeesArgs.hostFeeInCollectiveCurrency fees))
      (inHost (FeesArgs.platformFeeInCollectiveCurrency fees)) in
  let resultFees :=
    FeesArgs.mk
      (Some (Js.or_zero paymentProcessorFeeInCollectiveCurrency))
      (FeesArgs.hostFeeInCollectiveCurrency fees)
      (FeesArgs.platformFeeInCollectiveCurrency fees) in
  (* Build fees in expense currency *)
  let feesInExpenseCurrency :=
    if bool_decide (Expense.currency expense = Collective.currency collective)
    then
      Fees.mk (FeesArgs.paymentProcessorFeeInCollectiveCurrency resultFees)
        (FeesArgs.hostFeeInCollectiveCurrency resultFees)
        (FeesArgs.platformFeeInCollectiveCurrency resultFees)
    else
      let collectiveToExpenseFxRate :=
        getFxRate env (Collective.currency collective)
          (Expense.currency expense) in
      let applyCollectiveToExpenseFxRate (amount : option Js.number) :=
        Some (Js.round (Js.mul (Js.or_zero amount) collectiveToExpenseFxRate)) in
      Fees.mk
        (applyCollectiveToExpenseFxRate
           (FeesArgs.paymentProcessorFeeInCollectiveCurrency resultFees))
        (applyCollectiveToExpenseFxRate
           (FeesArgs.hostFeeInCollectiveCurrency resultFees))
        (applyCollectiveToExpenseFxRate
           (FeesArgs.platformFeeInCollectiveCurrency resultFees)) in
  ret (ExpenseFees.mk resultFees feesInHostCurrency feesInExpenseCurrency
         None)
  end.

(** ** Balance guard *)

Definition twice : Js.number := Js.ofZ 2.
Definition margin : Js.number := Js.ofQ (12 # 10).

(** The worst-case rate of a pair: the latest rate minus two standard
    deviations. *)
Definition worstCaseRate (latestRate stddev : Js.number) : Js.number :=
  Js.sub latestRate (Js.mul stddev twice).

(** [isNumber(exchangeStats?.latestRate)], with the rate when it is one. *)
Definition statsLatestRate (exchangeStats : option PairStats.t)
  : option (Js.number * Js.number) :=
  match exchangeStats with
  | Some stats =>
      match PairStats.latestRate stats with
      | Some latestRate => Some (latestRate, PairStats.stddev stats)
      | None => None
      end
  | None => None
  end.

(** The balance that [assertMinExpectedBalance] asks for when the pair has
    statistics, and when it has none. *)
Definition safeAmountWithStats (latestRate stddev : Js.number)
  (amountToPayInExpenseCurrency : Js.number) : Js.number :=
  let rate := worstCaseRate latestRate stddev in
  Js.round (Js.div amountToPayInExpenseCurrency rate).

Definition safeAmountWithoutStats (amountToPayInExpenseCurrency : Js.number)
  : Js.number :=
  Js.round (Js.mul amountToPayInExpenseCurrency margin).

(** The inner function [assertMinExpectedBalance] of
    [checkHasBalanceToPayExpense]: the variables of the section are what
    the closure captures. *)
Section AssertMinExpectedBalance.

Variable env : Env.
Variable expense : Expense.t.
Variable collective : Collective.t.
Variable payoutMethodType : PayoutMethodTypes.
Variable balanceInCollectiveCurrency : Z.
Variable isSameCurrency : bool.
Variable exchangeStats : option PairStats.t.

Definition defaultErrorMessage (feesInExpenseCurrency : option Js.number)
  : string :=
  let fees := default Js.NaN feesInExpenseCurrency in
  "Collective does not have enough funds "
  ++ (if Js.truthy fees
      then "to cover for the fees of this payment method"
      else "to pay this expense")
  ++ ". Current balance: "
  ++ formatCurrency env (Js.ofZ balanceInCollectiveCurrency)
       (Collective.currency collective)
  ++ ", Expense amount: "
  ++ formatCurrency env (Js.ofZ (Expense.amount expense))
       (Expense.currency expense)
  ++ (if Js.truthy fees
      then ", Estimated " ++ payoutMethodTypeName payoutMethodType
           ++ " fees: " ++ formatCurrency env fees (Expense.currency expense)
      else EmptyString).

Definition marginNotice : string :=
  ". For expenses submitted in a different currency than the collective, an error margin is applied to accommodate for fluctuations. The maximum amount that can be paid is ".

Definition assertMinExpectedBalance
  (amountToPayInExpenseCurrency : Js.number)
  (feesInExpenseCurrency : option Js.number) : Result unit :=
  let balance := Js.ofZ balanceInCollectiveCurrency in
  if isSameCurrency then
    if Js.lt balance amountToPayInExpenseCurrency
    then Throw (raise ValidationFailed
                  (defaultErrorMessage feesInExpenseCurrency ++ "."))
    else Ok tt
  else
    match statsLatestRate exchangeStats with
    | Some (latestRate, stddev) =>
        let rate := worstCaseRate latestRate stddev in
        let safeAmount :=
          safeAmountWithStats latestRate stddev amountToPayInExpenseCurrency in
        if Js.lt balance safeAmount
        then Throw (raise ValidationFailed
                      (defaultErrorMessage feesInExpenseCurrency
                       ++ marginNotice
                       ++ formatCurrency env (Js.round (Js.mul balance rate))
                            (Expense.currency expense)
                       ++ "."))
        else Ok tt
    | None =>
        let safeAmount :=
          safeAmountWithoutStats amountToPayInExpenseCurrency in
        if Js.lt balance safeAmount
        then Throw (raise ValidationFailed
                      (defaultErrorMessage feesInExpenseCurrency
                       ++ marginNotice
                       ++ formatCurrency env (Js.round (Js.div balance margin))
                            (Collective.currency collective)
                       ++ "."))
        else Ok tt
    end.

End AssertMinExpectedBalance.

(** The [let totalAmountToPay] block. *)
Definition totalAmountToPay (expense : Expense.t)
  (paymentProcessorFee : option Js.number) : Result Js.number :=
  match Expense.feesPayer expense with
  | ExpenseFeesPayer.COLLECTIVE =>
      Ok (Js.add (Js.ofZ (Expense.amount expense))
            (default Js.NaN paymentProcessorFee))
  | ExpenseFeesPayer.PAYEE =>
      (* Ignore the fee as it will be deduced from the payee *)
      Ok (Js.ofZ (Expense.amount expense))
  | ExpenseFeesPayer.Unsupported name =>
      Throw (raise PlainError
               ("Expense fee payer " ++ quoted name ++ " not supported yet"))
  end.

(** The [if (expense.feesPayer === 'PAYEE')] block. *)
Definition assertFeesPayer (env : Env) (expense : Expense.t)
  (payoutMethodType : PayoutMethodTypes) (isSameCurrency : bool)
  : Result unit :=
  if bool_decide (Expense.feesPayer expense = ExpenseFeesPayer.PAYEE)
  then
    let? _ :=
      assert (typeSupportsFeesPayer env (Some payoutMethodType))
        (raise AssertionError
           "Putting the payment processor fees on the payee is only supported for bank accounts, manual payouts and stripe at the moment") in
    if negb (bool_decide (payoutMethodType = STRIPE))
    then assert isSameCurrency
           (raise AssertionError
              "Cannot put the payment processor fees on the payee when the expense currency is not the same as the collective currency")
    else Ok tt
  else Ok tt.

Module BalanceOptions.
Record t : Type := mk {
  forceManual : bool;
  manualFees : FeesArgs.t;
  useExistingWiseData : bool;
  totalAmountPaidInHostCurrency : option Z;
  paymentProcessorFeeInHostCurrency : option Z;
}.
Definition none : t := mk false FeesArgs.empty false None None.
End BalanceOptions.

Definition checkHasBalanceToPayExpense (env : Env) (host : option Host.t)
  (expense : Expense.t) (payoutMethod : option PayoutMethod.t)
  (options : BalanceOptions.t) : M ExpenseFees.t :=
  let payoutMethodType := payoutMethodTypeOf env expense payoutMethod in
  match Expense.collective expense with
  | None => throw typeError
  | Some collective =>
  let balanceInCollectiveCurrency :=
    getBalanceWithBlockedFunds env collective in
  let isSameCurrency :=
    bool_decide (Expense.currency expense = Collective.currency collective) in
  let* _ :=
    liftR (assertFeesPayer env expense payoutMethodType isSameCurrency) in
  if BalanceOptions.forceManual options
  then
    let* _ :=
      liftR (assert
               (match BalanceOptions.totalAmountPaidInHostCurrency options with
                | Some total => bool_decide (total >= 0)
                | None => false
                end)
               (raise AssertionError "Total amount paid must be positive")) in
    match host with
    | None => throw typeError
    | Some host =>
        let collectiveToHostFxRate :=
          getFxRate env (Collective.currency collective) (Host.currency host) in
        let balanceInHostCurrency :=
          Js.round (Js.mul (Js.ofZ balanceInCollectiveCurrency)
                      collectiveToHostFxRate) in
        if negb (bool_decide (Expense.type expense = SETTLEMENT))
           && Js.lt balanceInHostCurrency
                (Js.ofZ (default 0
                           (BalanceOptions.totalAmountPaidInHostCurrency
                              options)))
        then throw (raise PlainError
                      ("Collective does not have enough funds to pay this expense. Current balance: "
                       ++ formatCurrency env balanceInHostCurrency
                            (Host.currency host)
                       ++ ", Expense amount: "
                       ++ formatCurrency env
                            (Js.ofZ (default 0
                                       (BalanceOptions.totalAmountPaidInHostCurrency
                                          options)))
                            (Host.currency host)))
        else
          ret (ExpenseFees.mk FeesArgs.empty
                 (Fees.mk
                    (Js.ofZ <$> BalanceOptions.paymentProcessorFeeInHostCurrency
                                  options)
                    None None)
                 Fees.empty None)
    end
  else
    let exchangeStats :=
      if isSameCurrency then None
      else getPairStats env (Collective.currency collective)
             (Expense.currency expense) in
    let* _ :=
      if negb (bool_decide (Expense.type expense = SETTLEMENT))
      then
        (* Check base balance before fees *)
        liftR (assertMinExpectedBalance env expense collective
                 payoutMethodType balanceInCollectiveCurrency
                 isSameCurrency exchangeStats
                 (Js.ofZ (Expense.amount expense)) None)
      else ret tt in
    let* fees :=
      getExpenseFees env expense host (BalanceOptions.manualFees options)
        payoutMethod (BalanceOptions.useExistingWiseData options) in
    let paymentProcessorFee :=
      Fees.paymentProcessorFee (ExpenseFees.feesInExpenseCurrency fees) in
    (* Estimate the total amount to pay from the collective, based on
       who's supposed to pay the fee *)
    let* total := liftR (totalAmountToPay expense paymentProcessorFee) in
    let* _ :=
      if negb (bool_decide (Expense.type expense = SETTLEMENT))
      then
        liftR (assertMinExpectedBalance env expense collective
                 payoutMethodType balanceInCollectiveCurrency
                 isSameCurrency exchangeStats total paymentProcessorFee)
      else ret tt in
    ret (ExpenseFees.mk (ExpenseFees.feesInCollectiveCurrency fees)
           (ExpenseFees.feesInHostCurrency fees)
           (ExpenseFees.feesInExpenseCurrency fees) (Some total))
  end.

(** ** Payout *)

(** Modelled from the spec: [expense.markAsPaid] and [expense.setProcessing]
    of the [Expense] model are not in the source tree; the dispatcher
    "transitions status to PAID" after a synchronous payout, and an
    asynchronous one ends in PROCESSING. *)
Definition markAsPaid (expense : Expense.t) (user : User.t) : M Expense.t :=
  let* paid :=
    update (Expense.set_lastEditedById (Some (User.id user))
              (Expense.set_status PAID expense)) in
  let* _ := createActivity COLLECTIVE_EXPENSE_PAID paid (Some user) in
  ret paid.

Definition setProcessing (expense : Expense.t) (lastEditedById : Z)
  : M Expense.t :=
  update (Expense.set_lastEditedById (Some lastEditedById)
            (Expense.set_status PROCESSING expense)).

Definition setTransferWiseExpenseAsProcessing (host : Host.t)
  (expense : Expense.t) (remoteUser : User.t) : M Expense.t :=
  let* expense :=
    update (Expense.set_HostCollectiveId (Some (Host.id host)) expense) in
  let* expense := setProcessing expense (User.id remoteUser) in
  let* _ := createActivity COLLECTIVE_EXPENSE_PROCESSING expense
              (Some remoteUser) in
  ret expense.

(** [err.message.indexOf(text) !== -1] *)
Definition messageContains (text message : string) : bool :=
  negb (isNil (String.index 0 text message)).

Definition payExpenseWithPayPalAdaptive (env : Env) (remoteUser : User.t)
  (expense : Expense.t) (host : Host.t) : M Expense.t :=
  match Expense.collective expense with
  | None => throw typeError
  | Some collective =>
  if negb (bool_decide (Expense.currency expense
                        = Collective.currency collective))
  then throw (raise PlainError
                "Multi-currency expenses are not supported by the legacy PayPal adaptive implementation. Please migrate to PayPal payouts: https://docs.opencollective.com/help/fiscal-hosts/payouts/payouts-with-paypal")
  else if paypalAdaptiveUnderMaintenance env (Some remoteUser)
  then throw (raise PlainError
                "PayPal adaptive is currently under maintenance. Please try again later.")
  else
    tryCatch
      (let* _ := call env PaypalAdaptivePay in
       let* _ :=
         match paypalPaymentExecStatus env expense with
         | COMPLETED => ret tt
         | CREATED paymentApprovalUrl =>
             throw (raise BadRequest
                      ("Please approve this payment manually on "
                       ++ paymentApprovalUrl))
         | EXEC_ERROR errorMessage =>
             throw (raise ServerError
                      ("Error while paying the expense with PayPal: "
                       ++ quoted errorMessage
                       ++ ". Please contact support@opencollective.com or pay it manually through PayPal."))
         | EXEC_OTHER =>
             throw (raise ServerError
                      "Error while paying the expense with PayPal. Please contact support@opencollective.com or pay it manually through PayPal.")
         end in
       let* _ := call env CreateTransactionsFromPaidExpense in
       (* Mark Expense as Paid, create activity and send notifications *)
       let* paid := markAsPaid expense remoteUser in
       let* _ := call env PaymentMethodUpdateBalance in
       ret paid)
      (fun err =>
         if messageContains
              "The total amount of all payments exceeds the maximum total amount for all payments"
              (message err)
         then throw (raise ValidationFailed
                       "Not enough funds in your existing Paypal preapproval. Please refill your PayPal payment balance.")
         else throw (raise BadRequest (message err)))
  end.

(** What the [try] block of [payExpense] leaves: it falls through to
    [markAsPaid], or it returns a promise that is not awaited inside the
    block, so that its rejection is not seen by the [catch]. *)
Inductive Dispatched : Type :=
| FellThrough (expense : Expense.t)
| Returned (promise : M Expense.t).

Definition payManually (env : Env) (host : Host.t) (expense : Expense.t)
  (args : PayExpenseArgs.t) : M Expense.t :=
  let* paymentMethodId :=
    if PayExpenseArgs.paymentMethodService args
    then
      let* _ := call env FindOrCreatePaymentMethod in
      ret (Some (manualPaymentMethodId env host))
    else ret None in
  update (Expense.set_PaymentMethodId
            (if truthyId paymentMethodId then paymentMethodId else None)
            expense).

(** The body of the [try] block. *)
Definition dispatch (env : Env) (remoteUser : User.t) (host : Host.t)
  (expense : Expense.t) (payoutMethod : option PayoutMethod.t)
  (payoutMethodType : PayoutMethodTypes) (args : PayExpenseArgs.t)
  : M Dispatched :=
  match Expense.collective expense with
  | None => throw typeError
  | Some collective =>
  if PayExpenseArgs.forceManual args then
    let* expense := payManually env host expense args in
    let* _ := call env CreateTransactionsForManuallyPaidExpense in
    (* Remove all fields related to a previous automatic payment *)
    let* expense :=
      update (Expense.set_data (Data.omit_payment (Expense.data expense))
                expense) in
    ret (FellThrough expense)
  else if bool_decide (payoutMethodType = PAYPAL) then
    if negb (bool_decide (Collective.currency collective = Host.currency host))
    then throw (raise PlainError
                  "PayPal adaptive payouts are not supported when the collective currency is different from the host currency. Please migrate to PayPal payouts: https://docs.opencollective.com/help/fiscal-hosts/payouts/payouts-with-paypal")
    else
      match payoutMethod with
      | None => throw typeError
      | Some pm =>
          let paypalEmail := PayoutMethod.email pm in
          match hostPaypalPaymentMethod env host with
          | Some name =>
              (* If the expense has been filed with the same paypal email
                 than the host paypal then we simply mark the expense as
                 paid *)
              if bool_decide (paypalEmail = Some name)
              then
                let* _ := call env CreateTransactionsFromPaidExpense in
                ret (FellThrough expense)
              else
                ret (Returned (payExpenseWithPayPalAdaptive env remoteUser
                                 expense host))
          | None =>
              throw (raise PlainError
                       "No Paypal account linked, please reconnect Paypal or pay manually")
          end
      end
  else if bool_decide (payoutMethodType = BANK_ACCOUNT) then
    if bool_decide (Host.transferwise_ott host = Some true)
    then throw (raise PlainError
                  "You cannot pay this expense directly without Scheduling it for payment first.")
    else
      let* _ := call env GetAccountForPaymentProvider in
      let* _ := call env TransferwisePayExpense in
      (* Early return, Webhook will mark expense as Paid when the
         transaction completes. *)
      ret (Returned (setTransferWiseExpenseAsProcessing host expense
                       remoteUser))
  else if bool_decide (payoutMethodType = ACCOUNT_BALANCE) then
    match Expense.fromCollective expense with
    | None => throw typeError
    | Some payee =>
        match getHostCollective env payee with
        | None =>
            throw (raise PlainError
                     "The payee needs to have an Host to able to be paid on its Open Collective balance.")
        | Some payeeHost =>
            if negb (bool_decide (Host.id host = Host.id payeeHost))
            then throw (raise PlainError
                          "The payee needs to be on the same Host than the payer to be paid on its Open Collective balance.")
            else
              let* _ := call env SetAndSavePaymentMethodIfMissing in
              let* _ := call env CreateTransactionsFromPaidExpense in
              ret (FellThrough expense)
        end
    end
  else if bool_decide (Expense.legacyPayoutMethod expense = "manual")
          || bool_decide (Expense.legacyPayoutMethod expense = "other") then
    let* expense := payManually env host expense args in
    let* _ := call env CreateTransactionsFromPaidExpense in
    ret (FellThrough expense)
  else ret (FellThrough expense)
  end.

(** The [catch] block: the rolling limit is written back, the error is
    thrown again. *)
Definition rollbackRollingLimit {A} (use2FARollingLimit : bool)
  (totalPaidExpensesAmountKey : string) (totalPaidExpensesAmount : option Z)
  (expense : Expense.t) (error : Exception) : M A :=
  let* _ :=
    if use2FARollingLimit then
      match totalPaidExpensesAmount with
      | Some total =>
          if negb (bool_decide (total = 0))
          then cache_set totalPaidExpensesAmountKey
                 (total - Expense.amount expense) ROLLING_LIMIT_CACHE_VALIDITY
          else ret tt
      | None => ret tt
      end
    else ret tt in
  throw error.

(** The callback that [payExpense] runs under the lock. *)
Definition payExpense_locked (env : Env) (req : Request) (remoteUser : User.t)
  (args : PayExpenseArgs.t) : M Expense.t :=
  let forceManual := PayExpenseArgs.forceManual args in
  let* found := findByPk (PayExpenseArgs.id args) in
  match found with
  | None => throw (raise NotFound "Expense not found")
  | Some expense =>
  if bool_decide (Expense.status expense = PAID)
  then throw (raise Forbidden "Expense has already been paid")
  else if bool_decide (Expense.status expense = PROCESSING)
  then throw (raise Forbidden
                "Expense is currently being processed, this means someone already started the payment process")
  else if negb (bool_decide (Expense.status expense = APPROVED))
          && negb (bool_decide (Expense.status expense = ERROR))
  then throw (raise Forbidden
                ("Expense needs to be approved. Current status of the expense: "
                 ++ statusName (Expense.status expense) ++ "."))
  else
  let* allowed := liftR (canPayExpense env req expense false) in
  if negb allowed
  then throw (raise Forbidden "You don't have permission to pay this expense")
  else
  match Expense.collective expense with
  | None => throw typeError
  | Some collective =>
  let host := getHostCollective env collective in
  if negb (bool_decide (Expense.currency expense
                        = Collective.currency collective))
     && negb (hasMultiCurrency collective host)
  then throw (raise Forbidden
                "Multi-currency expenses are not enabled for this collective")
  else if bool_decide (Expense.legacyPayoutMethod expense = "donation")
  then throw (raise PlainError
                (quoted "In kind" ++ " donations are not supported anymore"))
  else
  (* Update the feesPayer right away because the rest of the process
     (i.e create transactions) depends on this *)
  let* expense :=
    match PayExpenseArgs.feesPayer args with
    | Some feesPayer =>
        if negb (bool_decide (feesPayer = Expense.feesPayer expense))
        then update (Expense.set_feesPayer feesPayer expense)
        else ret expense
    | None => ret expense
    end in
  let totalAmountPaidInHostCurrency :=
    PayExpenseArgs.totalAmountPaidInHostCurrency args in
  let paymentProcessorFeeInHostCurrency :=
    default 0 (PayExpenseArgs.paymentProcessorFeeInHostCurrency args) in
  let payoutMethod := getPayoutMethod env expense in
  let payoutMethodType := payoutMethodTypeOf env expense payoutMethod in
  let* fees :=
    checkHasBalanceToPayExpense env host expense payoutMethod
      (BalanceOptions.mk forceManual (PayExpenseArgs.manualFees args) false
         totalAmountPaidInHostCurrency
         (Some paymentProcessorFeeInHostCurrency)) in
  match host with
  | None => throw typeError
  | Some host =>
  (* 2FA for payouts *)
  let isTwoFactorAuthenticationRequiredForPayoutMethod :=
    bool_decide (payoutMethodType ∈ [PAYPAL; BANK_ACCOUNT]) in
  let hostHasPayoutTwoFactorAuthenticationEnabled :=
    bool_decide (Host.payoutsTwoFactorAuth_enabled host = Some true) in
  let use2FARollingLimit :=
    isTwoFactorAuthenticationRequiredForPayoutMethod && negb forceManual
    && hostHasPayoutTwoFactorAuthenticationEnabled in
  let totalPaidExpensesAmountKey :=
    pretty (User.id remoteUser) ++ "_2fa_payment_limit" in
  let* totalPaidExpensesAmount :=
    if use2FARollingLimit then
      let* total := cache_get totalPaidExpensesAmountKey in
      let* _ := validateExpensePayout2FALimit env req host expense
                  totalPaidExpensesAmountKey in
      ret total
    else
      (* Not using rolling limit, but still enforcing 2FA for all admins *)
      let* _ := call env TwoFactorEnforceForAccount in
      ret None in
  let* dispatched :=
    tryCatch
      (dispatch env remoteUser host expense payoutMethod payoutMethodType
         args)
      (rollbackRollingLimit use2FARollingLimit totalPaidExpensesAmountKey
         totalPaidExpensesAmount expense) in
  match dispatched with
  | Returned promise => promise
  | FellThrough expense =>
      (* Mark Expense as Paid, create activity and send notifications *)
      markAsPaid expense remoteUser
  end
  end end end.

Definition payExpense (env : Env) (req : Request) (args : PayExpenseArgs.t)
  : M Expense.t :=
  match remoteUser req with
  | None => throw (raise Unauthorized
                     "You need to be logged in to pay an expense")
  | Some remoteUser =>
      if negb (canUseFeature env (Some remoteUser) USE_EXPENSES)
      then throw (raise FeatureNotAllowedForUser EmptyString)
      else
        lockExpense (PayExpenseArgs.id args)
          (payExpense_locked env req remoteUser args)
  end.

(** * Field evaluators, validators and further operations

    The evaluators of the single fields, of the tags, of the accounting
    category, of deletion, of the hold and of the invitations; the
    validators of the type and of the accounting category; the actions
    they guard. *)

(** ** Further collaborators *)

(** [constants/roles], as far as this file names them. *)
Inductive roles : Type := ACCOUNTANT.

(** What the functions below read besides [Env]: methods of the models
    and constants of other modules. *)
Record Services : Type := mkServices {
  (** [user.hasRole(role, CollectiveId)] *)
  hasRole : User.t -> roles -> option Z -> bool;
  (** constants/platform *)
  PlatformCollectiveId : Z;
  (** [account.settings.expenseTypes[type]], when it is a boolean *)
  expenseTypesSetting : Collective.t -> ExpenseType -> option bool;
}.

Definition typeName (t : ExpenseType) : string :=
  match t with
  | RECEIPT => "RECEIPT" | INVOICE => "INVOICE" | GRANT => "GRANT"
  | CHARGE => "CHARGE" | SETTLEMENT => "SETTLEMENT"
  | UNCLASSIFIED => "UNCLASSIFIED"
  end.

(** ** Accountants *)

Definition isOwnerAccountant (svc : Services) : Condition :=
  fun req expense =>
    match remoteUser req with
    | None => Ok false
    | Some user =>
        Ok (hasRole svc user ACCOUNTANT
              (Some (Expense.FromCollectiveId expense)))
    end.

Definition isHostAccountant (svc : Services) (req : Request)
  (expense : Expense.t) : bool :=
  match remoteUser req with
  | None => false
  | Some user =>
      if truthyId (Expense.HostCollectiveId expense)
      then hasRole svc user ACCOUNTANT (Expense.HostCollectiveId expense)
      else
        match loadedCollective req expense with
        | None => false
        | Some collective =>
            hasRole svc user ACCOUNTANT (Collective.HostCollectiveId collective)
        end
  end.

Definition isCollectiveOrHostAccountant (svc : Services) (req : Request)
  (expense : Expense.t) : bool :=
  match remoteUser req with
  | None => false
  | Some user =>
      if hasRole svc user ACCOUNTANT (Some (Expense.CollectiveId expense))
      then true
      else if isHostAccountant svc req expense then true
      else
        match loadedCollective req expense with
        | None => false
        | Some collective =>
            if truthyId (Collective.ParentCollectiveId collective)
            then hasRole svc user ACCOUNTANT
                   (Collective.ParentCollectiveId collective)
            else false
        end
  end.

(** ** Evaluators of the single fields

    These take their options as they come: without the scope they answer
    false, or fail in [validateExpenseScope] when asked to throw. *)

Definition canEditTitle (env : Env) (req : Request) (expense : Expense.t)
  (throw : bool) : Result bool :=
  let? scope := validateExpenseScope req throw in
  if negb scope then Ok false
  else if negb (canUseFeature env (remoteUser req) USE_EXPENSES)
  then deny throw (forbidden "User cannot use expenses"
                     UNSUPPORTED_USER_FEATURE)
  else if bool_decide (Expense.status expense = DRAFT)
  then remoteUserMeetsOneCondition req expense
         [isOwner; cond isCollectiveAdmin] throw
  else if bool_decide (Expense.status expense = PENDING)
  then remoteUserMeetsOneCondition req expense
         [isOwner; cond isCollectiveAdmin] throw
  else if bool_decide (Expense.status expense = APPROVED)
  then remoteUserMeetsOneCondition req expense [cond isHostAdmin] throw
  else if bool_decide (Expense.status expense = INCOMPLETE)
  then remoteUserMeetsOneCondition req expense
         [isOwner; cond isCollectiveAdmin; cond isHostAdmin] throw
  else deny throw (forbidden "Can not edit title in current status"
                     UNSUPPORTED_STATUS).

Definition canEditType (env : Env) (req : Request) (expense : Expense.t)
  (throw : bool) : Result bool :=
  let? scope := validateExpenseScope req throw in
  if negb scope then Ok false
  else if negb (canUseFeature env (remoteUser req) USE_EXPENSES)
  then deny throw (forbidden "User cannot use expenses"
                     UNSUPPORTED_USER_FEATURE)
  else if negb (bool_decide (Expense.type expense = RECEIPT))
          && negb (bool_decide (Expense.type expense = INVOICE))
  then deny throw
         (forbidden ("Can not edit type for this type of expense ("
                     ++ typeName (Expense.type expense) ++ ")")
            UNSUPPORTED_TYPE)
  else if bool_decide (Expense.status expense = DRAFT)
  then remoteUserMeetsOneCondition req expense
         [isOwner; cond isCollectiveAdmin] throw
  else if bool_decide (Expense.status expense = PENDING)
  then remoteUserMeetsOneCondition req expense
         [isOwner; cond isCollectiveAdmin] throw
  else if bool_decide (Expense.status expense = APPROVED)
  then remoteUserMeetsOneCondition req expense [cond isHostAdmin] throw
  else if bool_decide (Expense.status expense = INCOMPLETE)
  then remoteUserMeetsOneCondition req expense
         [isOwner; cond isHostAdmin] throw
  else deny throw (forbidden "Can not edit type in current status"
                     UNSUPPORTED_STATUS).

Definition canEditPaidBy (env : Env) (req : Request) (expense : Expense.t)
  (throw : bool) : Result bool :=
  let? scope := validateExpenseScope req throw in
  if negb scope then Ok false
  else if negb (canUseFeature env (remoteUser req) USE_EXPENSES)
  then deny throw (forbidden "User cannot use expenses"
                     UNSUPPORTED_USER_FEATURE)
  else if bool_decide (Expense.status expense = DRAFT)
  then remoteUserMeetsOneCondition req expense
         [isOwner; cond isCollectiveAdmin] throw
  else if bool_decide (Expense.status expense = PENDING)
  then remoteUserMeetsOneCondition req expense
         [isOwner; cond isCollectiveAdmin] throw
  else if bool_decide (Expense.status expense = APPROVED)
  then remoteUserMeetsOneCondition req expense [cond isHostAdmin] throw
  else if bool_decide (Expense.status expense = INCOMPLETE)
  then remoteUserMeetsOneCondition req expense
         [isOwner; cond isHostAdmin] throw
  else deny throw (forbidden "Can not edit paid by in current status"
                     UNSUPPORTED_STATUS).

Definition canEditPayee (env : Env) (req : Request) (expense : Expense.t)
  (throw : bool) : Result bool :=
  let? scope := validateExpenseScope req throw in
  if negb scope then Ok false
  else if negb (canUseFeature env (remoteUser req) USE_EXPENSES)
  then deny throw (forbidden "User cannot use expenses"
                     UNSUPPORTED_USER_FEATURE)
  else if bool_decide (Expense.status expense = DRAFT)
  then remoteUserMeetsOneCondition req expense [isOwner] throw
  else if bool_decide (Expense.status expense = PENDING)
  then remoteUserMeetsOneCondition req expense [isOwner] throw
  else deny throw (forbidden "Can not edit payee in current status"
                     UNSUPPORTED_STATUS).

Definition canEditPayoutMethod (env : Env) (req : Request)
  (expense : Expense.t) (throw : bool) : Result bool :=
  let? scope := validateExpenseScope req throw in
  if negb scope then Ok false
  else if negb (canUseFeature env (remoteUser req) USE_EXPENSES)
  then deny throw (forbidden "User cannot use expenses"
                     UNSUPPORTED_USER_FEATURE)
  else if includes_status [DRAFT; PENDING; INCOMPLETE]
            (Expense.status expense)
  then remoteUserMeetsOneCondition req expense [isOwner] throw
  else deny throw (forbidden "Can not edit payout method in current status"
                     UNSUPPORTED_STATUS).

Definition canEditItems (env : Env) (req : Request) (expense : Expense.t)
  (throw : bool) : Result bool :=
  let? scope := validateExpenseScope req throw in
  if negb scope then Ok false
  else if negb (canUseFeature env (remoteUser req) USE_EXPENSES)
  then deny throw (forbidden "User cannot use expenses"
                     UNSUPPORTED_USER_FEATURE)
  else if bool_decide (Expense.status expense = DRAFT)
  then remoteUserMeetsOneCondition req expense [isOwner] throw
  else if bool_decide (Expense.status expense = PENDING)
  then remoteUserMeetsOneCondition req expense [isOwner] throw
  else if bool_decide (Expense.status expense = APPROVED)
  then remoteUserMeetsOneCondition req expense [cond isHostAdmin] throw
  else if bool_decide (Expense.status expense = INCOMPLETE)
  then remoteUserMeetsOneCondition req expense
         [isOwner; cond isHostAdmin] throw
  else deny throw (forbidden "Can not edit expense items in current status"
                     UNSUPPORTED_STATUS).

Definition canAttachReceipts (env : Env) (req : Request)
  (expense : Expense.t) (throw : bool) : Result bool :=
  let? scope := validateExpenseScope req throw in
  if negb scope then Ok false
  else if negb (canUseFeature env (remoteUser req) USE_EXPENSES)
  then deny throw (forbidden "User cannot use expenses"
                     UNSUPPORTED_USER_FEATURE)
  else if includes_status [PAID; PROCESSING] (Expense.status expense)
          && bool_decide (Expense.type expense = CHARGE)
  then remoteUserMeetsOneCondition req expense
         [isOwner; cond isHostAdmin; cond isCollectiveAdmin] throw
  else deny throw (forbidden "Can not attach receipts in current status"
                     UNSUPPORTED_STATUS).

Definition canEditItemDescription (env : Env) (req : Request)
  (expense : Expense.t) (throw : bool) : Result bool :=
  let? scope := validateExpenseScope req throw in
  if negb scope then Ok false
  else if negb (canUseFeature env (remoteUser req) USE_EXPENSES)
  then deny throw (forbidden "User cannot use expenses"
                     UNSUPPORTED_USER_FEATURE)
  else if includes_status [PAID; PROCESSING] (Expense.status expense)
          && bool_decide (Expense.type expense = CHARGE)
  then remoteUserMeetsOneCondition req expense
         [isOwner; cond isHostAdmin; cond isCollectiveAdmin] throw
  else deny throw
         (forbidden "Can not edit item description in current status"
            UNSUPPORTED_STATUS).

(** ** Tags, deletion, invitations *)

Definition canEditExpenseTags (env : Env) (svc : Services) (req : Request)
  (expense : Expense.t) (throw : bool) : Result bool :=
  let? scope := validateExpenseScope req throw in
  if negb scope then missingScope throw
  else if negb (canUseFeature env (remoteUser req) USE_EXPENSES)
  then deny throw (forbidden "User cannot edit expense tags"
                     UNSUPPORTED_USER_FEATURE)
  else if bool_decide (Expense.status expense = PAID)
  then
    (* Only collective/host admins can edit tags after the expense is paid *)
    remoteUserMeetsOneCondition req expense
      [cond isHostAdmin; cond isCollectiveAdmin] throw
  else remoteUserMeetsOneCondition req expense
         [isOwner; isOwnerAccountant svc; cond isHostAdmin;
          cond isCollectiveAdmin] throw.

Definition canDeleteExpense (env : Env) (req : Request)
  (expense : Expense.t) (throw : bool) : Result bool :=
  let? scope := validateExpenseScope req throw in
  if negb scope then missingScope throw
  else
    let? ownDraft :=
      if includes_status [DRAFT; PENDING; INVITE_DECLINED]
           (Expense.status expense)
      then remoteUserMeetsOneCondition req expense [isOwner] throw
      else Ok false in
    if ownDraft then Ok true
    else if negb (includes_status [REJECTED; SPAM; DRAFT; CANCELED]
                    (Expense.status expense))
    then deny throw (forbidden "Can not delete expense in current status"
                       UNSUPPORTED_STATUS)
    else if negb (canUseFeature env (remoteUser req) USE_EXPENSES)
    then deny throw (forbidden "User cannot delete expenses"
                       UNSUPPORTED_USER_FEATURE)
    else remoteUserMeetsOneCondition req expense
           [isOwner; cond isCollectiveAdmin; cond isHostAdmin] throw.



(** ** Evaluators of the host *)

Definition canMarkAsIncomplete (env : Env) (req : Request)
  (expense : Expense.t) (throw : bool) : Result bool :=
  let? scope := validateExpenseScope req throw in
  if negb scope then missingScope throw
  else if negb (includes_status [APPROVED; ERROR] (Expense.status expense))
  then deny throw
         (forbidden ("Can not mark expense as incomplete in current status ("
                     ++ statusName (Expense.status expense) ++ ")")
            UNSUPPORTED_STATUS)
  else if negb (canUseFeature env (remoteUser req) USE_EXPENSES)
  then deny throw (forbidden "User cannot mark expense as incomplete"
                     UNSUPPORTED_USER_FEATURE)
  else if negb (isHostAdmin req expense)
  then deny throw
         (forbidden "Only host admins can mark expenses as incomplete"
            UNSUPPORTED_USER_FEATURE)
  else if bool_decide (Expense.type expense = SETTLEMENT)
  then deny throw
         (forbidden "Can not mark settlement expense as incomplete"
            UNSUPPORTED_STATUS)
  else Ok true.

Definition canEditExpenseAccountingCategory (env : Env) (svc : Services)
  (req : Request) (expense : Expense.t) (throw : bool) : Result bool :=
  let? scope := validateExpenseScope req throw in
  if negb scope then missingScope throw
  else if negb (canUseFeature env (remoteUser req) USE_EXPENSES)
  then deny throw
         (forbidden "User cannot edit accounting categories for expenses"
            UNSUPPORTED_USER_FEATURE)
  else
    (* Host admins and accountants can always change the accounting
       category. *)
    let? ofHost :=
      remoteUserMeetsOneCondition req expense
        [cond isHostAdmin; cond (isHostAccountant svc)] false in
    if ofHost then Ok true
    else
      (* Other roles can only change the accounting category if the
         expense is not paid yet *)
      let nonEditableStatuses :=
        [PAID; PROCESSING; SCHEDULED_FOR_PAYMENT; CANCELED] in
      if includes_status nonEditableStatuses (Expense.status expense)
      then deny throw
             (forbidden
                ("Can not change accounting category in current status ("
                 ++ statusName (Expense.status expense) ++ ")")
                UNSUPPORTED_STATUS)
      else if isCollectiveAdmin req expense then Ok true
      else canEditExpense env req expense throw.

Definition canMarkAsUnpaid (env : Env) (req : Request) (expense : Expense.t)
  (throw : bool) : Result bool :=
  let? scope := validateExpenseScope req throw in
  if negb scope then missingScope throw
  else if negb (bool_decide (Expense.status expense = PAID))
  then deny throw
         (forbidden ("Can not mark expense as unpaid in current status ("
                     ++ statusName (Expense.status expense) ++ ")")
            UNSUPPORTED_STATUS)
  else if bool_decide (Expense.type expense = CHARGE)
  then deny throw (forbidden "Can not mark this type of expense as unpaid"
                     UNSUPPORTED_TYPE)
  else if negb (canUseFeature env (remoteUser req) USE_EXPENSES)
  then deny throw (forbidden "User cannot mark expenses as unpaid"
                     UNSUPPORTED_USER_FEATURE)
  else if bool_decide (Expense.type expense = SETTLEMENT)
  then remoteUserMeetsOneCondition req expense
         [cond (fun req _ => isPlatformAdmin req)] throw
  else remoteUserMeetsOneCondition req expense [cond isHostAdmin] throw.

Definition canComment (env : Env) (svc : Services) (req : Request)
  (expense : Expense.t) (throw : bool) : Result bool :=
  let? scope := validateExpenseScope req throw in
  if negb scope then missingScope throw
  else if negb (canUseFeature env (remoteUser req) USE_EXPENSES)
  then deny throw (forbidden "User cannot pay expenses"
                     UNSUPPORTED_USER_FEATURE)
  else remoteUserMeetsOneCondition req expense
         [cond isCollectiveAdmin; cond isHostAdmin; isOwner;
          isOwnerAccountant svc; cond (isCollectiveOrHostAccountant svc)]
         throw.

Definition canUnschedulePayment (req : Request) (expense : Expense.t)
  (throw : bool) : Result bool :=
  let? scope := validateExpenseScope req throw in
  if negb scope then missingScope throw
  else if negb (bool_decide (Expense.status expense = SCHEDULED_FOR_PAYMENT))
  then deny throw
         (forbidden
            ("Can not unschedule expense for payment in current status ("
             ++ statusName (Expense.status expense) ++ ")")
            UNSUPPORTED_STATUS)
  else remoteUserMeetsOneCondition req expense [cond isHostAdmin] throw.

Definition canPutOnHold (req : Request) (expense : Expense.t)
  (throw : bool) : Result bool :=
  let? scope := validateExpenseScope req throw in
  if negb scope then missingScope throw
  else if negb (bool_decide (Expense.status expense = APPROVED))
          || Expense.onHold expense
  then deny throw
         (forbidden
            "Only approved expenses that are not on hold can be put on hold"
            UNSUPPORTED_STATUS)
  else if bool_decide (Expense.type expense = SETTLEMENT)
  then deny throw (forbidden "Can not put settlement expense on hold"
                     UNSUPPORTED_STATUS)
  else remoteUserMeetsOneCondition req expense [cond isHostAdmin] throw.

Definition canReleaseHold (req : Request) (expense : Expense.t)
  (throw : bool) : Result bool :=
  let? scope := validateExpenseScope req throw in
  if negb scope then missingScope throw
  else if negb (Expense.onHold expense)
  then deny throw (forbidden "Only expenses on hold can be released"
                     UNSUPPORTED_STATUS)
  else remoteUserMeetsOneCondition req expense [cond isHostAdmin] throw.

(** ** Validators of the type and of the accounting category

    [Env] carries the verdicts of these two validators, for [editExpense];
    here they are from their source.  The accounts they receive are
    collectives, the host included. *)

Module AccountingCategoryAppliesTo.
Inductive t : Type := HOST | HOSTED_COLLECTIVES.
End AccountingCategoryAppliesTo.

#[global] Instance AccountingCategoryAppliesTo_eq_dec :
  EqDecision AccountingCategoryAppliesTo.t.
Proof. solve_decision. Defined.

Module AccountingCategory.
Record t : Type := mk {
  id : Z;
  CollectiveId : Z;
  (** [None] stands for [null] *)
  kind : option string;
  hostOnly : bool;
  appliesTo : AccountingCategoryAppliesTo.t;
  (** [category.isCompatibleWithExpenseType(type)] *)
  isCompatibleWithExpenseType : ExpenseType -> bool;
}.
End AccountingCategory.

(** [remoteUser?.isAdmin(id)] *)
Definition userIsAdmin (remoteUser : option User.t) (id : option Z) : bool :=
  match remoteUser with
  | Some user => User.isAdmin user id
  | None => false
  end.

(** The first of the levels whose setting for the type is a boolean, in
    the order of the loop, with that boolean. *)
Fixpoint firstExpenseTypeFlag (svc : Services) (newType : ExpenseType)
  (levels : list (string * option Collective.t)) : option (string * bool) :=
  match levels with
  | [] => None
  | (level, account) :: rest =>
      match account with
      | Some a =>
          match expenseTypesSetting svc a newType with
          | Some value => Some (level, value)
          | None => firstExpenseTypeFlag svc newType rest
          end
      | None => firstExpenseTypeFlag svc newType rest
      end
  end.

Module Validation.

Definition checkExpenseType (svc : Services) (newType : ExpenseType)
  (fromAccount : option Collective.t) (account : Collective.t)
  (parent host : option Collective.t) (existingExpense : option Expense.t)
  (remoteUser : option User.t) : Result unit :=
  (* Prevent changing the type in certain cases *)
  let? _ :=
    match existingExpense with
    | Some existing =>
        if negb (bool_decide (Expense.type existing = newType))
        then
          if bool_decide (Expense.type existing = CHARGE)
          then Throw (raise ValidationFailed
                        "Cannot change the type for this expense")
          else if bool_decide (newType = CHARGE)
          then Throw (raise ValidationFailed
                        ("Cannot manually change the type of an expense to "
                         ++ quoted "Charge"))
          else if bool_decide (newType = SETTLEMENT)
          then Throw (raise ValidationFailed
                        ("Cannot manually change the type of an expense to "
                         ++ quoted "Settlement"))
          else Ok tt
        else Ok tt
    | None => Ok tt
    end in
  (* Settlements are only allowed for platform admins *)
  let? _ :=
    if isNil existingExpense && bool_decide (newType = SETTLEMENT)
    then
      if negb (match remoteUser with
               | Some user => User.isAdminOfPlatform user
               | None => false
               end)
      then Throw (raise ValidationFailed
                    "Only platform admins can create settlements")
      else
        match fromAccount with
        | None => Throw typeError
        | Some payee =>
            if negb (bool_decide (Collective.id payee
                                  = PlatformCollectiveId svc))
            then Throw (raise ValidationFailed
                          "Settlements can only be created for the platform account")
            else Ok tt
        end
    else Ok tt in
  (* Check flag in settings in the priority order of
     collective > parent > host *)
  match firstExpenseTypeFlag svc newType
          [("account", Some account); ("parent", parent); ("host", host)] with
  | Some (level, true) =>
      (* Flag is explicitly set to true, we're good *)
      Ok tt
  | Some (level, false) =>
      Throw (raise ValidationFailed
               ("Expenses of type " ++ toLowerCase (typeName newType)
                ++ " are not allowed by the " ++ level))
  | None =>
      (* Only allow virtual card charges to be manually created by host
         admins *)
      if isNil existingExpense && bool_decide (newType = CHARGE)
         && negb (userIsAdmin remoteUser (Collective.id <$> host))
      then Throw (raise ValidationFailed
                    "Only host admins can manually create virtual card charges")
      else Ok tt
  end.

Definition checkCanUseAccountingCategory (remoteUser : option User.t)
  (expenseType : ExpenseType)
  (accountingCategory : option AccountingCategory.t)
  (host : option Collective.t) (account : Collective.t) : Result unit :=
  match host with
  | None =>
      Throw (raise ValidationFailed
               "Cannot use accounting categories without a host")
  | Some host =>
      match accountingCategory with
      | None => Ok tt
      | Some category =>
          let accounts :=
            [Some (Collective.id account);
             Collective.ParentCollectiveId account] in
          if negb (bool_decide (AccountingCategory.CollectiveId category
                                = Collective.id host))
          then Throw (raise ValidationFailed
                        "This accounting category is not allowed for this host")
          else if truthyString (AccountingCategory.kind category)
                  && negb (bool_decide (AccountingCategory.kind category
                                        = Some "EXPENSE"))
          then Throw (raise ValidationFailed
                        "This accounting category is not allowed for expenses")
          else if negb (AccountingCategory.isCompatibleWithExpenseType
                          category expenseType)
          then Throw (raise ValidationFailed
                        ("This accounting category is not allowed for expense type: "
                         ++ typeName expenseType))
          else if AccountingCategory.hostOnly category
                  && negb (userIsAdmin remoteUser (Some (Collective.id host)))
          then Throw (raise ValidationFailed
                        "This accounting category can only be used by the host admin")
          else if bool_decide (Collective.type host
                               = CollectiveType.COLLECTIVE)
                  && bool_decide
                       (AccountingCategory.appliesTo category
                        = AccountingCategoryAppliesTo.HOSTED_COLLECTIVES)
          then Throw (raise ValidationFailed
                        "This accounting category is not applicable to this account")
          else if (bool_decide (AccountingCategory.appliesTo category
                                = AccountingCategoryAppliesTo.HOST)
                   && negb (bool_decide
                              (Some (Collective.id host) ∈ accounts)))
                  || (bool_decide
                        (AccountingCategory.appliesTo category
                         = AccountingCategoryAppliesTo.HOSTED_COLLECTIVES)
                      && bool_decide (Some (Collective.id host) ∈ accounts))
          then Throw (raise ValidationFailed
                        "This accounting category is not applicable to this account")
          else Ok tt
      end
  end.

End Validation.

(** ** Exchange rates read back from a provider *)

(** What [matchFxRateWithCurrency] returns: a rate, [null] when no rate
    was given, [undefined] when the rate is for another pair. *)
Inductive MatchedFxRate : Type :=
| Rate (rate : Js.number)
| NoRate
| OtherPair.

Definition matchFxRateWithCurrency
  (expectedSourceCurrency expectedTargetCurrency : string)
  (rateSourceCurrency rateTargetCurrency : string)
  (rate : option Js.number) : MatchedFxRate :=
  match rate with
  | None => NoRate
  | Some rate =>
      if negb (Js.truthy rate) then NoRate
      else if bool_decide (expectedSourceCurrency = rateSourceCurrency)
              && bool_decide (expectedTargetCurrency = rateTargetCurrency)
      then Rate rate
      else if bool_decide (expectedSourceCurrency = rateTargetCurrency)
              && bool_decide (expectedTargetCurrency = rateSourceCurrency)
      then Rate (Js.div (Js.ofZ 1) rate)
      else OtherPair
  end.

(** ** Further setters of a row *)

Definition set_onHold (b : bool) (e : Expense.t) : Expense.t :=
  Expense.mk (Expense.id e) (Expense.UserId e) (Expense.CollectiveId e)
    (Expense.FromCollectiveId e) (Expense.HostCollectiveId e)
    (Expense.status e) (Expense.type e) (Expense.amount e)
    (Expense.currency e) (Expense.description e) (Expense.tags e)
    (Expense.feesPayer e) b (Expense.legacyPayoutMethod e)
    (Expense.PayoutMethodId e) (Expense.PaymentMethodId e)
    (Expense.RecurringExpenseId e) (Expense.VirtualCardId e)
    (Expense.AccountingCategoryId e) (Expense.lastEditedById e)
    (Expense.collective e) (Expense.fromCollective e) (Expense.items e)
    (Expense.attachedFiles e) (Expense.data e).

Definition set_tags (tags : option (list string)) (e : Expense.t)
  : Expense.t :=
  Expense.mk (Expense.id e) (Expense.UserId e) (Expense.CollectiveId e)
    (Expense.FromCollectiveId e) (Expense.HostCollectiveId e)
    (Expense.status e) (Expense.type e) (Expense.amount e)
    (Expense.currency e) (Expense.description e) tags
    (Expense.feesPayer e) (Expense.onHold e) (Expense.legacyPayoutMethod e)
    (Expense.PayoutMethodId e) (Expense.PaymentMethodId e)
    (Expense.RecurringExpenseId e) (Expense.VirtualCardId e)
    (Expense.AccountingCategoryId e) (Expense.lastEditedById e)
    (Expense.collective e) (Expense.fromCollective e) (Expense.items e)
    (Expense.attachedFiles e) (Expense.data e).

Definition set_AccountingCategoryId (category : option Z) (e : Expense.t)
  : Expense.t :=
  Expense.mk (Expense.id e) (Expense.UserId e) (Expense.CollectiveId e)
    (Expense.FromCollectiveId e) (Expense.HostCollectiveId e)
    (Expense.status e) (Expense.type e) (Expense.amount e)
    (Expense.currency e) (Expense.description e) (Expense.tags e)
    (Expense.feesPayer e) (Expense.onHold e) (Expense.legacyPayoutMethod e)
    (Expense.PayoutMethodId e) (Expense.PaymentMethodId e)
    (Expense.RecurringExpenseId e) (Expense.VirtualCardId e)
    category (Expense.lastEditedById e)
    (Expense.collective e) (Expense.fromCollective e) (Expense.items e)
    (Expense.attachedFiles e) (Expense.data e).

(** ** Actions on the table of expenses *)

Definition markAsPaidWithStripe (env : Env) (req : Request)
  (expense : Expense.t) : M Expense.t :=
  let* allowed := liftR (canPayExpense env req expense false) in
  if negb allowed
  then throw (raise Forbidden "You don't have permission to pay this expense")
  else update (Expense.set_lastEditedById (User.id <$> remoteUser req)
                 expense).

(** [expense.destroy()]: the row is no longer found. *)
Definition destroy (expense : Expense.t) : M unit :=
  modify (set_Expenses (fun t => delete (Expense.id expense) t)).

Definition deleteExpense (env : Env) (req : Request) (expenseId : Z)
  : M Expense.t :=
  match remoteUser req with
  | None => throw (raise Unauthorized
                     "You need to be logged in to delete an expense")
  | Some remoteUser =>
      if negb (canUseFeature env (Some remoteUser) USE_EXPENSES)
      then throw (raise FeatureNotAllowedForUser EmptyString)
      else
        let* found := findByPk expenseId in
        match found with
        | None => throw (raise NotFound "Expense not found")
        | Some expense =>
            let* allowed := liftR (canDeleteExpense env req expense false) in
            if negb allowed
            then throw (raise Forbidden
                          "You don't have permission to delete this expense or it needs to be rejected before being deleted")
            else
              let* _ := destroy expense in
              ret expense
        end
  end.

(** [omitBy(expenseData, (_, key) => key === 'id' ||
    !isValueChanging(expense, expenseData, key))], as far as the two keys
    go that [editOnlyTagsAndAccountingCategory] reads. *)
Definition modifiedFields (expense : Expense.t) (expenseData : ExpenseData.t)
  : ExpenseData.t :=
  ExpenseData.mk (ExpenseData.id expenseData)
    (ExpenseData.description expenseData) (ExpenseData.type expenseData)
    (ExpenseData.currency expenseData) (ExpenseData.amount expenseData)
    (ExpenseData.items expenseData) (ExpenseData.tax expenseData)
    (if isValueChanging_tags expense expenseData
     then ExpenseData.tags expenseData else None)
    (if isValueChanging_accountingCategory expense expenseData
     then ExpenseData.accountingCategory expenseData
     else ExpenseData.Undefined)
    (ExpenseData.attachedFiles expenseData)
    (ExpenseData.fromCollective expenseData)
    (ExpenseData.otherChanges expenseData).

(** The relaxed path of [editExpense].  The row is written by one raw
    [UPDATE ... RETURNING *]: the tags and the accounting category are
    set on the row as the table has it.  The copy of the category under
    [data.valuesByRole], a key that [Data.t] does not carry, is left
    out. *)
Definition editOnlyTagsAndAccountingCategory (env : Env) (svc : Services)
  (req : Request) (expense : Expense.t) (expenseData : ExpenseData.t)
  : M Expense.t :=
  (* Tags *)
  let* withTags :=
    if negb (isNil (ExpenseData.tags expenseData))
    then
      let* allowed := liftR (canEditExpenseTags env svc req expense false) in
      if negb allowed
      then throw (raise Forbidden
                    "You don't have permission to edit tags for this expense")
      else ret true
    else ret false in
  (* Accounting category *)
  let* withCategory :=
    if isValueChanging_accountingCategory expense expenseData
    then
      let* allowed :=
        liftR (canEditExpenseAccountingCategory env svc req expense false) in
      if negb allowed
      then throw (raise Forbidden
                    "You don't have permission to edit the accounting category for this expense")
      else
        (* getUserRole(req.remoteUser, expense.collective) *)
        match remoteUser req, Expense.collective expense with
        | Some _, Some _ => ret true
        | _, _ => throw typeError
        end
    else ret false in
  if negb withTags && negb withCategory then ret expense
  else
    let* found := findByPk (Expense.id expense) in
    match found with
    | None => throw typeError
    | Some row =>
        let tagged :=
          if withTags
          then set_tags (Some (default [] (ExpenseData.tags expenseData))) row
          else row in
        let categorized :=
          if withCategory
          then set_AccountingCategoryId
                 match ExpenseData.accountingCategory expenseData with
                 | ExpenseData.Category id =>
                     if truthyId (Some id) then Some id else None
                 | _ => None
                 end
                 tagged
          else tagged in
        let* updatedExpense := update categorized in
        let* _ := createActivity COLLECTIVE_EXPENSE_UPDATED updatedExpense
                    (remoteUser req) in
        ret updatedExpense
    end.

(** [editExpense] with its relaxed path. *)
Definition editExpenseWithTags (env : Env) (svc : Services) (req : Request)
  (expenseData : ExpenseData.t) (options : EditOptions.t) : M Expense.t :=
  editExpense env
    (fun expense expenseData =>
       editOnlyTagsAndAccountingCategory env svc req expense
         (modifiedFields expense expenseData))
    req expenseData options.

(** ** Holds, requests for completion and for a new approval

    The operations of this part create activities of four more types.
    They are recorded, oldest first, in a journal that is threaded beside
    the world. *)

Inductive HostActivityType : Type :=
| COLLECTIVE_EXPENSE_RE_APPROVAL_REQUESTED
| COLLECTIVE_EXPENSE_MARKED_AS_INCOMPLETE
| COLLECTIVE_EXPENSE_PUT_ON_HOLD
| COLLECTIVE_EXPENSE_RELEASED_FROM_HOLD.

Module HostActivity.
Record t : Type := mk {
  type : HostActivityType;
  ExpenseId : Z;
  UserId : option Z;
}.
End HostActivity.

Record Store : Type := mkStore {
  world : World;
  journal : list HostActivity.t;
}.

Definition Op (A : Type) : Type := Store -> Result A * Store.

Definition retOp {A} (a : A) : Op A := fun s => (Ok a, s).

Definition throwOp {A} (e : Exception) : Op A := fun s => (Throw e, s).

Definition bindOp {A B} (c : Op A) (k : A -> Op B) : Op B :=
  fun s =>
    match c s with
    | (Ok a, s') => k a s'
    | (Throw e, s') => (Throw e, s')
    end.

Notation "'let+' x ':=' c 'in' k" := (bindOp c (fun x => k))
  (at level 10, x name, c at level 100, k at level 200,
   format "'[v' 'let+'  x  ':='  c  'in' '/' k ']'").

(** A computation on the world, run in the store. *)
Definition lift {A} (c : M A) : Op A :=
  fun s =>
    match c (world s) with
    | (r, w) => (r, mkStore w (journal s))
    end.

(** [expense.createActivity(type, user)], for the four types above. *)
Definition createHostActivity (type : HostActivityType) (e : Expense.t)
  (user : option User.t) : Op unit :=
  fun s =>
    (Ok tt,
     mkStore (world s)
       (journal s
        ++ [HostActivity.mk type (Expense.id e) (User.id <$> user)])%list).

Definition requestExpenseReApproval (env : Env) (req : Request)
  (expense : Expense.t) : Op Expense.t :=
  if bool_decide (Expense.status expense = PENDING) then retOp expense
  else
    let+ allowed := lift (liftR (canUnapprove env req expense true)) in
    if negb allowed then throwOp (raise Forbidden EmptyString)
    else
      let+ id := lift (liftR (remoteUser_id req)) in
      let+ updatedExpense :=
        lift (update (Expense.set_lastEditedById (Some id)
                        (Expense.set_status PENDING expense))) in
      let+ _ := createHostActivity COLLECTIVE_EXPENSE_RE_APPROVAL_REQUESTED
                  updatedExpense (remoteUser req) in
      retOp updatedExpense.

Definition markExpenseAsIncomplete (env : Env) (req : Request)
  (expense : Expense.t) : Op Expense.t :=
  if bool_decide (Expense.status expense = INCOMPLETE) then retOp expense
  else
    let+ allowed := lift (liftR (canMarkAsIncomplete env req expense true)) in
    if negb allowed then throwOp (raise Forbidden EmptyString)
    else
      let+ id := lift (liftR (remoteUser_id req)) in
      let+ updatedExpense :=
        lift (update (set_onHold false
                        (Expense.set_lastEditedById (Some id)
                           (Expense.set_status INCOMPLETE expense)))) in
      let+ _ := createHostActivity COLLECTIVE_EXPENSE_MARKED_AS_INCOMPLETE
                  updatedExpense (remoteUser req) in
      retOp updatedExpense.

(** [holdExpense] and [releaseExpense] return the instance they were
    given, which [update] has written to. *)
Definition holdExpense (req : Request) (expense : Expense.t)
  : Op Expense.t :=
  match remoteUser req with
  | None => throwOp (raise Unauthorized
                       "You need to be logged in to pay an expense")
  | Some remoteUser =>
      let+ allowed := lift (liftR (canPutOnHold req expense false)) in
      if negb allowed then throwOp (raise FeatureNotAllowedForUser EmptyString)
      else
        let+ held :=
          lift (update (set_onHold true
                          (Expense.set_lastEditedById
                             (Some (User.id remoteUser)) expense))) in
        let+ _ := createHostActivity COLLECTIVE_EXPENSE_PUT_ON_HOLD held
                    (Some remoteUser) in
        retOp held
  end.

Definition releaseExpense (req : Request) (expense : Expense.t)
  : Op Expense.t :=
  match remoteUser req with
  | None => throwOp (raise Unauthorized
                       "You need to be logged in to pay an expense")
  | Some remoteUser =>
      let+ allowed := lift (liftR (canReleaseHold req expense false)) in
      if negb allowed then throwOp (raise FeatureNotAllowedForUser EmptyString)
      else
        let+ released :=
          lift (update (set_onHold false
                          (Expense.set_lastEditedById
                             (Some (User.id remoteUser)) expense))) in
        let+ _ := createHostActivity COLLECTIVE_EXPENSE_RELEASED_FROM_HOLD
                    released (Some remoteUser) in
        retOp released
  end.

(** * Vocabulary of the properties *)


Definition value {A} (r : Result A) : option A :=
  match r with
  | Ok a => Some a
  | Throw _ => None
  end.


(** The flat reading of the nested choice of [canApprove]. *)
Definition hostPolicyPrevails (env : Env) (req : Request)
  (collective : Collective.t) : bool :=
  let hostPolicy := getPolicy_host env (approvalHost req collective) in
  Policy.enabled hostPolicy
  && Policy.appliesToHostedCollectives hostPolicy
  && (Policy.appliesToSingleAdminCollectives hostPolicy
      || negb (bool_decide
                 (countAdminMembersOfCollective req (Collective.id collective)
                  = 1))).

(** The author of the expense falls under the policy. *)
Definition selfApprovalBlocked (env : Env) (req : Request)
  (expense : Expense.t) (collective : Collective.t) : Prop :=
  let policy := authorPolicy env req collective in
  Policy.enabled policy = true
  /\ Expense.amount expense >= Policy.amountInCents policy
  /\ User.id <$> remoteUser req = Some (Expense.UserId expense).


(** Two worlds with the same tables: they differ at most by the trace. *)
Definition sameTables (w w' : World) : Prop :=
  Expenses w' = Expenses w
  /\ RecurringExpenses w' = RecurringExpenses w
  /\ limitedFeatures w' = limitedFeatures w
  /\ cache w' = cache w.

Definition readOnly {A} (c : M A) : Prop :=
  forall w r w', c w = (r, w') -> sameTables w w'.





(** The row of an expense with its lock flag set to [b]. *)
Definition withLock (b : bool) (expense : Expense.t) : Expense.t :=
  Expense.set_data (Data.set_isLocked b (Expense.data expense)) expense.

(** The world in which the row of [expense] carries the flag [b]. *)
Definition writeLock (b : bool) (expense : Expense.t) (w : World) : World :=
  set_Expenses (fun t => <[Expense.id expense := withLock b expense]> t) w.

Definition alreadyBeingProcessed : Exception :=
  raise PlainError
    "This expense is already been processed, please try again later".

(** The currency test and the statistics the guard of an expense uses. *)
Definition isSameCurrency (expense : Expense.t) (collective : Collective.t)
  : bool :=
  bool_decide (Expense.currency expense = Collective.currency collective).

Definition exchangeStats (env : Env) (expense : Expense.t)
  (collective : Collective.t) : option PairStats.t :=
  if isSameCurrency expense collective then None
  else getPairStats env (Collective.currency collective)
         (Expense.currency expense).




(** * Sample data

    The hosts, collectives, users, expenses and environments at which the
    properties below are evaluated. *)

(** ** A host, a collective and their people

    A host in USD, a collective it hosts, their admins and an expense of
    10000 cents filed by user 9; the examples below vary them. *)

Definition noPolicy : Policy.t := Policy.mk false 0 false false.

Definition sampleHost : Host.t :=
  Host.mk 1 "USD" None None None noPolicy.

Definition sampleCollective : Collective.t :=
  Collective.mk 10 CollectiveType.COLLECTIVE "USD" (Some 1) None true true
    (Some sampleHost) noPolicy true.

Definition samplePayee : Collective.t :=
  Collective.mk 20 CollectiveType.USER "USD" None None false true None
    noPolicy true.

Definition hostAdmin : User.t :=
  User.mk 7 "admin@host.example" (fun c => bool_decide (c = Some 1))
    (fun _ => false) false None.

Definition collectiveAdmin : User.t :=
  User.mk 8 "admin@collective.example" (fun _ => false)
    (fun c => bool_decide (Collective.id <$> c = Some 10)) false None.

Definition submitter : User.t :=
  User.mk 9 "submitter@example.org" (fun _ => false)
    (fun c => bool_decide (Collective.id <$> c = Some 20)) false
    (Some samplePayee).

Definition requestOf (user : option User.t) : Request :=
  mkRequest user (fun _ => true) (fun _ => None) (fun _ => None)
    (fun _ => 2).

Definition sampleExpense (status : ExpenseStatus) (type : ExpenseType)
  : Expense.t :=
  Expense.mk 42 9 10 20 None status type 10000 "USD" "Catering" None
    ExpenseFeesPayer.COLLECTIVE false "other" None None (Some 5) None None
    None (Some sampleCollective) (Some samplePayee) [] [] Data.empty.

Definition sampleEnv (balance : Z) (payoutMethod : option PayoutMethod.t)
  (hostPaypal : option string) (failure : ExternalCall -> option Exception)
  : Env :=
  {| canUseFeature := fun user _ => negb (isNil user);
     PlatformUserId := 1;
     defaultAuthorCannotApprove := noPolicy;
     computeTotalAmountForExpense := totalAmountForExpense;
     accountHasVAT := fun _ _ => false;
     accountHasGST := fun _ => false;
     fetchAccountWithReference := fun _ => None;
     findUserByCollectiveId := fun _ => None;
     getBalanceWithBlockedFunds := fun _ => balance;
     getFxRate := fun _ _ => Js.ofZ 1;
     convertToCurrency := fun amount _ _ => amount;
     getPairStats := fun _ _ => None;
     typeSupportsFeesPayer :=
       fun type =>
         bool_decide (type ∈ [Some BANK_ACCOUNT; Some OTHER; Some STRIPE]);
     getPayoutMethodTypeFromLegacy := fun _ => OTHER;
     getPayoutMethod := fun _ => payoutMethod;
     getHostCollective := Collective.host;
     floatAmountToCents := fun n => Js.round (Js.mul n (Js.ofZ 100));
     formatCurrency :=
       fun amount currency => pretty (toInteger amount) ++ " " ++ currency;
     transferwiseQuote := fun _ => Quote.mk "USD" "USD" (Some (Js.ofZ 2));
     paypalAdaptiveFees := fun _ _ _ => Some (Js.ofZ 0);
     paypalPaymentExecStatus := fun _ => COMPLETED;
     hostPaypalPaymentMethod := fun _ => hostPaypal;
     userHasTwoFactorAuthEnabled := fun _ => true;
     paypalAdaptiveUnderMaintenance := fun _ => false;
     failure := failure;
     checkCanUseAccountingCategory := fun _ _ _ _ _ => Ok tt;
     checkExpenseType := fun _ _ _ _ _ => Ok tt;
     prepareItems := fun _ _ items => Ok items;
     itemsDiffer :=
       fun existing items =>
         negb (bool_decide (length existing = length items));
     manualPaymentMethodId := fun _ => 99 |}.

Definition noFailure : ExternalCall -> option Exception := fun _ => None.

Definition plainEnv : Env := sampleEnv 50000 None None noFailure.

Definition sampleWorld (expense : Expense.t) : World :=
  mkWorld {[Expense.id expense := expense]} {[5]} [] ∅ [].

(** ** Spam *)

Definition spamExpense : Expense.t := sampleExpense SPAM RECEIPT.

Definition rejectedExpense : Expense.t := sampleExpense REJECTED RECEIPT.

(** ** Approval by the only admin of a collective *)

Definition strictHostPolicy : Policy.t := Policy.mk true 0 true true.

Definition carveOutHostPolicy : Policy.t := Policy.mk true 0 true false.

Definition hostWithPolicy (policy : Policy.t) : Host.t :=
  Host.mk 1 "USD" None None None policy.

Definition soloCollective (policy : Policy.t) : Collective.t :=
  Collective.mk 10 CollectiveType.COLLECTIVE "USD" (Some 1) None true true
    (Some (hostWithPolicy policy)) noPolicy true.

Definition soloRequest : Request :=
  mkRequest (Some collectiveAdmin) (fun _ => true) (fun _ => None)
    (fun _ => None) (fun _ => 1).

Definition ownExpense (policy : Policy.t) : Expense.t :=
  Expense.mk 43 8 10 20 None PENDING RECEIPT 10000 "USD" "Stickers" None
    ExpenseFeesPayer.COLLECTIVE false "other" None None None None None
    None (Some (soloCollective policy)) (Some samplePayee) [] []
    Data.empty.

(** ** Edits of an expense with a locked description *)






(** ** Items *)

(** An item with a negative amount and a receipt. *)
Definition refundItem : ExpenseItem.t :=
  ExpenseItem.mk None (Some (-500)) (Some "Refund")
    (Some "https://files.example/receipt.pdf") None.

Definition zeroItem : ExpenseItem.t :=
  ExpenseItem.mk None (Some 0) (Some "Nothing")
    (Some "https://files.example/receipt.pdf") None.

(** ** The soft lock *)

Definition lockedRow : Expense.t :=
  withLock true (sampleExpense APPROVED INVOICE).

Definition failingCallback : M unit :=
  throw (raise PlainError "The provider is unreachable").

(** ** Payments and balances *)

Definition approvedExpense : Expense.t := sampleExpense APPROVED INVOICE.


Definition paidExpense : Expense.t := sampleExpense PAID INVOICE.

Definition payeePays : Expense.t :=
  Expense.set_feesPayer ExpenseFeesPayer.PAYEE approvedExpense.

Definition poorEnv : Env := sampleEnv 5000 None None noFailure.

Definition bankAccount : PayoutMethod.t :=
  PayoutMethod.mk 3 BANK_ACCOUNT None (Some "USD").

Definition paypalAccount : PayoutMethod.t :=
  PayoutMethod.mk 3 PAYPAL (Some "payee@paypal.example") None.

Definition bankEnv : Env := sampleEnv 50000 (Some bankAccount) None noFailure.


Definition payArgs (forceManual : bool) (total : option Z)
  : PayExpenseArgs.t :=
  PayExpenseArgs.mk 42 forceManual None None total false FeesArgs.empty.





(** ** Payouts under the rolling limit *)

Definition twoFactorHost : Host.t :=
  Host.mk 1 "USD" (Some true) None None noPolicy.

Definition twoFactorCollective : Collective.t :=
  Collective.mk 10 CollectiveType.COLLECTIVE "USD" (Some 1) None true true
    (Some twoFactorHost) noPolicy true.

Definition payoutExpense : Expense.t :=
  Expense.mk 42 9 10 20 None APPROVED INVOICE 10000 "USD" "Catering" None
    ExpenseFeesPayer.COLLECTIVE false "other" (Some 3) None None None None
    None (Some twoFactorCollective) (Some samplePayee) [] [] Data.empty.

Definition providerDown : Exception :=
  raise PlainError "The payment provider is unreachable".

Definition failing (call : ExternalCall) : ExternalCall -> option Exception :=
  fun c => if bool_decide (c = call) then Some providerDown else None.

Definition twoFactorEnv (payoutMethod : PayoutMethod.t)
  (hostPaypal : option string) (call : ExternalCall) : Env :=
  sampleEnv 50000 (Some payoutMethod) hostPaypal (failing call).

Definition rollingLimitKey : string := "7_2fa_payment_limit".

Definition worldWithCounter (counter : Z) : World :=
  mkWorld {[42 := payoutExpense]} ∅ [] {[rollingLimitKey := counter]} [].

(** * Vocabulary and sample data of the further properties *)

(** The outcome of an evaluator called with [{ throw: true }], beside its
    outcome without: the same [true], a [Forbidden] error with a code in
    place of [false], the same exception. *)
Definition throwModeFollows (quiet loud : Result bool) : Prop :=
  match quiet with
  | Ok true => loud = Ok true
  | Ok false =>
      exists e, loud = Throw e /\ class e = Forbidden /\ is_Some (code e)
  | Throw e => loud = Throw e
  end.

(** The evaluators of the status transitions, of edition and of payment. *)
Definition statusEvaluators (env : Env)
  : list (Request -> Expense.t -> bool -> Result bool) :=
  [canEditExpense env; canPayExpense env; canApprove env; canReject env;
   canMarkAsSpam env; canUnapprove env].

Definition missingScopeMessage : string :=
  "Your current token is missing the necessary scope".

Definition scopeError : Exception :=
  forbidden "You do not have the necessary scope to perform this action"
    INVALID_SCOPE.

(** The three transitions between PENDING, APPROVED and REJECTED, with the
    status each one leads to, the statuses its evaluator starts from and
    the activity it creates. *)
Inductive Transition : Type := Approve | Unapprove | Reject.

Definition transitionAction (t : Transition)
  : Env -> Request -> Expense.t -> M Expense.t :=
  match t with
  | Approve => approveExpense
  | Unapprove => unapproveExpense
  | Reject => rejectExpense
  end.

Definition destination (t : Transition) : ExpenseStatus :=
  match t with
  | Approve => APPROVED
  | Unapprove => PENDING
  | Reject => REJECTED
  end.

Definition origins (t : Transition) : list ExpenseStatus :=
  match t with
  | Approve => [PENDING; REJECTED; INCOMPLETE]
  | Unapprove => [INCOMPLETE; APPROVED; ERROR]
  | Reject => [PENDING; UNVERIFIED; INCOMPLETE]
  end.

Definition transitionActivity (t : Transition) : ActivityType :=
  match t with
  | Approve => COLLECTIVE_EXPENSE_APPROVED
  | Unapprove => COLLECTIVE_EXPENSE_UNAPPROVED
  | Reject => COLLECTIVE_EXPENSE_REJECTED
  end.

(** The evaluator that guards each transition. *)
Definition transitionEvaluator (t : Transition)
  : Env -> Request -> Expense.t -> bool -> Result bool :=
  match t with
  | Approve => canApprove
  | Unapprove => canUnapprove
  | Reject => canReject
  end.

(** The expense in a new status, as edited by a user. *)
Definition transitioned (status : ExpenseStatus) (user : User.t)
  (expense : Expense.t) : Expense.t :=
  Expense.set_lastEditedById (Some (User.id user))
    (Expense.set_status status expense).

(** The world after a transition: the row is written, one activity is
    created. *)
Definition afterTransition (activity : ActivityType) (user : User.t)
  (updated : Expense.t) (w : World) : World :=
  set_trace
    (fun t => (t ++ [ActivityCreated activity (Expense.id updated)
                       (Some (User.id user))])%list)
    (set_Expenses (fun t => <[Expense.id updated := updated]> t) w).

(** Every row of the table of expenses is stored under its own id. *)
Definition wellKeyed (w : World) : Prop :=
  forall id row, Expenses w !! id = Some row -> Expense.id row = id.

(** A step that keeps the rows it finds, each under its id. *)
Definition keepsRows (w w' : World) : Prop :=
  (wellKeyed w -> wellKeyed w')
  /\ forall id, is_Some (Expenses w !! id) -> is_Some (Expenses w' !! id).

Definition rowKeeping {A} (c : M A) : Prop :=
  forall w r w', c w = (r, w') -> keepsRows w w'.

(** A condition that throws nothing but the [TypeError] of a missing
    association. *)
Definition tame (condition : Condition) : Prop :=
  forall req expense e, condition req expense = Throw e -> e = typeError.


Definition pendingExpense : Expense.t := sampleExpense PENDING RECEIPT.

(** The results of a computation satisfy [P]. *)
Definition yields {A} (c : M A) (P : A -> Prop) : Prop :=
  forall w a w', c w = (Ok a, w') -> P a.

(** What [dispatch] hands over keeps the rows, when it is a promise. *)
Definition rowKeepingPromise (d : Dispatched) : Prop :=
  match d with
  | Returned promise => rowKeeping promise
  | FellThrough _ => True
  end.

(** The options of a payment forced manual, with the total the admin
    declares. *)
Definition declaredTotal (total : Z) : BalanceOptions.t :=
  BalanceOptions.mk true FeesArgs.empty false (Some total) (Some 0).

(** The evaluators of the single fields and of the operations of the
    host. *)
Definition fieldEvaluators (env : Env) (svc : Services)
  : list (Request -> Expense.t -> bool -> Result bool) :=
  [canEditTitle env; canEditType env; canEditPaidBy env; canEditPayee env;
   canEditPayoutMethod env; canEditItems env; canAttachReceipts env;
   canEditItemDescription env; canEditExpenseTags env svc;
   canEditExpenseAccountingCategory env svc; canComment env svc;
   canMarkAsIncomplete env; canMarkAsUnpaid env; canUnschedulePayment;
   canPutOnHold; canReleaseHold].

Definition notPermitted : Exception :=
  forbidden "You do not have the necessary permissions to perform this action"
    MINIMAL_CONDITION_NOT_MET.

(** A draft filed by the submitter. *)
Definition draftExpense : Expense.t := sampleExpense DRAFT RECEIPT.

(** Every evaluator of a write. *)
Definition writeEvaluators (env : Env) (svc : Services)
  : list (Request -> Expense.t -> bool -> Result bool) :=
  statusEvaluators env ++ fieldEvaluators env svc ++ [canDeleteExpense env].

Definition plainServices : Services :=
  mkServices (fun _ _ _ => false) 1 (fun _ _ => None).

(** The request carries the scope of expenses. *)
Definition scoped (req : Request) : bool := checkScope req "expenses".

(** The user of the request is not limited from using expenses. *)
Definition allowed (env : Env) (req : Request) : bool :=
  canUseFeature env (remoteUser req) USE_EXPENSES.

Definition hasStatus (status : ExpenseStatus) (expense : Expense.t) : bool :=
  bool_decide (Expense.status expense = status).

Definition hasType (type : ExpenseType) (expense : Expense.t) : bool :=
  bool_decide (Expense.type expense = type).



(** Services of an account whose settings allow every type of expense. *)
Definition chargesAllowed : Services :=
  mkServices (fun _ _ _ => false) 1 (fun _ _ => Some true).

(** An edit that changes a key other than the tags and the accounting
    category. *)
Definition changesBeyondTags (expense : Expense.t)
  (expenseData : ExpenseData.t) : bool :=
  isValueChanging_description expense expenseData
  || isValueChanging_type expense expenseData
  || isValueChanging_currency expense expenseData
  || isValueChanging_amount expense expenseData
  || isValueChanging_items expense expenseData
  || isValueChanging_tax expenseData
  || isValueChanging_attachedFiles expense expenseData
  || isValueChanging_fromCollective expense expenseData
  || ExpenseData.otherChanges expenseData.



(** The entry of the journal for an activity of a user on an expense. *)
Definition journalEntry (type : HostActivityType) (user : User.t)
  (expense : Expense.t) : HostActivity.t :=
  HostActivity.mk type (Expense.id expense) (Some (User.id user)).

(** The expense as its last editor leaves it when nothing else changes. *)
Definition touchedBy (user : User.t) (expense : Expense.t) : Expense.t :=
  Expense.set_lastEditedById (Some (User.id user)) expense.

(** A store with the sample world and an empty journal. *)
Definition sampleStore (expense : Expense.t) : Store :=
  mkStore (sampleWorld expense) [].

(** An approved expense that was marked as incomplete. *)
Definition incompleteExpense : Expense.t := sampleExpense INCOMPLETE INVOICE.

(** A new description for the sample expense. *)
Definition redescribe (description : string) : ExpenseData.t :=
  ExpenseData.mk 42 (Some description) None None None None None None
    ExpenseData.Undefined None None false.

(** * Properties *)

(** ** The monad *)

Lemma bind_Ok {A B} (c : M A) (k : A -> M B) w b w' :
  bind c k w = (Ok b, w') ->
  exists a w1, c w = (Ok a, w1) /\ k a w1 = (Ok b, w').
Proof.
  unfold bind. destruct (c w) as [[a|e] w1]; [eauto|discriminate].
Qed.

Lemma liftR_Ok {A} (r : Result A) w a w' :
  liftR r w = (Ok a, w') -> r = Ok a /\ w' = w.
Proof. unfold liftR. intros [= -> ->]. auto. Qed.

(** ** Permission evaluators *)

Lemma deny_true throw e : deny throw e = Ok true -> False.
Proof. unfold deny. destruct throw; discriminate. Qed.

Lemma missingScope_true throw : missingScope throw = Ok true -> False.
Proof. unfold missingScope. destruct throw; discriminate. Qed.

Lemma validateExpenseScope_ok req throw b :
  validateExpenseScope req throw = Ok b ->
  b = checkScope req "expenses".
Proof.
  unfold validateExpenseScope. destruct (checkScope req "expenses"); simpl.
  - intros [= <-]. reflexivity.
  - destruct throw; [discriminate|]. intros [= <-]. reflexivity.
Qed.

Lemma meetsOne_admins req e :
  meetsOne [cond isCollectiveAdmin; cond isHostAdmin] req e
  = Ok (isCollectiveAdmin req e || isHostAdmin req e).
Proof.
  unfold meetsOne, cond; simpl.
  destruct (isCollectiveAdmin req e); simpl; [reflexivity|].
  destruct (isHostAdmin req e); reflexivity.
Qed.

Lemma remoteUserMeetsOneCondition_true req e conditions throw :
  remoteUserMeetsOneCondition req e conditions throw = Ok true ->
  is_Some (remoteUser req) /\ meetsOne conditions req e = Ok true.
Proof.
  unfold remoteUserMeetsOneCondition.
  destruct (remoteUser req) as [u|].
  - destruct (meetsOne conditions req e) as [[|]|]; simpl; try discriminate.
    + intros _. split; [eauto|reflexivity].
    + destruct throw; discriminate.
  - destruct throw; discriminate.
Qed.

(** ** Status transitions *)

(** C9: each status-transition action short-circuits at its destination
    state, before any permission check: [approveExpense] on an APPROVED
    expense, [unapproveExpense] on a PENDING one, [rejectExpense] on a
    REJECTED one and [markExpenseAsSpam] on a SPAM one return the expense
    as it is and leave the world (rows, activities, limitations, cache) as
    it is, whoever the actor of the request is. *)
Theorem transitions_short_circuit_at_destination :
  forall (env : Env) (req : Request) (expense : Expense.t) (w : World),
    approveExpense env req (Expense.set_status APPROVED expense) w
    = (Ok (Expense.set_status APPROVED expense), w)
    /\ unapproveExpense env req (Expense.set_status PENDING expense) w
       = (Ok (Expense.set_status PENDING expense), w)
    /\ rejectExpense env req (Expense.set_status REJECTED expense) w
       = (Ok (Expense.set_status REJECTED expense), w)
    /\ markExpenseAsSpam env req (Expense.set_status SPAM expense) w
       = (Ok (Expense.set_status SPAM expense), w).
Proof. intros. repeat split; reflexivity. Qed.

(** ** Spam *)

Lemma canMarkAsSpam_true env req e throw :
  canMarkAsSpam env req e throw = Ok true ->
  Expense.status e = REJECTED
  /\ Expense.UserId e <> PlatformUserId env
  /\ is_Some (remoteUser req)
  /\ (isCollectiveAdmin req e || isHostAdmin req e) = true.
Proof.
  unfold canMarkAsSpam.
  destruct (validateExpenseScope req throw) as [scope|] eqn:Hs; simpl; [|discriminate].
  destruct scope; simpl; [|intros H; destruct (missingScope_true _ H)].
  unfold includes_status.
  case_bool_decide as Hst; simpl; [|intros H; destruct (deny_true _ _ H)].
  destruct (canUseFeature env (remoteUser req) USE_EXPENSES); simpl;
    [|intros H; destruct (deny_true _ _ H)].
  case_bool_decide as Hp; simpl; [intros H; destruct (deny_true _ _ H)|].
  intros H. apply remoteUserMeetsOneCondition_true in H as [Hu Hm].
  rewrite meetsOne_admins in Hm. injection Hm as Hm.
  apply list_elem_of_singleton in Hst. auto.
Qed.

Lemma destroyRecurringExpense_spec expense w :
  exists w',
    destroyRecurringExpense expense w = (Ok tt, w')
    /\ Expenses w' = Expenses w
    /\ limitedFeatures w' = limitedFeatures w
    /\ (forall id, Expense.RecurringExpenseId expense = Some id ->
        id ∉ RecurringExpenses w').
Proof.
  unfold destroyRecurringExpense.
  destruct (Expense.RecurringExpenseId expense) as [id|].
  - unfold bind, gets, modify, ret; simpl.
    case_bool_decide as Hin.
    + eexists; split; [reflexivity|]. simpl. repeat split.
      intros id' Heq. injection Heq as Heq. subst id'.
      intros [_ Hn]%elem_of_difference. apply Hn, elem_of_singleton.
      reflexivity.
    + eexists; split; [reflexivity|]. repeat split.
      intros id' Heq. injection Heq as Heq. subst id'. assumption.
  - eexists; split; [reflexivity|]. repeat split. discriminate.
Qed.

(** C7: on an expense that is not already SPAM, [markExpenseAsSpam]
    succeeds only from REJECTED and never for an
    expense of the platform user; when it succeeds the row is written with
    status SPAM, the USE_EXPENSES feature of the submitter is limited and
    the linked recurring-expense record is gone; and it does succeed
    whenever [canMarkAsSpam] allows the request.  (On an expense already
    SPAM it returns without doing anything.) *)
Theorem markExpenseAsSpam_guarded_cascade :
  forall (env : Env) (req : Request) (expense : Expense.t) (w : World),
    Expense.status expense <> SPAM ->
    (forall updated w',
        markExpenseAsSpam env req expense w = (Ok updated, w') ->
        Expense.status expense = REJECTED
        /\ Expense.UserId expense <> PlatformUserId env
        /\ Expense.status updated = SPAM
        /\ Expenses w' !! Expense.id expense = Some updated
        /\ (Expense.UserId expense, USE_EXPENSES) ∈ limitedFeatures w'
        /\ (forall id, Expense.RecurringExpenseId expense = Some id ->
            id ∉ RecurringExpenses w'))
    /\ (canMarkAsSpam env req expense true = Ok true ->
        exists updated w',
          markExpenseAsSpam env req expense w = (Ok updated, w')).
Proof.
  intros env req expense w Hspam.
  assert (Hrun : forall user,
             canMarkAsSpam env req expense true = Ok true ->
             remoteUser req = Some user ->
             exists w',
               markExpenseAsSpam env req expense w
               = (Ok (Expense.set_lastEditedById (Some (User.id user))
                        (Expense.set_status SPAM expense)), w')
               /\ Expenses w' !! Expense.id expense
                  = Some (Expense.set_lastEditedById (Some (User.id user))
                            (Expense.set_status SPAM expense))
               /\ (Expense.UserId expense, USE_EXPENSES) ∈ limitedFeatures w'
               /\ (forall id, Expense.RecurringExpenseId expense = Some id ->
                   id ∉ RecurringExpenses w')).
  { intros user Hcan Huser. unfold markExpenseAsSpam.
    rewrite bool_decide_eq_false_2 by assumption.
    unfold bind at 1. unfold liftR at 1. rewrite Hcan. simpl.
    unfold remoteUser_id. rewrite Huser.
    unfold bind, liftR, update, modify, ret, limitFeature, createActivity,
      record; simpl.
    set (updated := Expense.set_lastEditedById _ _).
    set (w1 := set_limitedFeatures _ _).
    destruct (destroyRecurringExpense_spec updated w1)
      as (w2 & Hd & HE & HL & HR).
    rewrite Hd. simpl. eexists. split; [reflexivity|]. simpl.
    repeat split.
    - rewrite HE. subst w1. simpl. apply lookup_insert_eq.
    - rewrite HL. subst w1. simpl. left.
    - intros id Hid. apply HR. exact Hid. }
  split.
  - intros updated w' Hok.
    destruct (canMarkAsSpam env req expense true) as [[|]|err] eqn:Hcan.
    + pose proof Hcan as Hc.
      apply canMarkAsSpam_true in Hc as (Hst & Hplat & [user Huser] & _).
      destruct (Hrun user eq_refl Huser) as (w2 & Heq & HE & HL & HR).
      rewrite Heq in Hok. injection Hok as <- <-.
      repeat split; assumption.
    + unfold markExpenseAsSpam in Hok.
      rewrite bool_decide_eq_false_2 in Hok by assumption.
      unfold bind at 1 in Hok. unfold liftR at 1 in Hok.
      rewrite Hcan in Hok. discriminate.
    + unfold markExpenseAsSpam in Hok.
      rewrite bool_decide_eq_false_2 in Hok by assumption.
      unfold bind at 1 in Hok. unfold liftR at 1 in Hok.
      rewrite Hcan in Hok. discriminate.
  - intros Hcan. pose proof Hcan as Hc.
    apply canMarkAsSpam_true in Hc as (_ & _ & [user Huser] & _).
    destruct (Hrun user Hcan Huser) as (w2 & Heq & _). eauto.
Qed.

Lemma markExpenseAsSpam_counterexample :
  Expense.status spamExpense <> REJECTED
  /\ canMarkAsSpam plainEnv (requestOf (Some collectiveAdmin)) spamExpense
       false = Ok false
  /\ markExpenseAsSpam plainEnv (requestOf (Some collectiveAdmin)) spamExpense
       (sampleWorld spamExpense)
     = (Ok spamExpense, sampleWorld spamExpense)
  /\ limitedFeatures (sampleWorld spamExpense) = []
  /\ Expense.RecurringExpenseId spamExpense = Some 5
  /\ 5 ∈ RecurringExpenses (sampleWorld spamExpense).
Proof.
  repeat split; try reflexivity; try discriminate.
Qed.

Lemma markExpenseAsSpam_guarded_cascade_witness :
  exists updated w',
    markExpenseAsSpam plainEnv (requestOf (Some collectiveAdmin))
      rejectedExpense (sampleWorld rejectedExpense) = (Ok updated, w')
    /\ Expense.status updated = SPAM
    /\ (9, USE_EXPENSES) ∈ limitedFeatures w'
    /\ 5 ∉ RecurringExpenses w'.
Proof.
  destruct (markExpenseAsSpam_guarded_cascade plainEnv
              (requestOf (Some collectiveAdmin)) rejectedExpense
              (sampleWorld rejectedExpense)) as [Hsafe Hlive].
  { discriminate. }
  destruct Hlive as (updated & w' & Hrun).
  { reflexivity. }
  exists updated, w'.
  destruct (Hsafe updated w' Hrun) as (_ & _ & Hs & _ & Hl & Hr).
  repeat split; [exact Hrun|exact Hs|exact Hl|apply Hr; reflexivity].
Defined.

(** ** Approval *)

Lemma authorPolicy_choice env req collective :
  authorPolicy env req collective
  = if hostPolicyPrevails env req collective
    then getPolicy_host env (approvalHost req collective)
    else Collective.authorCannotApprove collective.
Proof.
  unfold authorPolicy, hostPolicyPrevails.
  destruct (Policy.enabled _); simpl; [|reflexivity].
  destruct (Policy.appliesToHostedCollectives _); simpl; [|reflexivity].
  destruct (Policy.appliesToSingleAdminCollectives _); simpl; [reflexivity|].
  case_bool_decide; reflexivity.
Qed.

Lemma canApprove_true env req expense throw :
  canApprove env req expense throw = Ok true ->
  Expense.status expense ∈ [PENDING; REJECTED; INCOMPLETE]
  /\ (Expense.status expense = INCOMPLETE -> isHostAdmin req expense = true)
  /\ (isCollectiveAdmin req expense || isHostAdmin req expense) = true
  /\ forall collective,
      loadedCollective req expense = Some collective ->
      ~ selfApprovalBlocked env req expense collective.
Proof.
  unfold canApprove.
  destruct (validateExpenseScope req throw) as [scope|] eqn:Hs; simpl; [|discriminate].
  destruct scope; simpl; [|intros H; destruct (missingScope_true _ H)].
  unfold includes_status.
  case_bool_decide as Hst; simpl; [|intros H; destruct (deny_true _ _ H)].
  destruct (canUseFeature env (remoteUser req) USE_EXPENSES); simpl;
    [|intros H; destruct (deny_true _ _ H)].
  destruct (loadedCollective req expense) as [collective|]; [|discriminate].
  set (policy := authorPolicy env req collective).
  assert (Hblocked :
            forall rest,
              (let? isAuthor :=
                 if Policy.enabled policy
                    && bool_decide (Expense.amount expense
                                    >= Policy.amountInCents policy)
                 then let? id := remoteUser_id req in
                      Ok (bool_decide (id = Expense.UserId expense))
                 else Ok false in
               if isAuthor then deny throw rest.1 else rest.2) = Ok true ->
              rest.2 = Ok true
              /\ ~ selfApprovalBlocked env req expense collective).
  { intros rest. unfold selfApprovalBlocked. fold policy.
    destruct (Policy.enabled policy); simpl.
    - case_bool_decide as Ham; simpl.
      + unfold remoteUser_id. destruct (remoteUser req) as [u|]; simpl;
          [|discriminate].
        case_bool_decide as Hid; simpl.
        * intros H; destruct (deny_true _ _ H).
        * intros H. split; [exact H|]. intros (_ & _ & Heq).
          simpl in Heq. congruence.
      + intros H. split; [exact H|]. intros (_ & Hge & _). contradiction.
    - intros H. split; [exact H|]. intros (Hen & _). discriminate. }
  intros H.
  apply (Hblocked (_, _)) in H as [H Hnot]. simpl in H.
  split; [exact Hst|].
  case_bool_decide as Hinc.
  - destruct (isHostAdmin req expense) eqn:Hha;
      [|destruct (deny_true _ _ H)].
    split; [reflexivity|]. split; [apply orb_true_r|].
    intros c Hc. injection Hc as <-. exact Hnot.
  - apply remoteUserMeetsOneCondition_true in H as [_ Hm].
    rewrite meetsOne_admins in Hm. injection Hm as Hm.
    split; [intros Hi; contradiction|]. split; [exact Hm|].
    intros c Hc. injection Hc as <-. exact Hnot.
Qed.

Lemma canApprove_blocks_author env req expense collective :
  checkScope req "expenses" = true ->
  Expense.status expense ∈ [PENDING; REJECTED; INCOMPLETE] ->
  canUseFeature env (remoteUser req) USE_EXPENSES = true ->
  loadedCollective req expense = Some collective ->
  selfApprovalBlocked env req expense collective ->
  canApprove env req expense false = Ok false
  /\ canApprove env req expense true
     = Throw (forbidden "User cannot approve their own expenses"
                AUTHOR_CANNOT_APPROVE).
Proof.
  intros Hscope Hst Hfeat Hcol (Hen & Ham & Hid).
  unfold canApprove, validateExpenseScope. rewrite Hscope; simpl.
  unfold includes_status. rewrite bool_decide_eq_true_2 by assumption.
  rewrite Hfeat; simpl. rewrite Hcol. rewrite Hen; simpl.
  rewrite bool_decide_eq_true_2 by assumption.
  unfold remoteUser_id. destruct (remoteUser req) as [u|]; [|discriminate].
  simpl in Hid. injection Hid as Hid. simpl.
  rewrite bool_decide_eq_true_2 by assumption. simpl. split; reflexivity.
Qed.

(** C6: [canApprove] answers true only for PENDING, REJECTED or
    INCOMPLETE expenses, for an INCOMPLETE one only to a host admin,
    and never to the author of an expense whose amount is at or above the
    threshold of the enabled policy; in that case it answers false, or
    throws AUTHOR_CANNOT_APPROVE.  The policy is the one of the host when
    it is enabled and applies to hosted collectives, unless the collective
    has exactly one admin and the host policy does not apply to
    single-admin collectives; otherwise it is the one of the collective. *)
Theorem canApprove_statuses_and_author_policy :
  forall (env : Env) (req : Request) (expense : Expense.t),
    (forall throw,
        canApprove env req expense throw = Ok true ->
        Expense.status expense ∈ [PENDING; REJECTED; INCOMPLETE]
        /\ (Expense.status expense = INCOMPLETE ->
            isHostAdmin req expense = true)
        /\ forall collective,
            loadedCollective req expense = Some collective ->
            ~ selfApprovalBlocked env req expense collective)
    /\ (forall collective,
           checkScope req "expenses" = true ->
           Expense.status expense ∈ [PENDING; REJECTED; INCOMPLETE] ->
           canUseFeature env (remoteUser req) USE_EXPENSES = true ->
           loadedCollective req expense = Some collective ->
           selfApprovalBlocked env req expense collective ->
           canApprove env req expense false = Ok false
           /\ canApprove env req expense true
              = Throw (forbidden "User cannot approve their own expenses"
                         AUTHOR_CANNOT_APPROVE))
    /\ (forall collective,
           authorPolicy env req collective
           = if hostPolicyPrevails env req collective
             then getPolicy_host env (approvalHost req collective)
             else Collective.authorCannotApprove collective).
Proof.
  intros env req expense. split; [|split].
  - intros throw H. apply canApprove_true in H as (H1 & H2 & _ & H3). auto.
  - intros collective. apply canApprove_blocks_author.
  - intros collective. apply authorPolicy_choice.
Qed.

Lemma canApprove_counterexample :
  countAdminMembersOfCollective soloRequest 10 = 1
  /\ Policy.enabled
       (Collective.authorCannotApprove (soloCollective strictHostPolicy))
     = false
  /\ authorPolicy plainEnv soloRequest (soloCollective strictHostPolicy)
     = strictHostPolicy
  /\ canApprove plainEnv soloRequest (ownExpense strictHostPolicy) false
     = Ok false
  /\ canApprove plainEnv soloRequest (ownExpense strictHostPolicy) true
     = Throw (forbidden "User cannot approve their own expenses"
                AUTHOR_CANNOT_APPROVE)
  /\ canApprove plainEnv soloRequest (ownExpense carveOutHostPolicy) true
     = Ok true.
Proof. repeat split; reflexivity. Qed.

Lemma canApprove_statuses_and_author_policy_witness :
  Expense.status (ownExpense carveOutHostPolicy)
    ∈ [PENDING; REJECTED; INCOMPLETE]
  /\ canApprove plainEnv soloRequest (ownExpense strictHostPolicy) false
     = Ok false.
Proof.
  split.
  - apply (proj1 (canApprove_statuses_and_author_policy plainEnv soloRequest
                    (ownExpense carveOutHostPolicy)) true).
    reflexivity.
  - apply (proj1 (proj2 (canApprove_statuses_and_author_policy plainEnv
                           soloRequest (ownExpense strictHostPolicy)))
             (soloCollective strictHostPolicy)).
    + reflexivity.
    + apply list_elem_of_here.
    + reflexivity.
    + reflexivity.
    + unfold selfApprovalBlocked. repeat split. simpl. lia.
Defined.

(** ** Locked fields *)


Lemma sameTables_refl w : sameTables w w.
Proof. repeat split. Qed.

Lemma sameTables_trans w1 w2 w3 :
  sameTables w1 w2 -> sameTables w2 w3 -> sameTables w1 w3.
Proof.
  intros (A1 & B1 & C1 & D1) (A2 & B2 & C2 & D2).
  repeat split; congruence.
Qed.

Lemma readOnly_ret {A} (a : A) : readOnly (ret a).
Proof. intros w r w' [= <- <-]. apply sameTables_refl. Qed.

Lemma readOnly_throw {A} e : readOnly (@throw A e).
Proof. intros w r w' [= <- <-]. apply sameTables_refl. Qed.

Lemma readOnly_liftR {A} (r : Result A) : readOnly (liftR r).
Proof. intros w r' w' [= <- <-]. apply sameTables_refl. Qed.

Lemma readOnly_bind {A B} (c : M A) (k : A -> M B) :
  readOnly c -> (forall a, readOnly (k a)) -> readOnly (bind c k).
Proof.
  intros Hc Hk w r w'. unfold bind.
  destruct (c w) as [[a|e] w1] eqn:Hcw.
  - intros Hkw. eapply sameTables_trans; [eapply Hc, Hcw|eapply Hk, Hkw].
  - intros [= <- <-]. eapply Hc, Hcw.
Qed.

Lemma readOnly_call env c : readOnly (call env c).
Proof.
  intros w r w'. unfold call, bind, record, modify.
  destruct (failure env c); intros [= <- <-]; repeat split.
Qed.

Lemma readOnly_findByPk id : readOnly (findByPk id).
Proof. intros w r w' [= <- <-]. apply sameTables_refl. Qed.

Ltac readOnly_step :=
  lazymatch goal with
  | |- readOnly (bind _ _) => apply readOnly_bind; [|intros ?]
  | |- readOnly (ret _) => apply readOnly_ret
  | |- readOnly (throw _) => apply readOnly_throw
  | |- readOnly (liftR _) => apply readOnly_liftR
  | |- readOnly (call _ _) => apply readOnly_call
  | |- readOnly (findByPk _) => apply readOnly_findByPk
  | |- readOnly (match ?x with _ => _ end) => destruct x
  | |- readOnly (let _ := _ in _) => cbv zeta
  end.

Lemma readOnly_editExpense_checks env req expenseData options :
  readOnly (editExpense_checks env req expenseData options).
Proof.
  unfold editExpense_checks. repeat readOnly_step.
Qed.












(** ** Balance margin *)



















(** ** Soft lock *)

Lemma acquireLock_locked id w expense :
  Expenses w !! id = Some expense ->
  Data.locked (Expense.data expense) = true ->
  acquireLock id w = (Throw alreadyBeingProcessed, w).
Proof.
  intros Hrow Hlocked. unfold acquireLock, bind, findByPk, gets.
  rewrite Hrow, Hlocked. reflexivity.
Qed.

Lemma acquireLock_free id w expense :
  Expenses w !! id = Some expense ->
  Data.locked (Expense.data expense) = false ->
  acquireLock id w = (Ok tt, writeLock true expense w).
Proof.
  intros Hrow Hlocked. unfold acquireLock, bind, findByPk, gets.
  rewrite Hrow, Hlocked. reflexivity.
Qed.

Lemma releaseLock_row id w expense :
  Expenses w !! id = Some expense ->
  releaseLock id w = (Ok tt, writeLock false expense w).
Proof.
  intros Hrow. unfold releaseLock, bind, findByPk, gets.
  rewrite Hrow. reflexivity.
Qed.

Lemma releaseLock_missing id w :
  Expenses w !! id = None ->
  releaseLock id w = (Throw typeError, w).
Proof.
  intros Hrow. unfold releaseLock, bind, findByPk, gets.
  rewrite Hrow. reflexivity.
Qed.

Lemma writeLock_twice b expense w :
  writeLock b (withLock true expense) (writeLock true expense w)
  = writeLock b expense w.
Proof.
  unfold writeLock, set_Expenses. simpl. rewrite insert_insert_eq.
  reflexivity.
Qed.

Lemma lookup_writeLock b expense w :
  Expenses (writeLock b expense w) !! Expense.id expense
  = Some (withLock b expense).
Proof. unfold writeLock. simpl. apply lookup_insert_eq. Qed.

(** C4: [lockExpense] fails at once with the "already been processed"
    error, leaving the world as it is, when the [isLocked] flag of the row
    is set; otherwise it runs the callback in the world where the flag is
    set and, whether the callback returned or threw, hands its outcome
    over after writing [isLocked = false] on the row as the callback left
    it (a [TypeError] replaces the outcome if the row is gone). *)
Theorem lockExpense_protocol :
  forall (A : Type) (id : Z) (callback : M A) (w : World)
    (expense : Expense.t),
    Expenses w !! id = Some expense ->
    Expense.id expense = id ->
    (Data.locked (Expense.data expense) = true ->
     lockExpense id callback w = (Throw alreadyBeingProcessed, w))
    /\ (Data.locked (Expense.data expense) = false ->
        forall (outcome : Result A) (w1 : World),
          callback (writeLock true expense w) = (outcome, w1) ->
          match Expenses w1 !! id with
          | Some row =>
              lockExpense id callback w = (outcome, writeLock false row w1)
              /\ (Expense.id row = id ->
                  Data.isLocked
                  <$> (Expense.data
                       <$> Expenses (writeLock false row w1) !! id)
                  = Some (Some false))
          | None => lockExpense id callback w = (Throw typeError, w1)
          end).
Proof.
  intros A id callback w expense Hrow Hid. split.
  - intros Hlocked. unfold lockExpense, bind.
    rewrite (acquireLock_locked _ _ _ Hrow Hlocked). reflexivity.
  - intros Hfree outcome w1 Hcallback. unfold lockExpense, bind.
    rewrite (acquireLock_free _ _ _ Hrow Hfree).
    unfold tryFinally. rewrite Hcallback.
    destruct (Expenses w1 !! id) as [row|] eqn:Hrow1.
    + rewrite (releaseLock_row _ _ _ Hrow1). split; [reflexivity|].
      intros Hrid. unfold writeLock. simpl. rewrite Hrid.
      rewrite lookup_insert_eq. reflexivity.
    + rewrite (releaseLock_missing _ _ Hrow1). reflexivity.
Qed.

Lemma lockExpense_protocol_witness :
  lockExpense 42 failingCallback (sampleWorld lockedRow)
  = (Throw alreadyBeingProcessed, sampleWorld lockedRow)
  /\ lockExpense 42 failingCallback
       (sampleWorld (sampleExpense APPROVED INVOICE))
     = (Throw (raise PlainError "The provider is unreachable"),
        sampleWorld (withLock false (sampleExpense APPROVED INVOICE)))
  /\ lockExpense 42 (ret 7)
       (sampleWorld (sampleExpense APPROVED INVOICE))
     = (Ok 7, sampleWorld (withLock false (sampleExpense APPROVED INVOICE))).
Proof.
  split; [|split].
  - apply (proj1 (lockExpense_protocol unit 42 failingCallback
                    (sampleWorld lockedRow) lockedRow eq_refl eq_refl)).
    reflexivity.
  - pose proof (proj2 (lockExpense_protocol unit 42 failingCallback
                         (sampleWorld (sampleExpense APPROVED INVOICE))
                         (sampleExpense APPROVED INVOICE) eq_refl eq_refl)
                  eq_refl _ _ eq_refl) as H.
    simpl in H. destruct H as [H _]. rewrite H. vm_compute. reflexivity.
  - pose proof (proj2 (lockExpense_protocol Z 42 (ret 7)
                         (sampleWorld (sampleExpense APPROVED INVOICE))
                         (sampleExpense APPROVED INVOICE) eq_refl eq_refl)
                  eq_refl _ _ eq_refl) as H.
    simpl in H. destruct H as [H _]. rewrite H. vm_compute. reflexivity.
Defined.

(** ** Fees payer *)

Lemma getExpenseFees_processor_fee env expense host fees payoutMethod
  useExisting w result w' :
  getExpenseFees env expense host fees payoutMethod useExisting w
  = (Ok result, w') ->
  is_Some (Fees.paymentProcessorFee (ExpenseFees.feesInExpenseCurrency result)).
Proof.
  unfold getExpenseFees.
  destruct (Expense.collective expense) as [collective|]; [|discriminate].
  destruct host as [host|]; [|discriminate].
  intros H. apply bind_Ok in H as (fee & w1 & _ & H).
  injection H as <- <-. simpl.
  case_bool_decide; simpl; eauto.
Qed.

Lemma totalAmountToPay_Ok expense fee total :
  totalAmountToPay expense fee = Ok total ->
  (Expense.feesPayer expense = ExpenseFeesPayer.COLLECTIVE
   /\ total = Js.add (Js.ofZ (Expense.amount expense)) (default Js.NaN fee))
  \/ (Expense.feesPayer expense = ExpenseFeesPayer.PAYEE
      /\ total = Js.ofZ (Expense.amount expense)).
Proof.
  unfold totalAmountToPay.
  destruct (Expense.feesPayer expense); [| |discriminate];
    intros [= <-]; auto.
Qed.

(** C2: when the balance guard computes the total to deduct (a payment
    that is not forced manual) and lets the expense through, the total is
    amount + processor fee for the fees payer COLLECTIVE and exactly the
    amount for PAYEE, whatever the fee; no other fees payer gets through;
    and unless the expense is a settlement the balance covers that total
    under [assertMinExpectedBalance]. *)
Theorem total_to_deduct_follows_fees_payer :
  forall (env : Env) (host : option Host.t) (expense : Expense.t)
    (payoutMethod : option PayoutMethod.t) (options : BalanceOptions.t)
    (w w' : World) (result : ExpenseFees.t),
    BalanceOptions.forceManual options = false ->
    checkHasBalanceToPayExpense env host expense payoutMethod options w
    = (Ok result, w') ->
    exists (fee total : Js.number) (collective : Collective.t),
      Expense.collective expense = Some collective
      /\ Fees.paymentProcessorFee (ExpenseFees.feesInExpenseCurrency result)
         = Some fee
      /\ ExpenseFees.totalAmountToPay result = Some total
      /\ (Expense.feesPayer expense = ExpenseFeesPayer.COLLECTIVE ->
          total = Js.add (Js.ofZ (Expense.amount expense)) fee)
      /\ (Expense.feesPayer expense = ExpenseFeesPayer.PAYEE ->
          total = Js.ofZ (Expense.amount expense))
      /\ (Expense.feesPayer expense = ExpenseFeesPayer.COLLECTIVE
          \/ Expense.feesPayer expense = ExpenseFeesPayer.PAYEE)
      /\ (Expense.type expense <> SETTLEMENT ->
          assertMinExpectedBalance env expense collective
            (payoutMethodTypeOf env expense payoutMethod)
            (getBalanceWithBlockedFunds env collective)
            (isSameCurrency expense collective)
            (exchangeStats env expense collective) total (Some fee)
          = Ok tt).
Proof.
  intros env host expense payoutMethod options w w' result Hmanual.
  unfold checkHasBalanceToPayExpense.
  destruct (Expense.collective expense) as [collective|]; [|discriminate].
  intros H. apply bind_Ok in H as (? & w1 & _ & H).
  rewrite Hmanual in H.
  apply bind_Ok in H as (? & w2 & _ & H).
  apply bind_Ok in H as (fees & w3 & Hfees & H).
  apply bind_Ok in H as (total & w4 & Htotal & H).
  apply liftR_Ok in Htotal as [Htotal ->].
  apply bind_Ok in H as ([] & w5 & Hguard & H).
  injection H as <- <-. simpl.
  destruct (getExpenseFees_processor_fee _ _ _ _ _ _ _ _ _ Hfees)
    as [fee Hfee].
  rewrite Hfee in *. simpl in Htotal.
  exists fee, total, collective.
  split; [reflexivity|]. split; [reflexivity|]. split; [reflexivity|].
  apply totalAmountToPay_Ok in Htotal as [[Hp ->]|[Hp ->]]; simpl.
  - split; [reflexivity|]. split; [congruence|]. split; [auto|].
    intros Htype. rewrite bool_decide_eq_false_2 in Hguard by assumption.
    simpl in Hguard. apply liftR_Ok in Hguard as [Hguard _]. exact Hguard.
  - split; [congruence|]. split; [reflexivity|]. split; [auto|].
    intros Htype. rewrite bool_decide_eq_false_2 in Hguard by assumption.
    simpl in Hguard. apply liftR_Ok in Hguard as [Hguard _]. exact Hguard.
Qed.

Lemma total_to_deduct_follows_fees_payer_witness :
  ExpenseFees.totalAmountToPay
  <$> value
        (checkHasBalanceToPayExpense bankEnv (Some sampleHost)
           approvedExpense (Some bankAccount) BalanceOptions.none
           (sampleWorld approvedExpense)).1
  = Some (Some (Js.ofZ 10200))
  /\ ExpenseFees.totalAmountToPay
     <$> value
           (checkHasBalanceToPayExpense bankEnv (Some sampleHost) payeePays
              (Some bankAccount) BalanceOptions.none
              (sampleWorld payeePays)).1
     = Some (Some (Js.ofZ 10000)).
Proof.
  split.
  - destruct (checkHasBalanceToPayExpense bankEnv (Some sampleHost)
                approvedExpense (Some bankAccount) BalanceOptions.none
                (sampleWorld approvedExpense)) as [[result|error] w'] eqn:Hrun.
    + destruct (total_to_deduct_follows_fees_payer bankEnv (Some sampleHost)
                  approvedExpense (Some bankAccount) BalanceOptions.none
                  _ _ _ eq_refl Hrun)
        as (fee & total & collective & _ & Hfee & Htotal & Hcollective & _).
      simpl. rewrite Htotal, (Hcollective eq_refl). do 2 f_equal.
      vm_compute in Hrun. injection Hrun as <- _.
      vm_compute in Hfee. injection Hfee as <-.
      vm_compute. reflexivity.
    + vm_compute in Hrun. discriminate.
  - destruct (checkHasBalanceToPayExpense bankEnv (Some sampleHost)
                payeePays (Some bankAccount) BalanceOptions.none
                (sampleWorld payeePays)) as [[result|error] w'] eqn:Hrun.
    + destruct (total_to_deduct_follows_fees_payer bankEnv (Some sampleHost)
                  payeePays (Some bankAccount) BalanceOptions.none
                  _ _ _ eq_refl Hrun)
        as (fee & total & collective & _ & _ & Htotal & _ & Hpayee & _).
      simpl. rewrite Htotal, (Hpayee eq_refl). reflexivity.
    + vm_compute in Hrun. discriminate.
Defined.

(** ** Gates of a payment *)








(** ** Rolling limit *)

Lemma rollbackRollingLimit_rethrows {A} use2FARollingLimit key total expense
  error w :
  exists w',
    @rollbackRollingLimit A use2FARollingLimit key total expense error w
    = (Throw error, w')
    /\ Expenses w' = Expenses w
    /\ trace w' = trace w.
Proof.
  unfold rollbackRollingLimit, bind, throw, cache_set, modify, ret.
  destruct use2FARollingLimit; [|eauto].
  destruct total as [t|]; [|eauto].
  destruct (negb (bool_decide (t = 0))); eauto.
Qed.

(** C5: when the counter holds [current] and the payout stays under the
    rolling limit, [validateExpensePayout2FALimit] moves the counter to
    [current] plus the amount in host currency; the [catch] block of
    [payExpense] then throws the error again unchanged, after writing
    [current] minus the amount of the expense when [current] is not 0,
    and leaving the incremented counter when it is 0: the counter is not
    put back at [current]. *)
Theorem rolling_limit_rollback_miscounts :
  forall (env : Env) (req : Request) (host : Host.t) (expense : Expense.t)
    (key : string) (current : Z) (error : Exception) (w : World),
    let converted :=
      convertToCurrency env (Expense.amount expense)
        (Expense.currency expense) (Host.currency host) in
    cache w !! key = Some current ->
    current + converted
    <= default 1000000 (Host.payoutsTwoFactorAuth_rollingLimit host) ->
    userHasTwoFactorAuthEnabled env (remoteUser req) = true ->
    failure env TwoFactorValidateRequest = None ->
    exists w1,
      validateExpensePayout2FALimit env req host expense key w = (Ok tt, w1)
      /\ cache w1 !! key = Some (current + converted)
      /\ forall w2,
          cache w2 = cache w1 ->
          exists w3,
            rollbackRollingLimit (A := Dispatched) true key (Some current)
              expense error w2
            = (Throw error, w3)
            /\ cache w3 !! key
               = Some (if bool_decide (current = 0)
                       then current + converted
                       else current - Expense.amount expense).
Proof.
  intros env req host expense key current error w converted Hcache Hlimit
    Huser Hcall.
  unfold validateExpensePayout2FALimit, bind at 1, cache_get, gets.
  rewrite Hcache. simpl default. fold converted.
  rewrite (bool_decide_eq_false_2 (Some current = None)) by discriminate.
  rewrite (bool_decide_eq_false_2 (current + converted > _)) by lia.
  rewrite Huser. simpl.
  unfold call, bind, record, modify. rewrite Hcall. simpl.
  eexists. split; [reflexivity|]. simpl. split; [apply lookup_insert_eq|].
  intros w2 Hw2. unfold rollbackRollingLimit, bind, cache_set, modify, throw.
  case_bool_decide as Hzero; simpl.
  - eexists. split; [reflexivity|]. rewrite Hw2. simpl.
    apply lookup_insert_eq.
  - eexists. split; [reflexivity|]. simpl. apply lookup_insert_eq.
Qed.

Lemma rolling_limit_rollback_miscounts_witness :
  exists w1,
    validateExpensePayout2FALimit
      (twoFactorEnv bankAccount None TransferwisePayExpense)
      (requestOf (Some hostAdmin)) twoFactorHost payoutExpense
      rollingLimitKey (worldWithCounter 25000)
    = (Ok tt, w1)
    /\ cache w1 !! rollingLimitKey = Some 35000
    /\ exists w3,
        rollbackRollingLimit (A := Dispatched) true rollingLimitKey
          (Some 25000) payoutExpense providerDown w1
        = (Throw providerDown, w3)
        /\ cache w3 !! rollingLimitKey = Some 15000.
Proof.
  destruct (rolling_limit_rollback_miscounts
              (twoFactorEnv bankAccount None TransferwisePayExpense)
              (requestOf (Some hostAdmin)) twoFactorHost payoutExpense
              rollingLimitKey 25000 providerDown (worldWithCounter 25000))
    as (w1 & Hrun & Hcounter & Hrollback).
  - reflexivity.
  - vm_compute. discriminate.
  - reflexivity.
  - reflexivity.
  - exists w1. split; [exact Hrun|]. split; [exact Hcounter|].
    destruct (Hrollback w1 eq_refl) as (w3 & Hthrow & Hafter).
    exists w3. split; [exact Hthrow|exact Hafter].
Defined.

(** The same, through [payExpense]. *)
Lemma rolling_limit_counterexample :
  (* a bank transfer fails after the counter went from 25000 to 35000 *)
  cache (validateExpensePayout2FALimit
           (twoFactorEnv bankAccount None TransferwisePayExpense)
           (requestOf (Some hostAdmin)) twoFactorHost payoutExpense
           rollingLimitKey (worldWithCounter 25000)).2 !! rollingLimitKey
  = Some 35000
  /\ (payExpense (twoFactorEnv bankAccount None TransferwisePayExpense)
        (requestOf (Some hostAdmin)) (payArgs false None)
        (worldWithCounter 25000)).1
     = Throw providerDown
  /\ cache (payExpense (twoFactorEnv bankAccount None TransferwisePayExpense)
              (requestOf (Some hostAdmin)) (payArgs false None)
              (worldWithCounter 25000)).2 !! rollingLimitKey
     = Some 15000
  (* the counter was at zero: the increment stays *)
  /\ cache (payExpense (twoFactorEnv bankAccount None TransferwisePayExpense)
              (requestOf (Some hostAdmin)) (payArgs false None)
              (worldWithCounter 0)).2 !! rollingLimitKey
     = Some 10000
  (* the PayPal payment is returned without being awaited: its failure
     passes the catch block by *)
  /\ (payExpense
        (twoFactorEnv paypalAccount (Some "host@paypal.example")
           PaypalAdaptivePay)
        (requestOf (Some hostAdmin)) (payArgs false None)
        (worldWithCounter 25000)).1
     = Throw (raise BadRequest "The payment provider is unreachable")
  /\ cache (payExpense
              (twoFactorEnv paypalAccount (Some "host@paypal.example")
                 PaypalAdaptivePay)
              (requestOf (Some hostAdmin)) (payArgs false None)
              (worldWithCounter 25000)).2 !! rollingLimitKey
     = Some 35000.
Proof. repeat split; vm_compute; reflexivity. Qed.

(** ** Items and attached files *)

Lemma firstItemWithoutAmount_None items idx :
  firstItemWithoutAmount items idx = None ->
  Forall (fun item => is_Some (ExpenseItem.amount item)) items.
Proof.
  revert idx. induction items as [|item rest IH]; intros idx; simpl.
  - intros _. constructor.
  - destruct (ExpenseItem.amount item) as [amount|] eqn:Hamount; simpl.
    + intros H. constructor; [rewrite Hamount; eauto|]. eapply IH, H.
    + discriminate.
Qed.

Lemma checkExpenseItems_class env expenseType items taxes e :
  checkExpenseItems env expenseType items taxes = Throw e ->
  class e = ValidationFailed.
Proof.
  unfold checkExpenseItems.
  destruct items as [items|]; [|intros [= <-]; reflexivity].
  destruct (bool_decide _); [intros [= <-]; reflexivity|].
  destruct (Nat.ltb _ _); [intros [= <-]; reflexivity|].
  destruct (firstItemWithoutAmount items 0) as [[item idx]|];
    [intros [= <-]; reflexivity|].
  destruct (negb _); [intros [= <-]; reflexivity|].
  destruct expenseType; try discriminate;
    destruct (existsb _ _); try discriminate; intros [= <-]; reflexivity.
Qed.

Lemma checkExpenseItems_Ok env expenseType items taxes :
  checkExpenseItems env expenseType items taxes = Ok tt ->
  exists l,
    items = Some l
    /\ (1 <= length l <= 300)%nat
    /\ Forall (fun item => is_Some (ExpenseItem.amount item)) l
    /\ Js.truthy (computeTotalAmountForExpense env l taxes) = true.
Proof.
  unfold checkExpenseItems.
  destruct items as [l|]; [|discriminate].
  case_bool_decide as Hlen; [discriminate|].
  destruct (Nat.ltb 300 (length l)) eqn:Hmax; [discriminate|].
  destruct (firstItemWithoutAmount l 0) as [[item idx]|] eqn:Hnil;
    [discriminate|].
  destruct (negb (Js.truthy _)) eqn:Hsum; [discriminate|].
  intros _. exists l. split; [reflexivity|].
  apply Nat.ltb_ge in Hmax. split; [lia|]. split.
  - eapply firstItemWithoutAmount_None, Hnil.
  - apply negb_false_iff in Hsum. exact Hsum.
Qed.

Lemma firstItemWithoutAmount_Forall items idx :
  Forall (fun item => is_Some (ExpenseItem.amount item)) items ->
  firstItemWithoutAmount items idx = None.
Proof.
  intros H. revert idx. induction H as [|item rest [amount Hamount] _ IH];
    intros idx; simpl; [reflexivity|].
  rewrite Hamount. simpl. apply IH.
Qed.

Lemma negative_truthy (n : Js.number) :
  Js.lt n (Js.ofZ 0) = true -> Js.truthy n = true.
Proof.
  destruct n as [q| | |]; simpl; try discriminate; [|reflexivity].
  intros H. apply bool_decide_eq_true in H.
  apply negb_true_iff. apply bool_decide_eq_false_2.
  intros ->. revert H. apply Qcle_not_lt. apply Qcle_alt. discriminate.
Qed.

Lemma checkAttachedFiles_limit attachedFiles :
  (checkAttachedFiles attachedFiles = Ok tt
   <-> (length (default [] attachedFiles) <= 15)%nat)
  /\ forall e, checkAttachedFiles attachedFiles = Throw e ->
               class e = ValidationFailed.
Proof.
  unfold checkAttachedFiles.
  destruct (Nat.ltb 15 _) eqn:H.
  - apply Nat.ltb_lt in H. split; [split; [discriminate|lia]|].
    intros e [= <-]. reflexivity.
  - apply Nat.ltb_ge in H. split; [split; auto|discriminate].
Qed.

(** C10: [checkExpenseItems] lets through every receipt of 1 to 300
    items, each with an amount and a file, whose sum is below 0: the sum
    check rejects only 0 and NaN, although its message says that the sum
    must be above 0.  (The other limits hold: see
    [checkExpenseItems_Ok], [checkExpenseItems_class] and
    [checkAttachedFiles_limit].) *)
Theorem checkExpenseItems_accepts_negative_sum :
  forall (env : Env) (items : list ExpenseItem.t)
    (taxes : list ExpenseTaxDefinition.t),
    (1 <= length items <= 300)%nat ->
    Forall (fun item =>
              is_Some (ExpenseItem.amount item)
              /\ truthyString (ExpenseItem.url item) = true) items ->
    Js.lt (computeTotalAmountForExpense env items taxes) (Js.ofZ 0) = true ->
    checkExpenseItems env RECEIPT (Some items) taxes = Ok tt.
Proof.
  intros env items taxes [Hmin Hmax] Hitems Hsum.
  unfold checkExpenseItems.
  rewrite bool_decide_eq_false_2 by lia.
  replace (Nat.ltb 300 (length items)) with false
    by (symmetry; apply Nat.ltb_ge; exact Hmax).
  rewrite firstItemWithoutAmount_Forall
    by (eapply Forall_impl; [exact Hitems|]; intros item [H _]; exact H).
  rewrite (negative_truthy _ Hsum). cbn [negb].
  replace (existsb _ items) with false; [reflexivity|].
  symmetry. apply not_true_is_false. intros Hex.
  apply existsb_exists in Hex as (item & Hin & Hurl).
  rewrite Forall_forall in Hitems.
  destruct (Hitems item (proj2 (list_elem_of_In _ _) Hin)) as [_ Hfile].
  rewrite Hfile in Hurl. discriminate.
Qed.

Lemma checkExpenseItems_accepts_negative_sum_witness :
  checkExpenseItems plainEnv RECEIPT (Some [refundItem]) [] = Ok tt.
Proof.
  apply checkExpenseItems_accepts_negative_sum.
  - simpl. lia.
  - constructor; [|constructor]. split; [eauto|reflexivity].
  - vm_compute. reflexivity.
Defined.

Lemma checkExpenseItems_counterexample :
  computeTotalAmountForExpense plainEnv [refundItem] [] = Js.ofZ (-500)
  /\ Js.gt (computeTotalAmountForExpense plainEnv [refundItem] []) (Js.ofZ 0)
     = false
  /\ checkExpenseItems plainEnv RECEIPT (Some [refundItem]) [] = Ok tt
  /\ checkExpenseItems plainEnv RECEIPT (Some [zeroItem]) []
     = Throw (raise ValidationFailed "The sum of all items must be above 0").
Proof. repeat split; vm_compute; reflexivity. Qed.

(** * Further properties *)

(** ** The two modes of the evaluators *)

Lemma throwModeFollows_deny e :
  class e = Forbidden -> is_Some (code e) ->
  throwModeFollows (deny false e) (deny true e).
Proof. intros Hc Hs. simpl. eauto. Qed.

Lemma throwModeFollows_meets req expense conditions :
  throwModeFollows
    (remoteUserMeetsOneCondition req expense conditions false)
    (remoteUserMeetsOneCondition req expense conditions true).
Proof.
  unfold remoteUserMeetsOneCondition.
  destruct (remoteUser req) as [user|]; simpl.
  - destruct (meetsOne conditions req expense) as [[|]|e]; simpl; eauto.
  - eauto.
Qed.

Lemma throwModeFollows_scope req :
  match validateExpenseScope req false with
  | Ok true => validateExpenseScope req true = Ok true
  | Ok false =>
      validateExpenseScope req true = Throw scopeError
  | Throw _ => False
  end.
Proof.
  unfold validateExpenseScope. destruct (checkScope req "expenses"); simpl;
    eauto 6.
Qed.

Ltac throw_mode_leaf :=
  first
    [ apply throwModeFollows_meets
    | apply throwModeFollows_deny; [reflexivity | simpl; eauto]
    | reflexivity ].

Ltac throw_mode_scope req :=
  let H := fresh "Hscope" in
  pose proof (throwModeFollows_scope req) as H;
  destruct (validateExpenseScope req false) as [[|]|] eqn:?;
  [ rewrite H; simpl
  | rewrite H; simpl; eexists; repeat split; simpl; eauto
  | contradiction ].

Ltac throw_mode_branches :=
  repeat (match goal with
          | |- context [if ?b then _ else _] => destruct b
          end; try throw_mode_leaf).

Lemma throwModeFollows_canEditExpense env req expense :
  throwModeFollows (canEditExpense env req expense false)
    (canEditExpense env req expense true).
Proof. unfold canEditExpense. throw_mode_scope req. throw_mode_branches. Qed.

Lemma throwModeFollows_canPayExpense env req expense :
  throwModeFollows (canPayExpense env req expense false)
    (canPayExpense env req expense true).
Proof. unfold canPayExpense. throw_mode_scope req. throw_mode_branches. Qed.

Lemma throwModeFollows_canReject env req expense :
  throwModeFollows (canReject env req expense false)
    (canReject env req expense true).
Proof. unfold canReject. throw_mode_scope req. throw_mode_branches. Qed.

Lemma throwModeFollows_canMarkAsSpam env req expense :
  throwModeFollows (canMarkAsSpam env req expense false)
    (canMarkAsSpam env req expense true).
Proof. unfold canMarkAsSpam. throw_mode_scope req. throw_mode_branches. Qed.

Lemma throwModeFollows_canUnapprove env req expense :
  throwModeFollows (canUnapprove env req expense false)
    (canUnapprove env req expense true).
Proof. unfold canUnapprove. throw_mode_scope req. throw_mode_branches. Qed.

Lemma throwModeFollows_canApprove env req expense :
  throwModeFollows (canApprove env req expense false)
    (canApprove env req expense true).
Proof.
  unfold canApprove. throw_mode_scope req.
  destruct (negb (includes_status _ _)); [throw_mode_leaf|].
  destruct (negb (canUseFeature _ _ _)); [throw_mode_leaf|].
  destruct (loadedCollective req expense) as [collective|];
    [|reflexivity].
  cbv zeta.
  destruct (Policy.enabled _ && bool_decide _).
  - destruct (remoteUser_id req) as [id|e]; simpl; [|reflexivity].
    destruct (bool_decide (id = _)); [throw_mode_leaf|].
    destruct (bool_decide _); [|throw_mode_leaf].
    destruct (isHostAdmin req expense); [reflexivity|throw_mode_leaf].
  - simpl.
    destruct (bool_decide _); [|throw_mode_leaf].
    destruct (isHostAdmin req expense); [reflexivity|throw_mode_leaf].
Qed.

(** X1: called with [{ throw: true }], each of [canEditExpense],
    [canPayExpense], [canApprove], [canReject], [canMarkAsSpam] and
    [canUnapprove] answers true exactly when it does without the option,
    throws a [Forbidden] error carrying a permission code where it answers
    false without it, and fails with the same exception where it fails
    without it. *)
Theorem evaluators_throw_mode_follows :
  forall (env : Env) (req : Request) (expense : Expense.t),
    Forall (fun evaluator =>
              throwModeFollows (evaluator req expense false)
                (evaluator req expense true))
      (statusEvaluators env).
Proof.
  intros env req expense. unfold statusEvaluators.
  repeat constructor.
  - apply throwModeFollows_canEditExpense.
  - apply throwModeFollows_canPayExpense.
  - apply throwModeFollows_canApprove.
  - apply throwModeFollows_canReject.
  - apply throwModeFollows_canMarkAsSpam.
  - apply throwModeFollows_canUnapprove.
Qed.

(** ** The scope of the token *)

Lemma isOwner_throws req expense e :
  isOwner req expense = Throw e -> e = typeError.
Proof.
  unfold isOwner. destruct (remoteUser req); [|discriminate].
  destruct (bool_decide _); destruct (loadedFromCollective req expense);
    try discriminate; [|congruence].
  destruct (negb _); discriminate.
Qed.

Lemma isDraftPayee_Ok env req expense :
  exists b, isDraftPayee env req expense = Ok b.
Proof.
  unfold isDraftPayee.
  repeat match goal with
         | |- context [match ?x with _ => _ end] => destruct x
         end; eauto.
Qed.

Lemma tame_cond f : tame (cond f).
Proof. intros req expense e. discriminate. Qed.

Lemma tame_isOwner : tame isOwner.
Proof. intros req expense e. apply isOwner_throws. Qed.

Lemma tame_isDraftPayee env : tame (isDraftPayee env).
Proof.
  intros req expense e H.
  destruct (isDraftPayee_Ok env req expense) as [b Hb]. congruence.
Qed.

Lemma meetsOne_throws conditions req expense e :
  Forall tame conditions ->
  meetsOne conditions req expense = Throw e -> e = typeError.
Proof.
  induction 1 as [|condition rest Htame _ IH]; simpl; [discriminate|].
  destruct (condition req expense) as [[|]|e'] eqn:Hc; simpl.
  - discriminate.
  - exact IH.
  - intros [= <-]. eapply Htame, Hc.
Qed.

Lemma meets_message req expense conditions throw e :
  Forall tame conditions ->
  remoteUserMeetsOneCondition req expense conditions throw = Throw e ->
  message e <> missingScopeMessage.
Proof.
  intros Htame. unfold remoteUserMeetsOneCondition.
  destruct (remoteUser req).
  - destruct (meetsOne conditions req expense) as [[|]|e'] eqn:Hm; simpl.
    + discriminate.
    + destruct throw; [|discriminate]. intros [= <-]. discriminate.
    + intros [= <-]. rewrite (meetsOne_throws _ _ _ _ Htame Hm).
      discriminate.
  - destruct throw; [|discriminate]. intros [= <-]. discriminate.
Qed.

Lemma deny_message throw e e' :
  message e <> missingScopeMessage ->
  deny throw e = Throw e' -> message e' <> missingScopeMessage.
Proof. unfold deny. destruct throw; [|discriminate]. congruence. Qed.

Lemma scope_message req throw :
  match validateExpenseScope req throw with
  | Ok scope => scope = true \/ throw = false
  | Throw e => e = scopeError
  end.
Proof.
  unfold validateExpenseScope.
  destruct (checkScope req "expenses"), throw; simpl; auto.
Qed.

Ltac tame_conditions :=
  repeat (constructor;
          try first [apply tame_cond | apply tame_isOwner
                    | apply tame_isDraftPayee]).

Ltac message_leaf :=
  match goal with
  | |- remoteUserMeetsOneCondition _ _ _ _ = Throw _ -> _ =>
      apply meets_message; tame_conditions
  | |- deny _ _ = Throw _ -> _ =>
      apply deny_message; simpl; discriminate
  | |- Ok _ = Throw _ -> _ => discriminate
  | |- Throw _ = Throw _ -> _ => intros [= <-]; discriminate
  end.

Ltac message_scope req throw :=
  let H := fresh "Hscope" in
  pose proof (scope_message req throw) as H;
  destruct (validateExpenseScope req throw) as [scope|err];
  [ simpl; destruct H as [-> | ->];
    [ simpl | destruct scope; simpl; [|discriminate] ]
  | simpl; intros [= <-]; rewrite H; discriminate ].

Ltac message_branches :=
  repeat (match goal with
          | |- context [if ?b then _ else _] => destruct b
          end; try message_leaf).

Lemma message_canEditExpense env req expense throw e :
  canEditExpense env req expense throw = Throw e ->
  message e <> missingScopeMessage.
Proof. unfold canEditExpense. message_scope req throw; message_branches. Qed.

Lemma message_canPayExpense env req expense throw e :
  canPayExpense env req expense throw = Throw e ->
  message e <> missingScopeMessage.
Proof. unfold canPayExpense. message_scope req throw; message_branches. Qed.

Lemma message_canReject env req expense throw e :
  canReject env req expense throw = Throw e ->
  message e <> missingScopeMessage.
Proof. unfold canReject. message_scope req throw; message_branches. Qed.

Lemma message_canMarkAsSpam env req expense throw e :
  canMarkAsSpam env req expense throw = Throw e ->
  message e <> missingScopeMessage.
Proof. unfold canMarkAsSpam. message_scope req throw; message_branches. Qed.

Lemma message_canUnapprove env req expense throw e :
  canUnapprove env req expense throw = Throw e ->
  message e <> missingScopeMessage.
Proof. unfold canUnapprove. message_scope req throw; message_branches. Qed.

Ltac message_approve req expense :=
  destruct (negb (includes_status _ _)); [message_leaf|];
  destruct (negb (canUseFeature _ _ _)); [message_leaf|];
  destruct (loadedCollective req expense) as [collective|];
    [|message_leaf];
  cbv zeta;
  destruct (Policy.enabled _ && bool_decide _);
  [ unfold remoteUser_id; destruct (remoteUser req) as [u|]; simpl;
    [|message_leaf];
    destruct (bool_decide (_ = _)); [message_leaf|];
    destruct (bool_decide _); [|message_leaf];
    destruct (isHostAdmin req expense); message_leaf
  | simpl; destruct (bool_decide _); [|message_leaf];
    destruct (isHostAdmin req expense); message_leaf ].

Lemma message_canApprove env req expense throw e :
  canApprove env req expense throw = Throw e ->
  message e <> missingScopeMessage.
Proof.
  unfold canApprove. message_scope req throw; message_approve req expense.
Qed.

Lemma scope_denied (evaluator : bool -> Result bool)
  (rest : bool -> Result bool) req :
  (forall throw,
      evaluator throw
      = let? scope := validateExpenseScope req throw in
        if negb scope then missingScope throw else rest throw) ->
  checkScope req "expenses" = false ->
  evaluator false = Ok false /\ evaluator true = Throw scopeError.
Proof.
  intros Heq Hscope. rewrite !Heq. unfold validateExpenseScope.
  rewrite Hscope. simpl. split; reflexivity.
Qed.

(** X2: without the [expenses] scope, each of the six evaluators answers
    false, and with [{ throw: true }] fails with the error of
    [validateExpenseScope] ("You do not have the necessary scope to perform
    this action", INVALID_SCOPE); no call of any of them, in either mode,
    ends with the error "Your current token is missing the necessary
    scope" that their first branch constructs. *)
Theorem evaluators_scope_error :
  forall (env : Env) (req : Request) (expense : Expense.t),
    Forall (fun evaluator =>
              (checkScope req "expenses" = false ->
               evaluator req expense false = Ok false
               /\ evaluator req expense true = Throw scopeError)
              /\ forall throw e,
                  evaluator req expense throw = Throw e ->
                  message e <> missingScopeMessage)
      (statusEvaluators env).
Proof.
  intros env req expense. unfold statusEvaluators.
  repeat (apply List.Forall_cons;
          [split; [eapply scope_denied; intros throw; reflexivity
                  |intros throw e]|]);
    [apply message_canEditExpense | apply message_canPayExpense
    |apply message_canApprove | apply message_canReject
    |apply message_canMarkAsSpam | apply message_canUnapprove
    |apply List.Forall_nil].
Qed.

(** ** The table of transitions *)

Lemma admins_logged_in req expense :
  (isCollectiveAdmin req expense || isHostAdmin req expense) = true ->
  is_Some (remoteUser req).
Proof.
  unfold isCollectiveAdmin, isHostAdmin.
  destruct (remoteUser req); [eauto|discriminate].
Qed.

Lemma canUnapprove_true env req expense throw :
  canUnapprove env req expense throw = Ok true ->
  Expense.status expense ∈ [INCOMPLETE; APPROVED; ERROR]
  /\ (isCollectiveAdmin req expense || isHostAdmin req expense) = true.
Proof.
  unfold canUnapprove.
  destruct (validateExpenseScope req throw) as [scope|]; simpl;
    [|discriminate].
  destruct scope; simpl; [|intros H; destruct (missingScope_true _ H)].
  unfold includes_status.
  case_bool_decide as Hst; simpl; [|intros H; destruct (deny_true _ _ H)].
  destruct (canUseFeature env (remoteUser req) USE_EXPENSES); simpl;
    [|intros H; destruct (deny_true _ _ H)].
  case_bool_decide as Hinc.
  - intros H. apply remoteUserMeetsOneCondition_true in H as [_ Hm].
    simpl in Hm. unfold cond in Hm. simpl in Hm.
    destruct (isHostAdmin req expense); [|discriminate].
    split; [exact Hst|apply orb_true_r].
  - intros H. apply remoteUserMeetsOneCondition_true in H as [_ Hm].
    rewrite meetsOne_admins in Hm. injection Hm as Hm. auto.
Qed.

Lemma canReject_true env req expense throw :
  canReject env req expense throw = Ok true ->
  Expense.status expense ∈ [PENDING; UNVERIFIED; INCOMPLETE]
  /\ is_Some (remoteUser req).
Proof.
  unfold canReject.
  destruct (validateExpenseScope req throw) as [scope|]; simpl;
    [|discriminate].
  destruct scope; simpl; [|intros H; destruct (missingScope_true _ H)].
  unfold includes_status.
  case_bool_decide as Hst; simpl; [|intros H; destruct (deny_true _ _ H)].
  destruct (canUseFeature env (remoteUser req) USE_EXPENSES); simpl;
    [|intros H; destruct (deny_true _ _ H)].
  case_bool_decide as Hty;
    intros H; apply remoteUserMeetsOneCondition_true in H as [Hu _]; auto.
Qed.

Lemma transitionEvaluator_true t env req expense throw :
  transitionEvaluator t env req expense throw = Ok true ->
  Expense.status expense ∈ origins t /\ is_Some (remoteUser req).
Proof.
  destruct t; simpl; intros H.
  - apply canApprove_true in H as (Hst & _ & Hadm & _).
    split; [exact Hst|]. eapply admins_logged_in, Hadm.
  - apply canUnapprove_true in H as (Hst & Hadm).
    split; [exact Hst|]. eapply admins_logged_in, Hadm.
  - apply canReject_true in H. exact H.
Qed.

(** The run of a transition, outcome by outcome of its evaluator. *)
Lemma transitionAction_run t env req expense w :
  transitionAction t env req expense w
  = if bool_decide (Expense.status expense = destination t)
    then (Ok expense, w)
    else
      match transitionEvaluator t env req expense true with
      | Ok true =>
          match remoteUser req with
          | Some user =>
              (Ok (transitioned (destination t) user expense),
               afterTransition (transitionActivity t) user
                 (transitioned (destination t) user expense) w)
          | None => (Throw typeError, w)
          end
      | Ok false => (Throw (raise Forbidden EmptyString), w)
      | Throw e => (Throw e, w)
      end.
Proof.
  destruct t; simpl;
    unfold approveExpense, unapproveExpense, rejectExpense;
    (case_bool_decide as Hat; [reflexivity|]);
    unfold bind at 1; unfold liftR at 1.
  - destruct (canApprove env req expense true) as [[|]|e]; simpl;
      try reflexivity.
    unfold remoteUser_id, bind, liftR; destruct (remoteUser req);
      reflexivity.
  - destruct (canUnapprove env req expense true) as [[|]|e]; simpl;
      try reflexivity.
    unfold remoteUser_id, bind, liftR; destruct (remoteUser req);
      reflexivity.
  - destruct (canReject env req expense true) as [[|]|e]; simpl;
      try reflexivity.
    unfold remoteUser_id, bind, liftR; destruct (remoteUser req);
      reflexivity.
Qed.

(** X3: [approveExpense], [unapproveExpense] and [rejectExpense] either
    fail and leave the world as it was, or return the expense untouched
    when it is already in the status they lead to, or start from one of
    the statuses of their evaluator and then change the status and the
    last editor of the expense, write that row and create one activity,
    nothing else. *)
Theorem transitions_are_atomic :
  forall (t : Transition) (env : Env) (req : Request) (expense : Expense.t)
    (w w' : World) (outcome : Result Expense.t),
    transitionAction t env req expense w = (outcome, w') ->
    match outcome with
    | Throw _ => w' = w
    | Ok updated =>
        (Expense.status expense = destination t
         /\ updated = expense /\ w' = w)
        \/ (Expense.status expense ∈ origins t
            /\ exists user,
                remoteUser req = Some user
                /\ updated = transitioned (destination t) user expense
                /\ w' = afterTransition (transitionActivity t) user updated w)
    end.
Proof.
  intros t env req expense w w' outcome.
  rewrite transitionAction_run. case_bool_decide as Hat.
  - intros [= <- <-]. left. auto.
  - destruct (transitionEvaluator t env req expense true) as [[|]|e] eqn:Hev.
    + apply transitionEvaluator_true in Hev as [Hst [user Huser]].
      rewrite Huser. intros [= <- <-]. right. split; [exact Hst|].
      exists user. auto.
    + intros [= <- <-]. reflexivity.
    + intros [= <- <-]. reflexivity.
Qed.

Lemma transitions_are_atomic_witness :
  approveExpense plainEnv (requestOf (Some collectiveAdmin)) pendingExpense
    (sampleWorld pendingExpense)
  = (Ok (transitioned APPROVED collectiveAdmin pendingExpense),
     afterTransition COLLECTIVE_EXPENSE_APPROVED collectiveAdmin
       (transitioned APPROVED collectiveAdmin pendingExpense)
       (sampleWorld pendingExpense))
  /\ Expense.status pendingExpense ∈ origins Approve
  /\ rejectExpense plainEnv (requestOf (Some submitter)) pendingExpense
       (sampleWorld pendingExpense)
     = (Throw (forbidden
                 "You do not have the necessary permissions to perform this action"
                 MINIMAL_CONDITION_NOT_MET),
        sampleWorld pendingExpense).
Proof.
  assert (Happrove :
            transitionAction Approve plainEnv
              (requestOf (Some collectiveAdmin)) pendingExpense
              (sampleWorld pendingExpense)
            = (Ok (transitioned APPROVED collectiveAdmin pendingExpense),
               afterTransition COLLECTIVE_EXPENSE_APPROVED collectiveAdmin
                 (transitioned APPROVED collectiveAdmin pendingExpense)
                 (sampleWorld pendingExpense)))
    by (vm_compute; reflexivity).
  destruct (rejectExpense plainEnv (requestOf (Some submitter))
              pendingExpense (sampleWorld pendingExpense))
    as [outcome w'] eqn:Hreject.
  pose proof (transitions_are_atomic Approve _ _ _ _ _ _ Happrove)
    as [(Hst & _)|(Hst & _)]; [discriminate|].
  pose proof (transitions_are_atomic Reject _ _ _ _ _ _ Hreject) as Hw.
  split; [exact Happrove|]. split; [exact Hst|].
  vm_compute in Hreject. injection Hreject as <- _.
  simpl in Hw. rewrite Hw. reflexivity.
Defined.

(** ** Approval taken back *)

Lemma canApprove_gates env req expense throw :
  canApprove env req expense throw = Ok true ->
  checkScope req "expenses" = true
  /\ canUseFeature env (remoteUser req) USE_EXPENSES = true.
Proof.
  unfold canApprove, validateExpenseScope.
  destruct (checkScope req "expenses"); simpl.
  - destruct (negb (includes_status _ _)); simpl;
      [intros H; destruct (deny_true _ _ H)|].
    destruct (canUseFeature env (remoteUser req) USE_EXPENSES); simpl;
      [auto|intros H; destruct (deny_true _ _ H)].
  - destruct throw; simpl; discriminate.
Qed.

Lemma canUnapprove_admins env req expense :
  checkScope req "expenses" = true ->
  canUseFeature env (remoteUser req) USE_EXPENSES = true ->
  Expense.status expense = APPROVED ->
  (isCollectiveAdmin req expense || isHostAdmin req expense) = true ->
  canUnapprove env req expense true = Ok true.
Proof.
  intros Hscope Hfeature Hst Hadm.
  unfold canUnapprove, validateExpenseScope. rewrite Hscope, Hst, Hfeature.
  simpl. unfold remoteUserMeetsOneCondition.
  destruct (admins_logged_in _ _ Hadm) as [user ->].
  rewrite meetsOne_admins, Hadm. reflexivity.
Qed.

(** X4: whoever approves an expense can take the approval back at once:
    [unapproveExpense] by the same request, on the expense that
    [approveExpense] returned, succeeds and leaves the expense PENDING
    with that user as last editor; for an expense that was PENDING this
    is the expense as it was, last editor apart.  (An expense approved
    from REJECTED or INCOMPLETE does not return to that status.) *)
Theorem approval_can_be_taken_back :
  forall (env : Env) (req : Request) (expense approved : Expense.t)
    (w w1 : World),
    Expense.status expense <> APPROVED ->
    approveExpense env req expense w = (Ok approved, w1) ->
    exists user,
      remoteUser req = Some user
      /\ unapproveExpense env req approved w1
         = (Ok (transitioned PENDING user expense),
            afterTransition COLLECTIVE_EXPENSE_UNAPPROVED user
              (transitioned PENDING user expense) w1)
      /\ (Expense.status expense = PENDING ->
          transitioned PENDING user expense
          = Expense.set_lastEditedById (Some (User.id user)) expense).
Proof.
  intros env req expense approved w w1 Hst Happrove.
  change (approveExpense env req expense w)
    with (transitionAction Approve env req expense w) in Happrove.
  rewrite transitionAction_run in Happrove. simpl in Happrove.
  rewrite bool_decide_eq_false_2 in Happrove by assumption.
  destruct (canApprove env req expense true) as [[|]|e] eqn:Hcan;
    [|discriminate|discriminate].
  destruct (canApprove_gates _ _ _ _ Hcan) as [Hscope Hfeature].
  apply canApprove_true in Hcan as (_ & _ & Hadm & _).
  destruct (admins_logged_in _ _ Hadm) as [user Huser].
  rewrite Huser in Happrove.
  injection Happrove as <- <-. exists user. split; [exact Huser|]. split.
  - change (unapproveExpense env req
              (transitioned APPROVED user expense)
              (afterTransition COLLECTIVE_EXPENSE_APPROVED user
                 (transitioned APPROVED user expense) w))
      with (transitionAction Unapprove env req
              (transitioned APPROVED user expense)
              (afterTransition COLLECTIVE_EXPENSE_APPROVED user
                 (transitioned APPROVED user expense) w)).
    rewrite transitionAction_run. simpl.
    rewrite (canUnapprove_admins env req (transitioned APPROVED user expense)
               Hscope Hfeature eq_refl Hadm).
    rewrite Huser. reflexivity.
  - intros Hpending. destruct expense; simpl in *. subst. reflexivity.
Qed.

Lemma approval_can_be_taken_back_witness :
  exists user,
    remoteUser (requestOf (Some collectiveAdmin)) = Some user
    /\ unapproveExpense plainEnv (requestOf (Some collectiveAdmin))
         (transitioned APPROVED collectiveAdmin pendingExpense)
         (afterTransition COLLECTIVE_EXPENSE_APPROVED collectiveAdmin
            (transitioned APPROVED collectiveAdmin pendingExpense)
            (sampleWorld pendingExpense))
       = (Ok (transitioned PENDING user pendingExpense),
          afterTransition COLLECTIVE_EXPENSE_UNAPPROVED user
            (transitioned PENDING user pendingExpense)
            (afterTransition COLLECTIVE_EXPENSE_APPROVED collectiveAdmin
               (transitioned APPROVED collectiveAdmin pendingExpense)
               (sampleWorld pendingExpense)))
    /\ (Expense.status pendingExpense = PENDING ->
        transitioned PENDING user pendingExpense
        = Expense.set_lastEditedById (Some (User.id user)) pendingExpense).
Proof.
  apply (approval_can_be_taken_back plainEnv
           (requestOf (Some collectiveAdmin)) pendingExpense
           (transitioned APPROVED collectiveAdmin pendingExpense)
           (sampleWorld pendingExpense)).
  - discriminate.
  - vm_compute. reflexivity.
Defined.

(** ** The soft lock, taken twice *)

Lemma acquireLock_missing id w :
  Expenses w !! id = None ->
  acquireLock id w = (Throw (raise NotFound "Expense not found"), w).
Proof.
  intros Hrow. unfold acquireLock, bind, findByPk, gets.
  rewrite Hrow. reflexivity.
Qed.

(** X5: [lockExpense] on an expense that does not exist fails with
    NotFound ("Expense not found") without running the callback and
    without writing anything; and the lock is not re-entrant: taking it
    again on the same expense inside the callback fails with the "already
    been processed" error without running the inner callback, after which
    the outer call releases the lock. *)
Theorem lockExpense_excludes :
  forall (A : Type) (id : Z) (callback : M A) (w : World),
    (Expenses w !! id = None ->
     lockExpense id callback w
     = (Throw (raise NotFound "Expense not found"), w))
    /\ (forall expense,
           Expenses w !! id = Some expense ->
           Expense.id expense = id ->
           Data.locked (Expense.data expense) = false ->
           lockExpense id (lockExpense id callback) w
           = (Throw alreadyBeingProcessed, writeLock false expense w)).
Proof.
  intros A id callback w. split.
  - intros Hrow. unfold lockExpense, bind.
    rewrite (acquireLock_missing _ _ Hrow). reflexivity.
  - intros expense Hrow Hid Hfree. unfold lockExpense at 1. unfold bind.
    rewrite (acquireLock_free _ _ _ Hrow Hfree).
    assert (Hlocked : Expenses (writeLock true expense w) !! id
                      = Some (withLock true expense)).
    { rewrite <- Hid. apply lookup_writeLock. }
    unfold tryFinally, lockExpense, bind.
    rewrite (acquireLock_locked _ _ _ Hlocked eq_refl).
    rewrite (releaseLock_row _ _ _ Hlocked).
    rewrite writeLock_twice. reflexivity.
Qed.

Lemma lockExpense_excludes_witness :
  lockExpense 41 (ret 7) (sampleWorld approvedExpense)
  = (Throw (raise NotFound "Expense not found"), sampleWorld approvedExpense)
  /\ lockExpense 42 (lockExpense 42 (ret 7)) (sampleWorld approvedExpense)
     = (Throw alreadyBeingProcessed,
        writeLock false approvedExpense (sampleWorld approvedExpense)).
Proof.
  split.
  - apply (proj1 (lockExpense_excludes Z 41 (ret 7)
                    (sampleWorld approvedExpense))).
    reflexivity.
  - apply (proj2 (lockExpense_excludes Z 42 (ret 7)
                    (sampleWorld approvedExpense)) approvedExpense);
      reflexivity.
Defined.

(** ** The lock after a payment *)

Lemma keepsRows_refl w : keepsRows w w.
Proof. split; auto. Qed.

Lemma keepsRows_trans w1 w2 w3 :
  keepsRows w1 w2 -> keepsRows w2 w3 -> keepsRows w1 w3.
Proof. intros [K1 D1] [K2 D2]. split; auto. Qed.

Lemma keepsRows_tables w w' :
  Expenses w' = Expenses w -> keepsRows w w'.
Proof.
  intros Heq. unfold keepsRows, wellKeyed. rewrite Heq. auto.
Qed.

Lemma keepsRows_update e w :
  keepsRows w (set_Expenses (fun t => <[Expense.id e := e]> t) w).
Proof.
  split.
  - intros Hkeyed id row. simpl.
    destruct (decide (id = Expense.id e)) as [->|Hne].
    + rewrite lookup_insert_eq. intros [= <-]. reflexivity.
    + rewrite lookup_insert_ne by congruence. apply Hkeyed.
  - intros id Hrow. simpl.
    destruct (decide (id = Expense.id e)) as [->|Hne].
    + rewrite lookup_insert_eq. eauto.
    + rewrite lookup_insert_ne by congruence. exact Hrow.
Qed.

Lemma rowKeeping_ret {A} (a : A) : rowKeeping (ret a).
Proof. intros w r w' [= <- <-]. apply keepsRows_refl. Qed.

Lemma rowKeeping_throw {A} e : rowKeeping (@throw A e).
Proof. intros w r w' [= <- <-]. apply keepsRows_refl. Qed.

Lemma rowKeeping_liftR {A} (r : Result A) : rowKeeping (liftR r).
Proof. intros w r' w' [= <- <-]. apply keepsRows_refl. Qed.

Lemma rowKeeping_findByPk id : rowKeeping (findByPk id).
Proof. intros w r w' [= <- <-]. apply keepsRows_refl. Qed.

Lemma rowKeeping_cache_get key : rowKeeping (cache_get key).
Proof. intros w r w' [= <- <-]. apply keepsRows_refl. Qed.

Lemma rowKeeping_cache_set key value ttl :
  rowKeeping (cache_set key value ttl).
Proof. intros w r w' [= <- <-]. apply keepsRows_tables. reflexivity. Qed.

Lemma rowKeeping_record e : rowKeeping (record e).
Proof. intros w r w' [= <- <-]. apply keepsRows_tables. reflexivity. Qed.

Lemma rowKeeping_createActivity type e user :
  rowKeeping (createActivity type e user).
Proof. apply rowKeeping_record. Qed.

Lemma rowKeeping_call env c : rowKeeping (call env c).
Proof.
  intros w r w'. unfold call, bind, record, modify.
  destruct (failure env c); intros [= <- <-]; apply keepsRows_tables;
    reflexivity.
Qed.

Lemma rowKeeping_update e : rowKeeping (update e).
Proof. intros w r w' [= <- <-]. apply keepsRows_update. Qed.

Lemma rowKeeping_bind_yields {A B} (c : M A) (k : A -> M B)
  (P : A -> Prop) :
  rowKeeping c -> yields c P -> (forall a, P a -> rowKeeping (k a)) ->
  rowKeeping (bind c k).
Proof.
  intros Hc Hy Hk w r w'. unfold bind.
  destruct (c w) as [[a|e] w1] eqn:Hcw.
  - intros Hkw. eapply keepsRows_trans; [eapply Hc, Hcw|].
    eapply Hk; [eapply Hy, Hcw|exact Hkw].
  - intros [= <- <-]. eapply Hc, Hcw.
Qed.

Lemma rowKeeping_bind {A B} (c : M A) (k : A -> M B) :
  rowKeeping c -> (forall a, rowKeeping (k a)) -> rowKeeping (bind c k).
Proof.
  intros Hc Hk.
  apply (rowKeeping_bind_yields c k (fun _ => True)); auto.
  intros w a w' _. exact I.
Qed.

Lemma rowKeeping_tryCatch {A} (body : M A) (handler : Exception -> M A) :
  rowKeeping body -> (forall e, rowKeeping (handler e)) ->
  rowKeeping (tryCatch body handler).
Proof.
  intros Hb Hh w r w'. unfold tryCatch.
  destruct (body w) as [[a|e] w1] eqn:Hbw.
  - intros [= <- <-]. eapply Hb, Hbw.
  - intros Hhw. eapply keepsRows_trans; [eapply Hb, Hbw|eapply Hh, Hhw].
Qed.

Lemma rowKeeping_tryFinally {A} (body : M A) (cleanup : M unit) :
  rowKeeping body -> rowKeeping cleanup ->
  rowKeeping (tryFinally body cleanup).
Proof.
  intros Hb Hc w r w'. unfold tryFinally.
  destruct (body w) as [rb w1] eqn:Hbw.
  destruct (cleanup w1) as [[u|e] w2] eqn:Hcw; intros [= <- <-];
    (eapply keepsRows_trans; [eapply Hb, Hbw|eapply Hc, Hcw]).
Qed.

Ltac rowKeeping_step :=
  lazymatch goal with
  | |- rowKeeping (bind _ _) => apply rowKeeping_bind; [|intros ?]
  | |- rowKeeping (ret _) => apply rowKeeping_ret
  | |- rowKeeping (throw _) => apply rowKeeping_throw
  | |- rowKeeping (liftR _) => apply rowKeeping_liftR
  | |- rowKeeping (call _ _) => apply rowKeeping_call
  | |- rowKeeping (findByPk _) => apply rowKeeping_findByPk
  | |- rowKeeping (update _) => apply rowKeeping_update
  | |- rowKeeping (cache_get _) => apply rowKeeping_cache_get
  | |- rowKeeping (cache_set _ _ _) => apply rowKeeping_cache_set
  | |- rowKeeping (createActivity _ _ _) => apply rowKeeping_createActivity
  | |- rowKeeping (tryCatch _ _) => apply rowKeeping_tryCatch; [|intros ?]
  | |- rowKeeping (match ?x with _ => _ end) => destruct x
  | |- rowKeeping (let _ := _ in _) => cbv zeta
  end.

Lemma rowKeeping_markAsPaid expense user :
  rowKeeping (markAsPaid expense user).
Proof. unfold markAsPaid. repeat rowKeeping_step. Qed.

Lemma rowKeeping_setTransferWiseExpenseAsProcessing host expense user :
  rowKeeping (setTransferWiseExpenseAsProcessing host expense user).
Proof.
  unfold setTransferWiseExpenseAsProcessing, setProcessing.
  repeat rowKeeping_step.
Qed.

Lemma rowKeeping_payExpenseWithPayPalAdaptive env user expense host :
  rowKeeping (payExpenseWithPayPalAdaptive env user expense host).
Proof.
  unfold payExpenseWithPayPalAdaptive.
  repeat first [apply rowKeeping_markAsPaid | rowKeeping_step].
Qed.

Lemma rowKeeping_quoteExpense env expense :
  rowKeeping (quoteExpense env expense).
Proof. unfold quoteExpense. repeat rowKeeping_step. Qed.

Lemma rowKeeping_getExpenseFees env expense host fees payoutMethod
  useExisting :
  rowKeeping (getExpenseFees env expense host fees payoutMethod useExisting).
Proof.
  unfold getExpenseFees.
  repeat first [apply rowKeeping_quoteExpense | rowKeeping_step].
Qed.

Lemma rowKeeping_checkHasBalanceToPayExpense env host expense payoutMethod
  options :
  rowKeeping (checkHasBalanceToPayExpense env host expense payoutMethod
                options).
Proof.
  unfold checkHasBalanceToPayExpense.
  repeat first [apply rowKeeping_getExpenseFees | rowKeeping_step].
Qed.

Lemma rowKeeping_validateExpensePayout2FALimit env req host expense key :
  rowKeeping (validateExpensePayout2FALimit env req host expense key).
Proof. unfold validateExpensePayout2FALimit. repeat rowKeeping_step. Qed.

Lemma rowKeeping_payManually env host expense args :
  rowKeeping (payManually env host expense args).
Proof. unfold payManually. repeat rowKeeping_step. Qed.

Lemma rowKeeping_dispatch env user host expense payoutMethod type args :
  rowKeeping (dispatch env user host expense payoutMethod type args).
Proof.
  unfold dispatch.
  repeat first [apply rowKeeping_payManually | rowKeeping_step].
Qed.

Lemma rowKeeping_rollbackRollingLimit {A} use key total expense error :
  rowKeeping (@rollbackRollingLimit A use key total expense error).
Proof. unfold rollbackRollingLimit. repeat rowKeeping_step. Qed.

Lemma yields_ret {A} (a : A) (P : A -> Prop) : P a -> yields (ret a) P.
Proof. intros HP w a' w' [= <- _]. exact HP. Qed.

Lemma yields_throw {A} e (P : A -> Prop) : yields (throw e) P.
Proof. intros w a w'. discriminate. Qed.

Lemma yields_bind {A B} (c : M A) (k : A -> M B) (P : B -> Prop) :
  (forall a, yields (k a) P) -> yields (bind c k) P.
Proof.
  intros Hk w b w' H. apply bind_Ok in H as (a & w1 & _ & H).
  eapply Hk, H.
Qed.

Ltac yields_step :=
  lazymatch goal with
  | |- yields (bind _ _) _ => apply yields_bind; intros ?
  | |- yields (ret _) _ => apply yields_ret
  | |- yields (throw _) _ => apply yields_throw
  | |- yields (match ?x with _ => _ end) _ => destruct x
  | |- yields (let _ := _ in _) _ => cbv zeta
  end.

Lemma yields_dispatch env user host expense payoutMethod type args :
  yields (dispatch env user host expense payoutMethod type args)
    rowKeepingPromise.
Proof.
  unfold dispatch.
  repeat first
    [ yields_step
    | exact I
    | apply rowKeeping_payExpenseWithPayPalAdaptive
    | apply rowKeeping_setTransferWiseExpenseAsProcessing ].
Qed.

Lemma yields_dispatch_caught env user host expense payoutMethod type args
  use key total row :
  yields
    (tryCatch (dispatch env user host expense payoutMethod type args)
       (rollbackRollingLimit use key total row))
    rowKeepingPromise.
Proof.
  intros w d w'. unfold tryCatch.
  destruct (dispatch env user host expense payoutMethod type args w)
    as [[d'|e] w1] eqn:Hd.
  - intros [= <- _]. eapply yields_dispatch, Hd.
  - unfold rollbackRollingLimit, bind.
    destruct (_ w1) as [[u|e'] w2]; discriminate.
Qed.

Lemma rowKeeping_payExpense_locked env req user args :
  rowKeeping (payExpense_locked env req user args).
Proof.
  unfold payExpense_locked. cbv zeta.
  apply rowKeeping_bind; [apply rowKeeping_findByPk|]. intros found.
  destruct found as [expense|]; [|apply rowKeeping_throw].
  repeat match goal with
         | |- rowKeeping (if ?b then _ else _) => destruct b
         | |- rowKeeping (throw _) => apply rowKeeping_throw
         end.
  apply rowKeeping_bind; [apply rowKeeping_liftR|]. intros allowed.
  destruct (negb allowed); [apply rowKeeping_throw|].
  destruct (Expense.collective expense) as [collective|];
    [|apply rowKeeping_throw].
  repeat match goal with
         | |- rowKeeping (if ?b then _ else _) => destruct b
         | |- rowKeeping (throw _) => apply rowKeeping_throw
         end.
  apply rowKeeping_bind; [repeat rowKeeping_step|]. intros paid.
  apply rowKeeping_bind;
    [apply rowKeeping_checkHasBalanceToPayExpense|]. intros fees.
  destruct (getHostCollective env collective) as [host|];
    [|apply rowKeeping_throw].
  apply rowKeeping_bind.
  { repeat first
      [apply rowKeeping_validateExpensePayout2FALimit | rowKeeping_step]. }
  intros total.
  eapply rowKeeping_bind_yields.
  - apply rowKeeping_tryCatch; [apply rowKeeping_dispatch|].
    intros e. apply rowKeeping_rollbackRollingLimit.
  - apply yields_dispatch_caught.
  - intros [row|promise] Hd; [apply rowKeeping_markAsPaid|exact Hd].
Qed.

Lemma lockExpense_releases {A} id (callback : M A) w expense outcome w' :
  rowKeeping callback ->
  wellKeyed w ->
  Expenses w !! id = Some expense ->
  Data.locked (Expense.data expense) = false ->
  lockExpense id callback w = (outcome, w') ->
  wellKeyed w'
  /\ exists row,
      Expenses w' !! id = Some row
      /\ Data.locked (Expense.data row) = false.
Proof.
  intros Hkeeps Hkeyed Hrow Hfree. unfold lockExpense, bind.
  rewrite (acquireLock_free _ _ _ Hrow Hfree). unfold tryFinally.
  destruct (callback (writeLock true expense w)) as [r w1] eqn:Hcallback.
  pose proof (Hkeyed _ _ Hrow) as Hid.
  destruct (keepsRows_update (withLock true expense) w) as [Hk0 Hd0].
  destruct (Hkeeps _ _ _ Hcallback) as [Hk1 Hd1].
  assert (Hkeyed1 : wellKeyed w1) by (apply Hk1, Hk0, Hkeyed).
  destruct (Hd1 id) as [row Hrow1].
  { apply Hd0. eauto. }
  rewrite (releaseLock_row _ _ _ Hrow1). intros [= <- <-].
  pose proof (Hkeyed1 _ _ Hrow1) as Hid1.
  split.
  - apply (keepsRows_update (withLock false row) w1), Hkeyed1.
  - exists (withLock false row). split; [|reflexivity].
    rewrite <- Hid1 at 1. apply lookup_writeLock.
Qed.

(** X6: [payExpense] never leaves the expense locked.  In a table where
    every row is stored under its id, a call on an expense whose
    [isLocked] flag is not set ends, whether it pays, is refused or fails
    at a provider, with the row still there and its flag not set. *)
Theorem payExpense_releases_lock :
  forall (env : Env) (req : Request) (args : PayExpenseArgs.t)
    (w w' : World) (outcome : Result Expense.t) (expense : Expense.t),
    wellKeyed w ->
    Expenses w !! PayExpenseArgs.id args = Some expense ->
    Data.locked (Expense.data expense) = false ->
    payExpense env req args w = (outcome, w') ->
    wellKeyed w'
    /\ exists row,
        Expenses w' !! PayExpenseArgs.id args = Some row
        /\ Data.locked (Expense.data row) = false.
Proof.
  intros env req args w w' outcome expense Hkeyed Hrow Hfree.
  unfold payExpense.
  destruct (remoteUser req) as [user|];
    [|intros [= <- <-]; eauto].
  destruct (negb (canUseFeature env (Some user) USE_EXPENSES));
    [intros [= <- <-]; eauto|].
  apply lockExpense_releases with (expense := expense); auto.
  apply rowKeeping_payExpense_locked.
Qed.

Lemma payExpense_releases_lock_witness :
  exists row,
    Expenses
      (payExpense (twoFactorEnv bankAccount None TransferwisePayExpense)
         (requestOf (Some hostAdmin)) (payArgs false None)
         (worldWithCounter 25000)).2 !! 42 = Some row
    /\ Data.locked (Expense.data row) = false.
Proof.
  destruct (payExpense (twoFactorEnv bankAccount None TransferwisePayExpense)
              (requestOf (Some hostAdmin)) (payArgs false None)
              (worldWithCounter 25000)) as [outcome w'] eqn:Hrun.
  apply (payExpense_releases_lock _ _ _ _ _ _ payoutExpense) in Hrun
    as [_ Hrow].
  - exact Hrow.
  - intros id row. unfold worldWithCounter. simpl.
    intros [<- <-]%lookup_singleton_Some. reflexivity.
  - reflexivity.
  - reflexivity.
Defined.

(** ** The counter of the rolling limit *)

(** X7: a validation of the rolling limit that succeeds leaves the counter
    of the user either at 0 (a token was asked: no counter yet, or the
    payout would pass the limit) or at the previous value plus the amount
    in host currency, which is then within the limit of the host; a
    validation that fails leaves the cache as it was; the table of
    expenses is never written. *)
Theorem rolling_limit_counter_stays_within_limit :
  forall (env : Env) (req : Request) (host : Host.t) (expense : Expense.t)
    (key : string) (w w' : World) (outcome : Result unit),
    validateExpensePayout2FALimit env req host expense key w
    = (outcome, w') ->
    Expenses w' = Expenses w
    /\ match outcome with
       | Ok _ =>
           exists counter,
             cache w' = <[key := counter]> (cache w)
             /\ (counter = 0
                 \/ (counter
                     <= default 1000000
                          (Host.payoutsTwoFactorAuth_rollingLimit host)
                     /\ exists previous,
                         cache w !! key = Some previous
                         /\ counter
                            = previous
                              + convertToCurrency env (Expense.amount expense)
                                  (Expense.currency expense)
                                  (Host.currency host)))
       | Throw _ => cache w' = cache w
       end.
Proof.
  intros env req host expense key w w' outcome.
  unfold validateExpensePayout2FALimit, bind, cache_get, gets.
  destruct (negb (userHasTwoFactorAuthEnabled env (remoteUser req))).
  { intros [= <- <-]. auto. }
  unfold call, bind, record, modify.
  destruct (failure env TwoFactorValidateRequest) as [e|].
  { intros [= <- <-]. auto. }
  unfold ret, cache_set, modify.
  destruct (cache w !! key) as [previous|] eqn:Hprevious; simpl.
  - case_bool_decide as Hover; simpl; intros [= <- <-]; simpl;
      (split; [reflexivity|]); eexists; (split; [reflexivity|]).
    + left. reflexivity.
    + right. split; [lia|]. exists previous. auto.
  - intros [= <- <-]. simpl. split; [reflexivity|].
    eexists. split; [reflexivity|]. left. reflexivity.
Qed.

Lemma rolling_limit_counter_stays_within_limit_witness :
  exists counter,
    cache
      (validateExpensePayout2FALimit bankEnv (requestOf (Some hostAdmin))
         twoFactorHost payoutExpense rollingLimitKey
         (worldWithCounter 995000)).2 !! rollingLimitKey = Some counter
    /\ (counter = 0 \/ counter <= 1000000).
Proof.
  destruct (validateExpensePayout2FALimit bankEnv
              (requestOf (Some hostAdmin)) twoFactorHost payoutExpense
              rollingLimitKey (worldWithCounter 995000))
    as [outcome w'] eqn:Hrun.
  pose proof (rolling_limit_counter_stays_within_limit _ _ _ _ _ _ _ _
                Hrun) as [_ Hcounter].
  destruct outcome as [[]|e]; [|vm_compute in Hrun; discriminate].
  destruct Hcounter as (counter & Hcache & Hwithin).
  exists counter. simpl. rewrite Hcache. split.
  - apply lookup_insert_eq.
  - destruct Hwithin as [->|[Hle _]]; [left; reflexivity|right; exact Hle].
Defined.

(** ** Fees on the payee *)

Lemma assertFeesPayer_outcome env expense payoutMethodType sameCurrency :
  Expense.feesPayer expense = ExpenseFeesPayer.PAYEE ->
  if typeSupportsFeesPayer env (Some payoutMethodType)
     && (bool_decide (payoutMethodType = STRIPE) || sameCurrency)
  then assertFeesPayer env expense payoutMethodType sameCurrency = Ok tt
  else exists e,
      assertFeesPayer env expense payoutMethodType sameCurrency = Throw e
      /\ class e = AssertionError.
Proof.
  intros Hpayee. unfold assertFeesPayer. rewrite Hpayee.
  rewrite (bool_decide_eq_true_2
             (ExpenseFeesPayer.PAYEE = ExpenseFeesPayer.PAYEE))
    by reflexivity.
  destruct (typeSupportsFeesPayer env (Some payoutMethodType)); simpl;
    [|eauto].
  case_bool_decide as Hstripe; simpl; [reflexivity|].
  destruct sameCurrency; simpl; eauto.
Qed.

(** X8: with the fees on the payee, the balance check lets a payment
    through only when the type of the payout method supports it and,
    unless that type is STRIPE, the expense is in the currency of the
    collective; otherwise it fails with an [AssertionError] before the
    balance is compared and before any provider is asked, whether the
    payment is forced manual or not. *)
Theorem fees_on_payee_preconditions :
  forall (env : Env) (host : option Host.t) (expense : Expense.t)
    (payoutMethod : option PayoutMethod.t) (options : BalanceOptions.t)
    (collective : Collective.t) (w w' : World)
    (outcome : Result ExpenseFees.t),
    Expense.feesPayer expense = ExpenseFeesPayer.PAYEE ->
    Expense.collective expense = Some collective ->
    checkHasBalanceToPayExpense env host expense payoutMethod options w
    = (outcome, w') ->
    let type := payoutMethodTypeOf env expense payoutMethod in
    if typeSupportsFeesPayer env (Some type)
       && (bool_decide (type = STRIPE) || isSameCurrency expense collective)
    then True
    else w' = w
         /\ exists e, outcome = Throw e /\ class e = AssertionError.
Proof.
  intros env host expense payoutMethod options collective w w' outcome
    Hpayee Hcollective Hrun type.
  pose proof (assertFeesPayer_outcome env expense type
                (isSameCurrency expense collective) Hpayee) as Hassert.
  destruct (typeSupportsFeesPayer env (Some type)
            && (bool_decide (type = STRIPE)
                || isSameCurrency expense collective)); [exact I|].
  destruct Hassert as (e & Hassert & Hclass).
  unfold checkHasBalanceToPayExpense in Hrun. rewrite Hcollective in Hrun.
  unfold bind at 1 in Hrun. unfold liftR at 1 in Hrun.
  fold type in Hrun. unfold isSameCurrency in Hassert.
  rewrite Hassert in Hrun. injection Hrun as <- <-. eauto.
Qed.

Lemma fees_on_payee_preconditions_witness :
  (checkHasBalanceToPayExpense
     (sampleEnv 50000 (Some paypalAccount) None noFailure)
     (Some sampleHost) payeePays (Some paypalAccount) BalanceOptions.none
     (sampleWorld payeePays)).2 = sampleWorld payeePays
  /\ exists e,
      (checkHasBalanceToPayExpense
         (sampleEnv 50000 (Some paypalAccount) None noFailure)
         (Some sampleHost) payeePays (Some paypalAccount) BalanceOptions.none
         (sampleWorld payeePays)).1 = Throw e
      /\ class e = AssertionError.
Proof.
  destruct (checkHasBalanceToPayExpense
              (sampleEnv 50000 (Some paypalAccount) None noFailure)
              (Some sampleHost) payeePays (Some paypalAccount)
              BalanceOptions.none (sampleWorld payeePays))
    as [outcome w'] eqn:Hrun.
  exact (fees_on_payee_preconditions
           (sampleEnv 50000 (Some paypalAccount) None noFailure)
           (Some sampleHost) payeePays (Some paypalAccount)
           BalanceOptions.none sampleCollective _ _ _ eq_refl eq_refl Hrun).
Defined.

(** ** Forced manual payments *)

(** X9: for a payment forced manual, the balance check asks no provider
    and writes nothing; it lets the payment through only when a total paid
    in host currency is declared and is not negative and, unless the
    expense is a settlement, the balance of the collective converted to
    the host currency is not below that total; the fees it returns are
    the processor fee declared in host currency, without a total to
    pay. *)
Theorem forced_manual_balance_check :
  forall (env : Env) (host : option Host.t) (expense : Expense.t)
    (payoutMethod : option PayoutMethod.t) (options : BalanceOptions.t)
    (w w' : World) (outcome : Result ExpenseFees.t),
    BalanceOptions.forceManual options = true ->
    checkHasBalanceToPayExpense env host expense payoutMethod options w
    = (outcome, w') ->
    w' = w
    /\ forall fees,
        outcome = Ok fees ->
        exists collective payer total,
          Expense.collective expense = Some collective
          /\ host = Some payer
          /\ BalanceOptions.totalAmountPaidInHostCurrency options
             = Some total
          /\ 0 <= total
          /\ (Expense.type expense = SETTLEMENT
              \/ Js.lt
                   (Js.round
                      (Js.mul
                         (Js.ofZ (getBalanceWithBlockedFunds env collective))
                         (getFxRate env (Collective.currency collective)
                            (Host.currency payer))))
                   (Js.ofZ total) = false)
          /\ fees
             = ExpenseFees.mk FeesArgs.empty
                 (Fees.mk
                    (Js.ofZ
                     <$> BalanceOptions.paymentProcessorFeeInHostCurrency
                           options)
                    None None)
                 Fees.empty None.
Proof.
  intros env host expense payoutMethod options w w' outcome Hmanual.
  unfold checkHasBalanceToPayExpense.
  destruct (Expense.collective expense) as [collective|];
    [|intros [= <- <-]; split; [reflexivity|discriminate]].
  unfold bind at 1. unfold liftR at 1.
  destruct (assertFeesPayer _ _ _ _) as [[]|e];
    [|intros [= <- <-]; split; [reflexivity|discriminate]].
  rewrite Hmanual. unfold bind at 1. unfold liftR at 1.
  destruct (BalanceOptions.totalAmountPaidInHostCurrency options)
    as [total|]; simpl;
    [|intros [= <- <-]; split; [reflexivity|discriminate]].
  case_bool_decide as Htotal; simpl;
    [|intros [= <- <-]; split; [reflexivity|discriminate]].
  destruct host as [payer|];
    [|intros [= <- <-]; split; [reflexivity|discriminate]].
  case_bool_decide as Htype; simpl.
  - intros [= <- <-]. split; [reflexivity|]. intros fees [= <-].
    exists collective, payer, total. repeat split; auto. lia.
  - destruct (Js.lt _ _) eqn:Hlt;
      intros [= <- <-]; (split; [reflexivity|]); [discriminate|].
    intros fees [= <-].
    exists collective, payer, total. repeat split; auto. lia.
Qed.

Lemma forced_manual_balance_check_witness :
  (checkHasBalanceToPayExpense poorEnv (Some sampleHost) approvedExpense None
     (declaredTotal 5000) (sampleWorld approvedExpense)).2
  = sampleWorld approvedExpense
  /\ isOk (checkHasBalanceToPayExpense poorEnv (Some sampleHost)
             approvedExpense None (declaredTotal 5000)
             (sampleWorld approvedExpense)).1 = true.
Proof.
  destruct (checkHasBalanceToPayExpense poorEnv (Some sampleHost)
              approvedExpense None (declaredTotal 5000)
              (sampleWorld approvedExpense)) as [outcome w'] eqn:Hrun.
  destruct (forced_manual_balance_check poorEnv (Some sampleHost)
              approvedExpense None (declaredTotal 5000) _ _ _ eq_refl Hrun)
    as [Hworld _].
  split; [exact Hworld|].
  vm_compute in Hrun. injection Hrun as <- _. reflexivity.
Defined.

(** ** The two modes of the other evaluators *)

Ltac throw_mode_evaluator req :=
  throw_mode_scope req; throw_mode_branches.

Lemma throwModeFollows_canEditExpenseAccountingCategory env svc req expense :
  throwModeFollows (canEditExpenseAccountingCategory env svc req expense false)
    (canEditExpenseAccountingCategory env svc req expense true).
Proof.
  unfold canEditExpenseAccountingCategory. throw_mode_scope req.
  destruct (negb (canUseFeature _ _ _)); [throw_mode_leaf|].
  destruct (remoteUserMeetsOneCondition req expense _ false) as [[|]|e];
    simpl; try reflexivity.
  destruct (includes_status _ _); [throw_mode_leaf|].
  destruct (isCollectiveAdmin req expense); [reflexivity|].
  apply throwModeFollows_canEditExpense.
Qed.

(** X10: the evaluators of the single fields, of the tags, of the
    accounting category, of comments and of the operations of the host
    follow the same rule in their two modes: with [{ throw: true }] they
    answer true exactly when they do without it, and throw a [Forbidden]
    error carrying a permission code where they answer false. *)
Theorem field_evaluators_throw_mode_follows :
  forall (env : Env) (svc : Services) (req : Request) (expense : Expense.t),
    Forall (fun evaluator =>
              throwModeFollows (evaluator req expense false)
                (evaluator req expense true))
      (fieldEvaluators env svc).
Proof.
  intros env svc req expense. unfold fieldEvaluators.
  repeat (apply List.Forall_cons; [|]); [..|apply List.Forall_nil].
  - unfold canEditTitle. throw_mode_evaluator req.
  - unfold canEditType. throw_mode_evaluator req.
  - unfold canEditPaidBy. throw_mode_evaluator req.
  - unfold canEditPayee. throw_mode_evaluator req.
  - unfold canEditPayoutMethod. throw_mode_evaluator req.
  - unfold canEditItems. throw_mode_evaluator req.
  - unfold canAttachReceipts. throw_mode_evaluator req.
  - unfold canEditItemDescription. throw_mode_evaluator req.
  - unfold canEditExpenseTags. throw_mode_evaluator req.
  - apply throwModeFollows_canEditExpenseAccountingCategory.
  - unfold canComment. throw_mode_evaluator req.
  - unfold canMarkAsIncomplete. throw_mode_evaluator req.
  - unfold canMarkAsUnpaid. throw_mode_evaluator req.
  - unfold canUnschedulePayment. throw_mode_evaluator req.
  - unfold canPutOnHold. throw_mode_evaluator req.
  - unfold canReleaseHold. throw_mode_evaluator req.
Qed.

(** ** Deletion *)

Lemma meetsOne_owner_admins req expense :
  isOwner req expense = Ok false ->
  meetsOne [isOwner; cond isCollectiveAdmin; cond isHostAdmin] req expense
  = Ok (isCollectiveAdmin req expense || isHostAdmin req expense).
Proof.
  intros Howner. simpl. rewrite Howner. simpl. unfold cond.
  destruct (isCollectiveAdmin req expense); simpl; [reflexivity|].
  destruct (isHostAdmin req expense); reflexivity.
Qed.

(** X11: [canDeleteExpense] does not follow that rule on a DRAFT.  For an
    admin of the collective or of the host who is not the owner of the
    draft it answers true, and with [{ throw: true }] it throws
    [Forbidden]: the first test, for the owner alone, throws before the
    test for the admins is reached.  In every other status its two modes
    agree as those of the other evaluators do. *)
Theorem canDeleteExpense_modes_disagree_on_drafts :
  forall (env : Env) (req : Request) (expense : Expense.t),
    (Expense.status expense = DRAFT ->
     checkScope req "expenses" = true ->
     canUseFeature env (remoteUser req) USE_EXPENSES = true ->
     isOwner req expense = Ok false ->
     (isCollectiveAdmin req expense || isHostAdmin req expense) = true ->
     canDeleteExpense env req expense false = Ok true
     /\ canDeleteExpense env req expense true = Throw notPermitted)
    /\ (Expense.status expense <> DRAFT ->
        throwModeFollows (canDeleteExpense env req expense false)
          (canDeleteExpense env req expense true)).
Proof.
  intros env req expense. split.
  - intros Hdraft Hscope Hfeature Howner Hadmin.
    destruct (admins_logged_in _ _ Hadmin) as [user Huser].
    unfold canDeleteExpense, validateExpenseScope.
    rewrite Hscope, Hdraft, Hfeature. simpl.
    unfold remoteUserMeetsOneCondition. rewrite Huser.
    rewrite meetsOne_owner_admins by assumption.
    simpl. rewrite Howner, Hadmin. simpl. split; reflexivity.
  - intros Hdraft. unfold canDeleteExpense. throw_mode_scope req.
    unfold includes_status.
    case_bool_decide as Hown; simpl.
    + case_bool_decide as Hdel; simpl.
      * exfalso.
        repeat (apply elem_of_cons in Hown as [Hown|Hown];
                [rewrite Hown in Hdel|]);
          try (apply elem_of_nil in Hown; contradiction);
          try contradiction;
          repeat (apply elem_of_cons in Hdel as [Hdel|Hdel];
                  [discriminate|]);
          apply elem_of_nil in Hdel; contradiction.
      * unfold remoteUserMeetsOneCondition.
        destruct (remoteUser req) as [user|]; simpl; [|eauto].
        destruct (isOwner req expense) as [[|]|e]; simpl;
          [reflexivity| |reflexivity].
        eexists. repeat split; simpl; eauto.
    + throw_mode_branches.
Qed.

Lemma canDeleteExpense_modes_disagree_on_drafts_witness :
  canDeleteExpense plainEnv (requestOf (Some collectiveAdmin)) draftExpense
    false = Ok true
  /\ canDeleteExpense plainEnv (requestOf (Some collectiveAdmin)) draftExpense
       true = Throw notPermitted.
Proof.
  apply (proj1 (canDeleteExpense_modes_disagree_on_drafts plainEnv
                  (requestOf (Some collectiveAdmin)) draftExpense));
    reflexivity.
Defined.

(** ** Requests without a user *)

Lemma meets_anonymous req expense conditions throw :
  remoteUser req = None ->
  remoteUserMeetsOneCondition req expense conditions throw <> Ok true.
Proof.
  intros Hnone. unfold remoteUserMeetsOneCondition. rewrite Hnone.
  destruct throw; discriminate.
Qed.

Lemma isHostAdmin_anonymous req expense :
  remoteUser req = None -> isHostAdmin req expense = false.
Proof. intros Hnone. unfold isHostAdmin. rewrite Hnone. reflexivity. Qed.

Lemma isCollectiveAdmin_anonymous req expense :
  remoteUser req = None -> isCollectiveAdmin req expense = false.
Proof. intros Hnone. unfold isCollectiveAdmin. rewrite Hnone. reflexivity. Qed.

Ltac anonymous_leaf Hnone :=
  lazymatch goal with
  | |- remoteUserMeetsOneCondition _ _ _ _ <> Ok true =>
      apply meets_anonymous; exact Hnone
  | |- deny _ _ <> Ok true =>
      let H := fresh in intros H; exact (deny_true _ _ H)
  | |- missingScope _ <> Ok true =>
      let H := fresh in intros H; exact (missingScope_true _ H)
  | |- Ok false <> Ok true => discriminate
  | |- Throw _ <> Ok true => discriminate
  end.

Ltac anonymous_evaluator req throw Hnone :=
  destruct (validateExpenseScope req throw) as [[|]|]; simpl;
  try anonymous_leaf Hnone;
  repeat (match goal with
          | |- context [if ?b then _ else _] => destruct b
          end; try anonymous_leaf Hnone).

Lemma canEditExpense_anonymous env req expense throw :
  remoteUser req = None -> canEditExpense env req expense throw <> Ok true.
Proof.
  intros Hnone. unfold canEditExpense. anonymous_evaluator req throw Hnone.
Qed.

Lemma canApprove_anonymous env req expense throw :
  remoteUser req = None -> canApprove env req expense throw <> Ok true.
Proof.
  intros Hnone H. apply canApprove_true in H as (_ & _ & Hadmin & _).
  rewrite isCollectiveAdmin_anonymous, isHostAdmin_anonymous in Hadmin
    by exact Hnone.
  discriminate.
Qed.

Lemma canEditExpenseAccountingCategory_anonymous env svc req expense throw :
  remoteUser req = None ->
  canEditExpenseAccountingCategory env svc req expense throw <> Ok true.
Proof.
  intros Hnone. unfold canEditExpenseAccountingCategory.
  destruct (validateExpenseScope req throw) as [[|]|]; simpl;
    try anonymous_leaf Hnone.
  destruct (negb (canUseFeature _ _ _)); [anonymous_leaf Hnone|].
  unfold remoteUserMeetsOneCondition at 1. rewrite Hnone. simpl.
  destruct (includes_status _ _); [anonymous_leaf Hnone|].
  rewrite isCollectiveAdmin_anonymous by exact Hnone.
  apply canEditExpense_anonymous, Hnone.
Qed.

Lemma canMarkAsIncomplete_anonymous env req expense throw :
  remoteUser req = None ->
  canMarkAsIncomplete env req expense throw <> Ok true.
Proof.
  intros Hnone. unfold canMarkAsIncomplete.
  rewrite isHostAdmin_anonymous by exact Hnone.
  anonymous_evaluator req throw Hnone.
Qed.

(** X12: no evaluator of a write answers true to a request without a
    user, whatever the expense, its status and the scope: the six
    evaluators of the transitions, the evaluators of the single fields,
    of the tags, of the accounting category, of comments, of the
    operations of the host, and [canDeleteExpense]. *)
Theorem anonymous_requests_cannot_write :
  forall (env : Env) (svc : Services) (req : Request) (expense : Expense.t)
    (throw : bool),
    remoteUser req = None ->
    Forall (fun evaluator => evaluator req expense throw <> Ok true)
      (writeEvaluators env svc).
Proof.
  intros env svc req expense throw Hnone.
  unfold writeEvaluators, statusEvaluators, fieldEvaluators. simpl.
  repeat (apply List.Forall_cons; [|]); [..|apply List.Forall_nil].
  - apply canEditExpense_anonymous, Hnone.
  - unfold canPayExpense. anonymous_evaluator req throw Hnone.
  - apply canApprove_anonymous, Hnone.
  - unfold canReject. anonymous_evaluator req throw Hnone.
  - unfold canMarkAsSpam. anonymous_evaluator req throw Hnone.
  - unfold canUnapprove. anonymous_evaluator req throw Hnone.
  - unfold canEditTitle. anonymous_evaluator req throw Hnone.
  - unfold canEditType. anonymous_evaluator req throw Hnone.
  - unfold canEditPaidBy. anonymous_evaluator req throw Hnone.
  - unfold canEditPayee. anonymous_evaluator req throw Hnone.
  - unfold canEditPayoutMethod. anonymous_evaluator req throw Hnone.
  - unfold canEditItems. anonymous_evaluator req throw Hnone.
  - unfold canAttachReceipts. anonymous_evaluator req throw Hnone.
  - unfold canEditItemDescription. anonymous_evaluator req throw Hnone.
  - unfold canEditExpenseTags. anonymous_evaluator req throw Hnone.
  - apply canEditExpenseAccountingCategory_anonymous, Hnone.
  - unfold canComment. anonymous_evaluator req throw Hnone.
  - apply canMarkAsIncomplete_anonymous, Hnone.
  - unfold canMarkAsUnpaid. anonymous_evaluator req throw Hnone.
  - unfold canUnschedulePayment. anonymous_evaluator req throw Hnone.
  - unfold canPutOnHold. anonymous_evaluator req throw Hnone.
  - unfold canReleaseHold. anonymous_evaluator req throw Hnone.
  - unfold canDeleteExpense.
    destruct (validateExpenseScope req throw) as [[|]|]; simpl;
      try anonymous_leaf Hnone.
    destruct (includes_status _ _); simpl.
    + unfold remoteUserMeetsOneCondition at 1. rewrite Hnone.
      destruct throw; simpl; [discriminate|].
      repeat (match goal with
              | |- context [if ?b then _ else _] => destruct b
              end; try anonymous_leaf Hnone).
    + repeat (match goal with
              | |- context [if ?b then _ else _] => destruct b
              end; try anonymous_leaf Hnone).
Qed.

Lemma anonymous_requests_cannot_write_witness :
  Forall (fun evaluator =>
            evaluator (requestOf None) approvedExpense false <> Ok true)
    (writeEvaluators plainEnv plainServices).
Proof.
  apply (anonymous_requests_cannot_write plainEnv plainServices
           (requestOf None) approvedExpense false).
  reflexivity.
Defined.

(** ** Operations of the host *)

Lemma meets_host_admin_quiet req expense :
  remoteUserMeetsOneCondition req expense [cond isHostAdmin] false
  = Ok (isHostAdmin req expense).
Proof.
  unfold remoteUserMeetsOneCondition, isHostAdmin, cond. simpl.
  destruct (remoteUser req) as [user|]; [|reflexivity].
  match goal with |- context [if ?b then Ok true else _] => destruct b end;
    reflexivity.
Qed.

Lemma meets_platform_admin_quiet req expense :
  remoteUserMeetsOneCondition req expense
    [cond (fun req _ => isPlatformAdmin req)] false
  = Ok (isPlatformAdmin req).
Proof.
  unfold remoteUserMeetsOneCondition, isPlatformAdmin, cond. simpl.
  destruct (remoteUser req) as [user|]; [|reflexivity].
  destruct (User.isAdminOfPlatform user); reflexivity.
Qed.

Ltac quiet_evaluator expense :=
  unfold validateExpenseScope, scoped, allowed, hasStatus, hasType,
    includes_status;
  rewrite ?meets_host_admin_quiet, ?meets_platform_admin_quiet;
  repeat match goal with
         | |- context [checkScope ?req ?s] => destruct (checkScope req s)
         | |- context [canUseFeature ?e ?u ?f] =>
             destruct (canUseFeature e u f)
         | |- context [Expense.onHold ?e] => destruct (Expense.onHold e)
         | |- context [isHostAdmin ?r ?e] => destruct (isHostAdmin r e)
         | |- context [isPlatformAdmin ?r] => destruct (isPlatformAdmin r)
         end;
  destruct (Expense.status expense), (Expense.type expense); reflexivity.

(** X13: what the operations of the host ask for, as their evaluators
    answer without [throw].  Paying, marking as incomplete, unscheduling,
    putting on hold and releasing all ask for an admin of the host;
    marking as unpaid asks for one too, or for an admin of the platform
    when the expense is a settlement.  Unscheduling and the hold do not
    ask whether the user may use expenses; releasing a hold asks nothing
    of the status; a settlement is never marked as incomplete nor put on
    hold, a card charge never marked as unpaid. *)
Theorem host_operations_permissions :
  forall (env : Env) (req : Request) (expense : Expense.t),
    canPayExpense env req expense false
    = Ok (scoped req
          && (hasStatus APPROVED expense || hasStatus ERROR expense)
          && allowed env req && isHostAdmin req expense)
    /\ canMarkAsIncomplete env req expense false
       = Ok (scoped req
             && (hasStatus APPROVED expense || hasStatus ERROR expense)
             && allowed env req && isHostAdmin req expense
             && negb (hasType SETTLEMENT expense))
    /\ canMarkAsUnpaid env req expense false
       = Ok (scoped req && hasStatus PAID expense
             && negb (hasType CHARGE expense) && allowed env req
             && (if hasType SETTLEMENT expense then isPlatformAdmin req
                 else isHostAdmin req expense))
    /\ canUnschedulePayment req expense false
       = Ok (scoped req && hasStatus SCHEDULED_FOR_PAYMENT expense
             && isHostAdmin req expense)
    /\ canPutOnHold req expense false
       = Ok (scoped req && hasStatus APPROVED expense
             && negb (Expense.onHold expense)
             && negb (hasType SETTLEMENT expense)
             && isHostAdmin req expense)
    /\ canReleaseHold req expense false
       = Ok (scoped req && Expense.onHold expense
             && isHostAdmin req expense).
Proof.
  intros env req expense. repeat split.
  - unfold canPayExpense. quiet_evaluator expense.
  - unfold canMarkAsIncomplete. quiet_evaluator expense.
  - unfold canMarkAsUnpaid. quiet_evaluator expense.
  - unfold canUnschedulePayment. quiet_evaluator expense.
  - unfold canPutOnHold. quiet_evaluator expense.
  - unfold canReleaseHold. quiet_evaluator expense.
Qed.

(** ** The fields of an expense, status by status *)

Lemma meets_host_admin req expense throw :
  remoteUserMeetsOneCondition req expense [cond isHostAdmin] throw = Ok true ->
  isHostAdmin req expense = true.
Proof.
  intros H. apply remoteUserMeetsOneCondition_true in H as [_ H].
  simpl in H. unfold cond in H. simpl in H.
  destruct (isHostAdmin req expense); [reflexivity|discriminate].
Qed.

(** Facts that an answer [Ok true] of an evaluator gives, read off its
    branches. *)
Ltac granted_step H :=
  lazymatch type of H with
  | bindR (validateExpenseScope ?req ?throw) _ = Ok true =>
      let E := fresh "Escope" in
      destruct (validateExpenseScope req throw) as [[|]|] eqn:E;
      simpl in H
  | (if negb ?b then _ else _) = Ok true =>
      let E := fresh "E" in destruct b eqn:E; simpl in H
  | (if bool_decide ?P then _ else _) = Ok true =>
      let E := fresh "E" in
      destruct (decide P) as [E|E];
      [rewrite (bool_decide_eq_true_2 P E) in H
      |rewrite (bool_decide_eq_false_2 P E) in H]
  | (if ?b then _ else _) = Ok true =>
      let E := fresh "E" in destruct b eqn:E
  | deny _ _ = Ok true => destruct (deny_true _ _ H)
  | missingScope _ = Ok true => destruct (missingScope_true _ H)
  | Ok false = Ok true => discriminate H
  | Throw _ = Ok true => discriminate H
  end.

Ltac granted H := unfold includes_status in H; repeat granted_step H.

Lemma canEditTitle_true env req expense throw :
  canEditTitle env req expense throw = Ok true ->
  Expense.status expense ∈ [DRAFT; PENDING; APPROVED; INCOMPLETE]
  /\ (Expense.status expense = APPROVED -> isHostAdmin req expense = true).
Proof.
  intros H. unfold canEditTitle in H. granted H.
  all: split; [set_solver|]; intros Hst; try congruence.
  eapply meets_host_admin, H.
Qed.

Lemma canEditType_true env req expense throw :
  canEditType env req expense throw = Ok true ->
  Expense.status expense ∈ [DRAFT; PENDING; APPROVED; INCOMPLETE]
  /\ (Expense.status expense = APPROVED -> isHostAdmin req expense = true).
Proof.
  intros H. unfold canEditType in H. granted H.
  all: split; [set_solver|]; intros Hst; try congruence.
  eapply meets_host_admin, H.
Qed.

Lemma canEditPaidBy_true env req expense throw :
  canEditPaidBy env req expense throw = Ok true ->
  Expense.status expense ∈ [DRAFT; PENDING; APPROVED; INCOMPLETE]
  /\ (Expense.status expense = APPROVED -> isHostAdmin req expense = true).
Proof.
  intros H. unfold canEditPaidBy in H. granted H.
  all: split; [set_solver|]; intros Hst; try congruence.
  eapply meets_host_admin, H.
Qed.

Lemma canEditItems_true env req expense throw :
  canEditItems env req expense throw = Ok true ->
  Expense.status expense ∈ [DRAFT; PENDING; APPROVED; INCOMPLETE]
  /\ (Expense.status expense = APPROVED -> isHostAdmin req expense = true).
Proof.
  intros H. unfold canEditItems in H. granted H.
  all: split; [set_solver|]; intros Hst; try congruence.
  eapply meets_host_admin, H.
Qed.

Lemma canEditPayee_true env req expense throw :
  canEditPayee env req expense throw = Ok true ->
  Expense.status expense ∈ [DRAFT; PENDING].
Proof. intros H. unfold canEditPayee in H. granted H; set_solver. Qed.

Lemma canEditPayoutMethod_true env req expense throw :
  canEditPayoutMethod env req expense throw = Ok true ->
  Expense.status expense ∈ [DRAFT; PENDING; INCOMPLETE].
Proof.
  intros H. unfold canEditPayoutMethod in H. granted H. assumption.
Qed.

Lemma meets_paid_charge req expense throw :
  remoteUserMeetsOneCondition req expense
    [isOwner; cond isHostAdmin; cond isCollectiveAdmin] throw = Ok true ->
  forall env,
    checkScope req "expenses" = true ->
    Expense.status expense ∈ [PAID; PROCESSING] ->
    Expense.type expense = CHARGE ->
    canEditExpense env req expense throw = Ok true.
Proof.
  intros H env Hscope Hst Hty.
  unfold canEditExpense, validateExpenseScope, includes_status.
  rewrite Hscope, Hty. simpl.
  rewrite (bool_decide_eq_true_2 _ Hst). simpl. exact H.
Qed.

Lemma scope_granted req throw :
  validateExpenseScope req throw = Ok true -> checkScope req "expenses" = true.
Proof.
  unfold validateExpenseScope. destruct (checkScope req "expenses");
    [reflexivity|]. destruct throw; discriminate.
Qed.

Lemma canAttachReceipts_true env req expense throw :
  canAttachReceipts env req expense throw = Ok true ->
  Expense.status expense ∈ [PAID; PROCESSING]
  /\ Expense.type expense = CHARGE
  /\ canEditExpense env req expense throw = Ok true.
Proof.
  intros H. unfold canAttachReceipts in H. granted H.
  apply andb_true_iff in E0 as [Hst Hty].
  apply bool_decide_eq_true_1 in Hst, Hty.
  split; [exact Hst|]. split; [exact Hty|].
  apply meets_paid_charge; auto. eapply scope_granted, Escope.
Qed.

Lemma canEditItemDescription_true env req expense throw :
  canEditItemDescription env req expense throw = Ok true ->
  Expense.status expense ∈ [PAID; PROCESSING]
  /\ Expense.type expense = CHARGE
  /\ canEditExpense env req expense throw = Ok true.
Proof.
  intros H. unfold canEditItemDescription in H. granted H.
  apply andb_true_iff in E0 as [Hst Hty].
  apply bool_decide_eq_true_1 in Hst, Hty.
  split; [exact Hst|]. split; [exact Hty|].
  apply meets_paid_charge; auto. eapply scope_granted, Escope.
Qed.

Ltac status_cases expense H :=
  revert H; generalize (Expense.status expense);
  let s := fresh "s" in
  intros s H; destruct s;
  first
    [ solve [repeat constructor]
    | exfalso;
      repeat (apply elem_of_cons in H as [H|H]; [discriminate|]);
      apply elem_of_nil in H; exact H ].

(** X14: the fields of an expense are open or closed status by status.
    Title, type, paid-by, payee, payout method and items can only be
    edited on a DRAFT, PENDING, APPROVED or INCOMPLETE expense; once the
    expense is APPROVED its payee and its payout method are closed to
    everyone and the other four are open to admins of the host only;
    receipts can be attached and item descriptions edited only on a card
    charge that is PAID or PROCESSING, by whoever [canEditExpense] lets
    edit it. *)
Theorem fields_open_by_status :
  forall (env : Env) (req : Request) (expense : Expense.t) (throw : bool),
    Forall (fun evaluator =>
              evaluator req expense throw = Ok true ->
              Expense.status expense ∈ [DRAFT; PENDING; APPROVED; INCOMPLETE])
      [canEditTitle env; canEditType env; canEditPaidBy env;
       canEditPayee env; canEditPayoutMethod env; canEditItems env]
    /\ (Expense.status expense = APPROVED ->
        Forall (fun evaluator =>
                  evaluator req expense throw = Ok true ->
                  isHostAdmin req expense = true)
          [canEditTitle env; canEditType env; canEditPaidBy env;
           canEditItems env]
        /\ Forall (fun evaluator => evaluator req expense throw <> Ok true)
             [canEditPayee env; canEditPayoutMethod env])
    /\ Forall (fun evaluator =>
                 evaluator req expense throw = Ok true ->
                 Expense.status expense ∈ [PAID; PROCESSING]
                 /\ Expense.type expense = CHARGE
                 /\ canEditExpense env req expense throw = Ok true)
         [canAttachReceipts env; canEditItemDescription env].
Proof.
  intros env req expense throw. split; [|split].
  - repeat (apply List.Forall_cons; [|]); [..|apply List.Forall_nil];
      intros Hyes.
    + apply canEditTitle_true in Hyes as [Hyes _]. exact Hyes.
    + apply canEditType_true in Hyes as [Hyes _]. exact Hyes.
    + apply canEditPaidBy_true in Hyes as [Hyes _]. exact Hyes.
    + apply canEditPayee_true in Hyes. status_cases expense Hyes.
    + apply canEditPayoutMethod_true in Hyes. status_cases expense Hyes.
    + apply canEditItems_true in Hyes as [Hyes _]. exact Hyes.
  - intros Hst. split.
    + repeat (apply List.Forall_cons; [|]); [..|apply List.Forall_nil];
        intros Hyes.
      * apply canEditTitle_true in Hyes as [_ Hyes]. auto.
      * apply canEditType_true in Hyes as [_ Hyes]. auto.
      * apply canEditPaidBy_true in Hyes as [_ Hyes]. auto.
      * apply canEditItems_true in Hyes as [_ Hyes]. auto.
    + repeat (apply List.Forall_cons; [|]); [..|apply List.Forall_nil];
        intros Hyes.
      * apply canEditPayee_true in Hyes. rewrite Hst in Hyes.
        repeat (apply elem_of_cons in Hyes as [Hyes|Hyes]; [discriminate|]).
        apply elem_of_nil in Hyes. exact Hyes.
      * apply canEditPayoutMethod_true in Hyes. rewrite Hst in Hyes.
        repeat (apply elem_of_cons in Hyes as [Hyes|Hyes]; [discriminate|]).
        apply elem_of_nil in Hyes. exact Hyes.
  - repeat (apply List.Forall_cons; [|]); [..|apply List.Forall_nil].
    + apply canAttachReceipts_true.
    + apply canEditItemDescription_true.
Qed.

(** ** Declining an invitation *)



(** ** After payment *)

Lemma meets_host_or_collective_quiet req expense :
  remoteUserMeetsOneCondition req expense
    [cond isHostAdmin; cond isCollectiveAdmin] false
  = Ok (isHostAdmin req expense || isCollectiveAdmin req expense).
Proof.
  unfold remoteUserMeetsOneCondition, cond. simpl.
  destruct (remoteUser req) as [user|] eqn:Huser.
  - destruct (isHostAdmin req expense); simpl; [reflexivity|].
    destruct (isCollectiveAdmin req expense); reflexivity.
  - rewrite isHostAdmin_anonymous, isCollectiveAdmin_anonymous by assumption.
    reflexivity.
Qed.

Lemma isHostAccountant_anonymous svc req expense :
  remoteUser req = None -> isHostAccountant svc req expense = false.
Proof. intros Hnone. unfold isHostAccountant. rewrite Hnone. reflexivity. Qed.

Lemma meets_of_host_quiet svc req expense :
  remoteUserMeetsOneCondition req expense
    [cond isHostAdmin; cond (isHostAccountant svc)] false
  = Ok (isHostAdmin req expense || isHostAccountant svc req expense).
Proof.
  unfold remoteUserMeetsOneCondition, cond. simpl.
  destruct (remoteUser req) as [user|] eqn:Huser.
  - destruct (isHostAdmin req expense); simpl; [reflexivity|].
    destruct (isHostAccountant svc req expense); reflexivity.
  - rewrite isHostAdmin_anonymous, isHostAccountant_anonymous by assumption.
    reflexivity.
Qed.

(** X16: what remains editable once an expense is PAID.  Unless it is a
    card charge, [canEditExpense] answers false to everyone; its tags
    stay open to the admins of the host and of the collective (not to its
    owner), its accounting category to the admins and the accountants of
    the host (not to the admins of the collective), for a scoped request
    of a user who may use expenses. *)
Theorem paid_expense_stays_editable_by_admins :
  forall (env : Env) (svc : Services) (req : Request) (expense : Expense.t),
    Expense.status expense = PAID ->
    Expense.type expense <> CHARGE ->
    canEditExpense env req expense false = Ok false
    /\ canEditExpenseTags env svc req expense false
       = Ok (scoped req && allowed env req
             && (isHostAdmin req expense || isCollectiveAdmin req expense))
    /\ canEditExpenseAccountingCategory env svc req expense false
       = Ok (scoped req && allowed env req
             && (isHostAdmin req expense
                 || isHostAccountant svc req expense)).
Proof.
  intros env svc req expense Hst Hty.
  unfold canEditExpense, canEditExpenseTags,
    canEditExpenseAccountingCategory, validateExpenseScope, scoped, allowed,
    includes_status.
  rewrite Hst, meets_host_or_collective_quiet, meets_of_host_quiet.
  rewrite (bool_decide_eq_false_2 (Expense.type expense = CHARGE))
    by assumption.
  destruct (checkScope req "expenses"); simpl; [|auto].
  destruct (canUseFeature env (remoteUser req) USE_EXPENSES); simpl.
  - split; [reflexivity|]. split; [reflexivity|].
    destruct (isHostAdmin req expense || isHostAccountant svc req expense);
      reflexivity.
  - auto.
Qed.

Lemma paid_expense_stays_editable_by_admins_witness :
  canEditExpense plainEnv (requestOf (Some collectiveAdmin)) paidExpense false
  = Ok false
  /\ canEditExpenseTags plainEnv plainServices
       (requestOf (Some collectiveAdmin)) paidExpense false = Ok true
  /\ canEditExpenseTags plainEnv plainServices
       (requestOf (Some submitter)) paidExpense false = Ok false
  /\ canEditExpenseAccountingCategory plainEnv plainServices
       (requestOf (Some collectiveAdmin)) paidExpense false = Ok false.
Proof.
  destruct (paid_expense_stays_editable_by_admins plainEnv plainServices
              (requestOf (Some collectiveAdmin)) paidExpense eq_refl)
    as (Hedit & Htags & Hcategory); [discriminate|].
  destruct (paid_expense_stays_editable_by_admins plainEnv plainServices
              (requestOf (Some submitter)) paidExpense eq_refl)
    as (_ & Hsubmitter & _); [discriminate|].
  rewrite Hedit, Htags, Hsubmitter, Hcategory. repeat split.
Defined.

(** ** The type of an expense *)

(** X17: on an existing expense, [checkExpenseType] lets a change of type
    through only when the expense is not a card charge and the new type
    is neither CHARGE nor SETTLEMENT; the rules for platform admins and
    host admins are not consulted, they are for creations. *)
Theorem type_changes_exclude_charges_and_settlements :
  forall (svc : Services) (newType : ExpenseType)
    (fromAccount : option Collective.t) (account : Collective.t)
    (parent host : option Collective.t) (existing : Expense.t)
    (remoteUser : option User.t),
    Expense.type existing <> newType ->
    Validation.checkExpenseType svc newType fromAccount account parent host
      (Some existing) remoteUser = Ok tt ->
    Expense.type existing <> CHARGE
    /\ newType <> CHARGE
    /\ newType <> SETTLEMENT
    /\ forall otherUser otherPayee,
        Validation.checkExpenseType svc newType otherPayee account parent host
          (Some existing) otherUser = Ok tt.
Proof.
  intros svc newType fromAccount account parent host existing remoteUser
    Hchange.
  unfold Validation.checkExpenseType.
  rewrite (bool_decide_eq_false_2 _ Hchange). simpl.
  case_bool_decide as Hcharge; simpl; [discriminate|].
  case_bool_decide as Hnew; simpl; [discriminate|].
  case_bool_decide as Hsettlement; simpl; [discriminate|].
  intros H. repeat split; auto.
Qed.

Lemma type_changes_exclude_charges_and_settlements_witness :
  Expense.type pendingExpense <> CHARGE
  /\ INVOICE <> CHARGE
  /\ INVOICE <> SETTLEMENT
  /\ forall otherUser otherPayee,
      Validation.checkExpenseType plainServices INVOICE otherPayee
        sampleCollective None None (Some pendingExpense) otherUser = Ok tt.
Proof.
  apply (type_changes_exclude_charges_and_settlements plainServices INVOICE
           (Some samplePayee) sampleCollective None None pendingExpense
           (Some submitter)).
  - discriminate.
  - reflexivity.
Defined.

(** X18: for a new expense, the setting [expenseTypes] of the account
    decides alone when it is a boolean for the type, before the parent
    and the host are looked at: [false] refuses the type "by the
    account", [true] accepts it, and for a card charge accepts it
    without asking whether the user is an admin of the host.  Without
    any setting a card charge is accepted from admins of the host only.
    A settlement is accepted only from an admin of the platform, for the
    platform account. *)
Theorem type_settings_decide_in_order :
  forall (svc : Services) (newType : ExpenseType)
    (fromAccount : option Collective.t) (account : Collective.t)
    (parent host : option Collective.t) (remoteUser : option User.t),
    (newType <> SETTLEMENT ->
     forall flag,
       expenseTypesSetting svc account newType = Some flag ->
       Validation.checkExpenseType svc newType fromAccount account parent
         host None remoteUser
       = if flag then Ok tt
         else Throw (raise ValidationFailed
                       ("Expenses of type " ++ toLowerCase (typeName newType)
                        ++ " are not allowed by the account")))
    /\ (firstExpenseTypeFlag svc CHARGE
          [("account", Some account); ("parent", parent); ("host", host)]
        = None ->
        Validation.checkExpenseType svc CHARGE fromAccount account parent
          host None remoteUser
        = if userIsAdmin remoteUser (Collective.id <$> host) then Ok tt
          else Throw (raise ValidationFailed
                        "Only host admins can manually create virtual card charges"))
    /\ (Validation.checkExpenseType svc SETTLEMENT fromAccount account parent
          host None remoteUser = Ok tt ->
        exists user payee,
          remoteUser = Some user
          /\ User.isAdminOfPlatform user = true
          /\ fromAccount = Some payee
          /\ Collective.id payee = PlatformCollectiveId svc).
Proof.
  intros svc newType fromAccount account parent host remoteUser.
  split; [|split].
  - intros Hsettlement flag Hflag. unfold Validation.checkExpenseType.
    simpl. rewrite (bool_decide_eq_false_2 _ Hsettlement). simpl.
    rewrite Hflag. destruct flag; reflexivity.
  - intros Hnone. unfold Validation.checkExpenseType. simpl.
    simpl in Hnone. rewrite Hnone.
    destruct (userIsAdmin remoteUser _); reflexivity.
  - unfold Validation.checkExpenseType. simpl.
    destruct remoteUser as [user|]; simpl; [|discriminate].
    destruct (User.isAdminOfPlatform user) eqn:Hplatform; simpl;
      [|discriminate].
    destruct fromAccount as [payee|]; simpl; [|discriminate].
    case_bool_decide as Hpayee; simpl; [|discriminate].
    intros _. eauto 6.
Qed.

Lemma type_settings_decide_in_order_witness :
  Validation.checkExpenseType chargesAllowed CHARGE (Some samplePayee)
    sampleCollective None None None (Some submitter) = Ok tt
  /\ Validation.checkExpenseType plainServices CHARGE (Some samplePayee)
       sampleCollective None None None (Some submitter)
     = Throw (raise ValidationFailed
                "Only host admins can manually create virtual card charges").
Proof.
  destruct (type_settings_decide_in_order chargesAllowed CHARGE
              (Some samplePayee) sampleCollective None None (Some submitter))
    as (Hflag & _).
  destruct (type_settings_decide_in_order plainServices CHARGE
              (Some samplePayee) sampleCollective None None (Some submitter))
    as (_ & Hcharge & _).
  split.
  - rewrite (Hflag ltac:(discriminate) true eq_refl). reflexivity.
  - rewrite (Hcharge eq_refl). reflexivity.
Defined.

(** ** The accounting category of an expense *)

Ltac accepted_step H :=
  lazymatch type of H with
  | (if ?b then Throw _ else _) = Ok tt =>
      let E := fresh "E" in destruct b eqn:E; [discriminate H|]
  end.

(** X19: an accounting category that [checkCanUseAccountingCategory]
    accepts belongs to the host, is of the kind EXPENSE when it has a
    kind, is compatible with the type of the expense, and is used by an
    admin of the host when it is for the host only; a category for the
    HOST goes on the account of the host or on one of its children only,
    a category for HOSTED_COLLECTIVES never on those, nor under a host
    that is itself a collective.  Without a host the check fails, even
    when no category is given. *)
Theorem accounting_category_accepted :
  forall (remoteUser : option User.t) (expenseType : ExpenseType)
    (category : AccountingCategory.t) (host account : Collective.t),
    (forall given,
        Validation.checkCanUseAccountingCategory remoteUser expenseType given
          None account
        = Throw (raise ValidationFailed
                   "Cannot use accounting categories without a host"))
    /\ (Validation.checkCanUseAccountingCategory remoteUser expenseType
          (Some category) (Some host) account = Ok tt ->
        let ownAccount :=
          Collective.id host = Collective.id account
          \/ Collective.ParentCollectiveId account
             = Some (Collective.id host) in
        AccountingCategory.CollectiveId category = Collective.id host
        /\ (truthyString (AccountingCategory.kind category) = true ->
            AccountingCategory.kind category = Some "EXPENSE")
        /\ AccountingCategory.isCompatibleWithExpenseType category expenseType
           = true
        /\ (AccountingCategory.hostOnly category = true ->
            userIsAdmin remoteUser (Some (Collective.id host)) = true)
        /\ match AccountingCategory.appliesTo category with
           | AccountingCategoryAppliesTo.HOST => ownAccount
           | AccountingCategoryAppliesTo.HOSTED_COLLECTIVES =>
               ~ ownAccount
               /\ Collective.type host <> CollectiveType.COLLECTIVE
           end).
Proof.
  intros remoteUser expenseType category host account. split.
  - intros given. reflexivity.
  - unfold Validation.checkCanUseAccountingCategory. cbv zeta.
    intros H. repeat accepted_step H.
    apply orb_false_iff in E4 as [Hhost Hhosted].
    apply negb_false_iff, bool_decide_eq_true_1 in E.
    apply negb_false_iff in E1.
    assert (Hown : Some (Collective.id host)
                   ∈ [Some (Collective.id account);
                      Collective.ParentCollectiveId account]
                   <-> (Collective.id host = Collective.id account
                        \/ Collective.ParentCollectiveId account
                           = Some (Collective.id host))).
    { rewrite elem_of_cons, list_elem_of_singleton. split.
      - intros [[= Heq]|Heq]; auto.
      - intros [Heq|Heq]; [left; congruence|right; congruence]. }
    split; [exact E|]. split.
    { intros Hkind. rewrite Hkind in E0. simpl in E0.
      apply negb_false_iff, bool_decide_eq_true_1 in E0. exact E0. }
    split; [exact E1|]. split.
    { intros Honly. rewrite Honly in E2. simpl in E2.
      apply negb_false_iff in E2. exact E2. }
    destruct (AccountingCategory.appliesTo category); simpl in *.
    + apply negb_false_iff, bool_decide_eq_true_1 in Hhost.
      apply Hown, Hhost.
    + apply bool_decide_eq_false_1 in Hhosted.
      rewrite andb_true_r in E3. apply bool_decide_eq_false_1 in E3.
      split; [|exact E3]. intros Hyes. apply Hhosted, Hown, Hyes.
Qed.

(** ** Rates of a provider *)

(** X20: [matchFxRateWithCurrency] gives a rate only for the pair the
    provider quoted, in one direction or the other, and only from a rate
    that is neither missing nor 0 nor NaN; asked for the opposite
    direction of two different currencies it gives the inverse: the rate
    itself where it gave 1 / rate, and 1 / rate where it gave the
    rate. *)
Theorem matched_rate_follows_direction :
  forall (source target rateSource rateTarget : string)
    (rate : option Js.number) (matched : Js.number),
    matchFxRateWithCurrency source target rateSource rateTarget rate
    = Rate matched ->
    exists given,
      rate = Some given
      /\ Js.truthy given = true
      /\ ((source = rateSource /\ target = rateTarget /\ matched = given)
          \/ (source = rateTarget /\ target = rateSource
              /\ matched = Js.div (Js.ofZ 1) given))
      /\ (source <> target ->
          matchFxRateWithCurrency target source rateSource rateTarget rate
          = Rate (if bool_decide (source = rateSource)
                  then Js.div (Js.ofZ 1) given
                  else given)).
Proof.
  intros source target rateSource rateTarget rate matched.
  unfold matchFxRateWithCurrency.
  destruct rate as [given|]; [|discriminate].
  destruct (Js.truthy given) eqn:Htruthy; simpl; [|discriminate].
  destruct (decide (source = rateSource)) as [Hs|Hs];
    destruct (decide (target = rateTarget)) as [Ht|Ht];
    destruct (decide (source = rateTarget)) as [Hst|Hst];
    destruct (decide (target = rateSource)) as [Hts|Hts];
    repeat first
      [ rewrite (bool_decide_eq_true_2 (source = rateSource)) by assumption
      | rewrite (bool_decide_eq_false_2 (source = rateSource)) by assumption
      | rewrite (bool_decide_eq_true_2 (target = rateTarget)) by assumption
      | rewrite (bool_decide_eq_false_2 (target = rateTarget)) by assumption
      | rewrite (bool_decide_eq_true_2 (source = rateTarget)) by assumption
      | rewrite (bool_decide_eq_false_2 (source = rateTarget)) by assumption
      | rewrite (bool_decide_eq_true_2 (target = rateSource)) by assumption
      | rewrite (bool_decide_eq_false_2 (target = rateSource)) by assumption ];
    simpl; try discriminate; intros [= <-];
    exists given; (split; [reflexivity|]); (split; [exact Htruthy|]);
    (split; [auto|]); intros Hdiff; try congruence; try reflexivity.
Qed.

Lemma matched_rate_follows_direction_witness :
  exists given,
    Some (Js.ofZ 2) = Some given
    /\ Js.truthy given = true
    /\ (("USD" = "USD" /\ "EUR" = "EUR" /\ Js.ofZ 2 = given)
        \/ ("USD" = "EUR" /\ "EUR" = "USD"
            /\ Js.ofZ 2 = Js.div (Js.ofZ 1) given))
    /\ ("USD" <> "EUR" ->
        matchFxRateWithCurrency "EUR" "USD" "USD" "EUR" (Some (Js.ofZ 2))
        = Rate (if bool_decide ("USD" = "USD")
                then Js.div (Js.ofZ 1) given
                else given)).
Proof.
  apply (matched_rate_follows_direction "USD" "EUR" "USD" "EUR"
           (Some (Js.ofZ 2)) (Js.ofZ 2)).
  reflexivity.
Defined.

(** ** Paid with Stripe *)

Lemma canPayExpense_true env req expense throw :
  canPayExpense env req expense throw = Ok true ->
  Expense.status expense ∈ [APPROVED; ERROR]
  /\ isHostAdmin req expense = true.
Proof.
  intros H. unfold canPayExpense in H. granted H.
  apply bool_decide_eq_true_1 in E.
  split; [exact E|]. eapply meets_host_admin, H.
Qed.

Lemma isHostAdmin_logged_in req expense :
  isHostAdmin req expense = true -> is_Some (remoteUser req).
Proof.
  unfold isHostAdmin. destruct (remoteUser req); [eauto|discriminate].
Qed.

(** X21: [markAsPaidWithStripe] does not mark the expense as paid.  It
    asks for what [canPayExpense] asks (an APPROVED or ERROR expense, an
    admin of the host) and then writes the last editor of the row,
    nothing else: the status stays as it was, no activity is created and
    no collaborator is called; when it refuses or fails, nothing is
    written. *)
Theorem markAsPaidWithStripe_keeps_status :
  forall (env : Env) (req : Request) (expense : Expense.t) (w w' : World)
    (outcome : Result Expense.t),
    markAsPaidWithStripe env req expense w = (outcome, w') ->
    match outcome with
    | Ok updated =>
        exists user,
          remoteUser req = Some user
          /\ isHostAdmin req expense = true
          /\ Expense.status expense ∈ [APPROVED; ERROR]
          /\ updated
             = Expense.set_lastEditedById (Some (User.id user)) expense
          /\ Expense.status updated = Expense.status expense
          /\ w' = set_Expenses (fun t => <[Expense.id expense := updated]> t) w
          /\ trace w' = trace w
    | Throw e => w' = w
    end.
Proof.
  intros env req expense w w' outcome. unfold markAsPaidWithStripe.
  unfold bind at 1. unfold liftR at 1.
  destruct (canPayExpense env req expense false) as [[|]|e] eqn:Hcan;
    simpl; [|intros [= <- <-]; reflexivity|intros [= <- <-]; reflexivity].
  apply canPayExpense_true in Hcan as [Hst Hadmin].
  destruct (isHostAdmin_logged_in _ _ Hadmin) as [user Huser].
  rewrite Huser. intros [= <- <-]. exists user. repeat split; auto.
Qed.

Lemma markAsPaidWithStripe_keeps_status_witness :
  (markAsPaidWithStripe plainEnv (requestOf (Some hostAdmin)) approvedExpense
     (sampleWorld approvedExpense)).1
  = Ok (Expense.set_lastEditedById (Some 7) approvedExpense)
  /\ trace
       (markAsPaidWithStripe plainEnv (requestOf (Some hostAdmin))
          approvedExpense (sampleWorld approvedExpense)).2 = [].
Proof.
  destruct (markAsPaidWithStripe plainEnv (requestOf (Some hostAdmin))
              approvedExpense (sampleWorld approvedExpense))
    as [outcome w'] eqn:Hrun.
  pose proof (markAsPaidWithStripe_keeps_status _ _ _ _ _ _ Hrun) as Hkept.
  destruct outcome as [updated|e]; [|vm_compute in Hrun; discriminate].
  destruct Hkept as (user & Huser & _ & _ & -> & _ & _ & Htrace).
  injection Huser as <-. split; [reflexivity|exact Htrace].
Defined.

(** ** Deletion of an expense *)

Lemma canDeleteExpense_true env req expense throw :
  canDeleteExpense env req expense throw = Ok true ->
  Expense.status expense
    ∈ [DRAFT; PENDING; INVITE_DECLINED; REJECTED; SPAM; CANCELED].
Proof.
  unfold canDeleteExpense, includes_status.
  destruct (validateExpenseScope req throw) as [[|]|]; simpl;
    [|intros H; destruct (missingScope_true _ H)|discriminate].
  destruct (decide (Expense.status expense ∈ [DRAFT; PENDING; INVITE_DECLINED]))
    as [Hown|Hown].
  - intros _. status_cases expense Hown.
  - rewrite (bool_decide_eq_false_2 _ Hown). simpl.
    destruct (decide (Expense.status expense
                        ∈ [REJECTED; SPAM; DRAFT; CANCELED])) as [Hdel|Hdel].
    + intros _. status_cases expense Hdel.
    + rewrite (bool_decide_eq_false_2 _ Hdel). simpl.
      intros H. destruct (deny_true _ _ H).
Qed.

(** X22: [deleteExpense] deletes only expenses that are DRAFT, PENDING,
    INVITE_DECLINED, REJECTED, SPAM or CANCELED, never one that is
    approved, scheduled, processing, paid or in error; it removes that
    row and nothing else, creates no activity, and when it fails it
    leaves the world as it was.  After a deletion the expense is no
    longer there to be paid: [payExpense] on its id fails, whoever asks,
    and writes nothing. *)
Theorem deleteExpense_spares_approved_expenses :
  forall (env : Env) (req : Request) (expenseId : Z) (w w' : World)
    (outcome : Result Expense.t),
    wellKeyed w ->
    deleteExpense env req expenseId w = (outcome, w') ->
    match outcome with
    | Ok expense =>
        Expenses w !! expenseId = Some expense
        /\ Expense.status expense
             ∈ [DRAFT; PENDING; INVITE_DECLINED; REJECTED; SPAM; CANCELED]
        /\ w' = set_Expenses (fun t => delete expenseId t) w
        /\ forall payer args,
            PayExpenseArgs.id args = expenseId ->
            exists e, payExpense env payer args w' = (Throw e, w')
    | Throw e => w' = w
    end.
Proof.
  intros env req expenseId w w' outcome Hkeyed. unfold deleteExpense.
  destruct (remoteUser req) as [user|] eqn:Huser;
    [|intros [= <- <-]; reflexivity].
  destruct (negb (canUseFeature env (Some user) USE_EXPENSES)) eqn:Hfeature;
    [intros [= <- <-]; reflexivity|].
  unfold bind at 1. unfold findByPk, gets.
  destruct (Expenses w !! expenseId) as [expense|] eqn:Hrow;
    [|intros [= <- <-]; reflexivity].
  unfold bind at 1. unfold liftR at 1.
  destruct (canDeleteExpense env req expense false) as [[|]|e] eqn:Hcan;
    simpl; [|intros [= <- <-]; reflexivity|intros [= <- <-]; reflexivity].
  intros [= <- <-].
  rewrite (Hkeyed _ _ Hrow).
  split; [reflexivity|]. split; [eapply canDeleteExpense_true, Hcan|].
  split; [reflexivity|].
  intros payer args Hid. unfold payExpense.
  destruct (remoteUser payer) as [other|]; [|eauto].
  destruct (negb (canUseFeature env (Some other) USE_EXPENSES)); [eauto|].
  unfold lockExpense, bind. rewrite acquireLock_missing; [eauto|].
  rewrite Hid. simpl. apply lookup_delete_eq.
Qed.

Lemma deleteExpense_spares_approved_expenses_witness :
  deleteExpense plainEnv (requestOf (Some collectiveAdmin)) 42
    (sampleWorld rejectedExpense)
  = (Ok rejectedExpense,
     set_Expenses (fun t => delete 42 t) (sampleWorld rejectedExpense))
  /\ Expense.status rejectedExpense
       ∈ [DRAFT; PENDING; INVITE_DECLINED; REJECTED; SPAM; CANCELED]
  /\ (deleteExpense plainEnv (requestOf (Some hostAdmin)) 42
        (sampleWorld approvedExpense)).2 = sampleWorld approvedExpense.
Proof.
  assert (Hkeyed : forall expense,
             Expense.id expense = 42 -> wellKeyed (sampleWorld expense)).
  { intros expense Hid id row. unfold sampleWorld. simpl. rewrite Hid.
    intros [<- <-]%lookup_singleton_Some. exact Hid. }
  assert (Hrun : deleteExpense plainEnv (requestOf (Some collectiveAdmin)) 42
                   (sampleWorld rejectedExpense)
                 = (Ok rejectedExpense,
                    set_Expenses (fun t => delete 42 t)
                      (sampleWorld rejectedExpense)))
    by (vm_compute; reflexivity).
  destruct (deleteExpense_spares_approved_expenses _ _ _ _ _ _
              (Hkeyed rejectedExpense eq_refl) Hrun) as (_ & Hst & _).
  split; [exact Hrun|]. split; [exact Hst|].
  destruct (deleteExpense plainEnv (requestOf (Some hostAdmin)) 42
              (sampleWorld approvedExpense)) as [outcome w'] eqn:Hrefused.
  pose proof (deleteExpense_spares_approved_expenses _ _ _ _ _ _
                (Hkeyed approvedExpense eq_refl) Hrefused) as Hworld.
  destruct outcome as [deleted|e]; [|exact Hworld].
  vm_compute in Hrefused. discriminate.
Defined.

(** ** Edits of the tags alone *)



(** ** Edits of an incomplete expense *)

Lemma editExpense_checks_route env req expenseData options w route w'
  expense :
  editExpense_checks env req expenseData options w = (Ok route, w') ->
  Expenses w !! ExpenseData.id expenseData = Some expense ->
  changesBeyondTags expense expenseData = true ->
  exists plan, route = FullEdit plan /\ EditPlan.expense plan = expense.
Proof.
  unfold editExpense_checks, changesBeyondTags. intros H Hrow Hbeyond.
  destruct (match EditOptions.overrideRemoteUser options with
            | Some u => Some u | None => remoteUser req end) as [user|];
    [|discriminate].
  destruct (negb _); [discriminate|].
  apply bind_Ok in H as (found & w1 & Hfind & H).
  unfold findByPk, gets in Hfind. injection Hfind as <- <-.
  rewrite Hrow in H.
  destruct (Expense.collective expense) as [collective|]; [|discriminate].
  apply bind_Ok in H as (? & w2 & _ & H).
  rewrite Hbeyond in H. simpl in H.
  apply bind_Ok in H as (? & w3 & _ & H).
  apply bind_Ok in H as (? & w4 & _ & H).
  destruct (_ && _ && negb (hasMultiCurrency _ _)); [discriminate|].
  apply bind_Ok in H as (prepared & w5 & _ & H).
  apply bind_Ok in H as (? & w6 & _ & H).
  apply bind_Ok in H as (permitted & w7 & _ & H).
  destruct (negb permitted); [discriminate|].
  destruct (_ && negb _); [discriminate|].
  apply bind_Ok in H as (? & w8 & _ & H).
  apply bind_Ok in H as (? & w9 & _ & H).
  apply bind_Ok in H as ([] & w10 & _ & H).
  injection H as <- <-. eexists. split; reflexivity.
Qed.

(** X24: an edit takes an expense out of INCOMPLETE.  When an edit that
    changes more than the tags and the accounting category of an
    INCOMPLETE expense succeeds, the row it returns is PENDING or
    APPROVED, never INCOMPLETE: no approval is asked for on the way to
    APPROVED.  It is PENDING when the edit brings another amount. *)
Theorem edit_takes_expense_out_of_incomplete env svc req expenseData options
  w expense updated w' :
  Expenses w !! ExpenseData.id expenseData = Some expense ->
  Expense.status expense = INCOMPLETE ->
  changesBeyondTags expense expenseData = true ->
  editExpenseWithTags env svc req expenseData options w = (Ok updated, w') ->
  Expense.status updated ∈ [PENDING; APPROVED]
  /\ (isValueChanging_amount expense expenseData = true ->
      Expense.status updated = PENDING)
  /\ Expenses w' !! Expense.id expense = Some updated.
Proof.
  intros Hrow Hstatus Hbeyond Hrun.
  unfold editExpenseWithTags, editExpense in Hrun.
  apply bind_Ok in Hrun as (route & w1 & Hchecks & Hrun).
  pose proof (readOnly_editExpense_checks _ _ _ _ _ _ _ Hchecks) as Hsame.
  destruct (editExpense_checks_route _ _ _ _ _ _ _ _ Hchecks Hrow Hbeyond)
    as (plan & -> & Hplan).
  unfold editExpense_write in Hrun. rewrite Hplan in Hrun.
  apply bind_Ok in Hrun as ([] & w2 & _ & Hrun).
  rewrite (bool_decide_eq_true_2 _ Hstatus) in Hrun.
  unfold bind, update, modify, ret, createActivity, record in Hrun.
  simpl in Hrun.
  assert (Hmoved :
            Expense.status updated
            = (if changesRequireStatusUpdate expense expenseData
                    (EditPlan.hasItemChanges plan) false
               then PENDING else APPROVED)
            /\ Expenses w' !! Expense.id expense = Some updated).
  { destruct (EditOptions.skipActivity options); simpl in Hrun;
      injection Hrun as <- <-; simpl; (split; [reflexivity|]);
      apply lookup_insert_eq. }
  destruct Hmoved as [Hmoved Hwritten].
  split; [|split; [|exact Hwritten]].
  - rewrite Hmoved. destruct (changesRequireStatusUpdate _ _ _ _).
    + apply list_elem_of_here.
    + apply list_elem_of_further, list_elem_of_here.
  - intros Hamount. rewrite Hmoved.
    unfold changesRequireStatusUpdate, includes_status.
    rewrite Hstatus.
    unfold isValueChanging_amount, changing in Hamount.
    destruct (ExpenseData.amount expenseData) as [amount|]; [|discriminate].
    rewrite Hamount.
    rewrite (bool_decide_eq_false_2 (INCOMPLETE ∈ [PAID; PROCESSING]))
      by (intros Hin; repeat (apply elem_of_cons in Hin as [Hin|Hin];
                              [discriminate|]);
          apply elem_of_nil in Hin; exact Hin).
    rewrite andb_false_r, orb_true_r. reflexivity.
Qed.

Lemma edit_takes_expense_out_of_incomplete_witness :
  Expense.status
    <$> (editExpenseWithTags plainEnv plainServices
           (requestOf (Some submitter)) (redescribe "Catering, revised")
           EditOptions.none (sampleWorld incompleteExpense)).2.(Expenses) !! 42
  = Some APPROVED.
Proof.
  destruct (editExpenseWithTags plainEnv plainServices
              (requestOf (Some submitter)) (redescribe "Catering, revised")
              EditOptions.none (sampleWorld incompleteExpense))
    as [[updated|e] w'] eqn:Hrun; [|vm_compute in Hrun; discriminate].
  destruct (edit_takes_expense_out_of_incomplete plainEnv plainServices
              (requestOf (Some submitter)) (redescribe "Catering, revised")
              EditOptions.none (sampleWorld incompleteExpense)
              incompleteExpense updated w' eq_refl eq_refl eq_refl Hrun)
    as (_ & _ & Hwritten).
  simpl in Hwritten |- *. rewrite Hwritten. simpl. f_equal.
  vm_compute in Hrun. injection Hrun as <- _. reflexivity.
Defined.

(** ** Holds *)

Lemma canPutOnHold_quiet req expense :
  canPutOnHold req expense false
  = Ok (scoped req && hasStatus APPROVED expense
        && negb (Expense.onHold expense)
        && negb (hasType SETTLEMENT expense)
        && isHostAdmin req expense).
Proof. unfold canPutOnHold. quiet_evaluator expense. Qed.

Lemma canReleaseHold_quiet req expense :
  canReleaseHold req expense false
  = Ok (scoped req && Expense.onHold expense && isHostAdmin req expense).
Proof. unfold canReleaseHold. quiet_evaluator expense. Qed.

Lemma isHostAdmin_set_onHold req b expense :
  isHostAdmin req (set_onHold b expense) = isHostAdmin req expense.
Proof. reflexivity. Qed.

Lemma isHostAdmin_set_lastEditedById req u expense :
  isHostAdmin req (Expense.set_lastEditedById u expense)
  = isHostAdmin req expense.
Proof. reflexivity. Qed.

Lemma release_of_hold user expense :
  Expense.onHold expense = false ->
  set_onHold false
    (Expense.set_lastEditedById (Some (User.id user))
       (set_onHold true (touchedBy user expense)))
  = touchedBy user expense.
Proof. destruct expense. simpl. intros ->. reflexivity. Qed.

(** X25: a hold and its release.  When [canPutOnHold] grants, [holdExpense]
    sets the flag on the row; the expense cannot be put on hold a second
    time, and the same user can release it: after [releaseExpense] the
    row is the one before the hold, with its last editor, and the journal
    has received the two activities, in order. *)
Theorem hold_then_release_round_trip req expense s :
  canPutOnHold req expense false = Ok true ->
  exists user s1 s2,
    remoteUser req = Some user
    /\ holdExpense req expense s
       = (Ok (set_onHold true (touchedBy user expense)), s1)
    /\ (holdExpense req (set_onHold true (touchedBy user expense)) s1).1
       = Throw (raise FeatureNotAllowedForUser EmptyString)
    /\ releaseExpense req (set_onHold true (touchedBy user expense)) s1
       = (Ok (touchedBy user expense), s2)
    /\ Expenses (world s2)
       = <[Expense.id expense := touchedBy user expense]> (Expenses (world s))
    /\ journal s2
       = (journal s
          ++ [journalEntry COLLECTIVE_EXPENSE_PUT_ON_HOLD user expense;
              journalEntry COLLECTIVE_EXPENSE_RELEASED_FROM_HOLD user
                expense])%list.
Proof.
  intros Hgranted. pose proof Hgranted as Hquiet.
  rewrite canPutOnHold_quiet in Hquiet. injection Hquiet as Hquiet.
  repeat (apply andb_prop in Hquiet as [Hquiet ?]).
  destruct (isHostAdmin_logged_in req expense) as [user Huser];
    [assumption|].
  assert (Hflag : Expense.onHold expense = false)
    by (apply negb_true_iff; assumption).
  exists user. eexists. eexists.
  split; [exact Huser|].
  split.
  { unfold holdExpense. rewrite Huser. unfold bindOp, lift, liftR.
    rewrite Hgranted. simpl. reflexivity. }
  split.
  { unfold holdExpense. rewrite Huser. unfold bindOp, lift, liftR.
    rewrite canPutOnHold_quiet. simpl. rewrite andb_false_r. reflexivity. }
  split.
  { unfold releaseExpense. rewrite Huser. unfold bindOp, lift, liftR.
    rewrite canReleaseHold_quiet. simpl.
    rewrite isHostAdmin_set_onHold. unfold touchedBy.
    rewrite isHostAdmin_set_lastEditedById.
    replace (scoped req) with true by (symmetry; assumption).
    replace (isHostAdmin req expense) with true by (symmetry; assumption).
    simpl. fold (touchedBy user expense).
    rewrite (release_of_hold user expense Hflag). reflexivity. }
  split.
  { simpl. unfold touchedBy. simpl. apply insert_insert_eq. }
  simpl. rewrite <- app_assoc. reflexivity.
Qed.

Lemma hold_then_release_round_trip_witness :
  exists s,
    releaseExpense (requestOf (Some hostAdmin))
      (set_onHold true (touchedBy hostAdmin approvedExpense))
      (holdExpense (requestOf (Some hostAdmin)) approvedExpense
         (sampleStore approvedExpense)).2
    = (Ok (touchedBy hostAdmin approvedExpense), s)
    /\ length (journal s) = 2%nat.
Proof.
  destruct (hold_then_release_round_trip (requestOf (Some hostAdmin))
              approvedExpense (sampleStore approvedExpense) eq_refl)
    as (user & s1 & s2 & Huser & Hhold & _ & Hrelease & _ & Hjournal).
  injection Huser as <-. exists s2. rewrite Hhold. simpl.
  split; [exact Hrelease|]. rewrite Hjournal. reflexivity.
Defined.

(** ** Requests for completion *)

Lemma canMarkAsIncomplete_true env req expense throw :
  canMarkAsIncomplete env req expense throw = Ok true ->
  Expense.status expense ∈ [APPROVED; ERROR]
  /\ isHostAdmin req expense = true.
Proof.
  intros H. unfold canMarkAsIncomplete in H. granted H.
  apply bool_decide_eq_true_1 in E. split; [exact E|reflexivity].
Qed.

(** X26: [markExpenseAsIncomplete] lifts the hold.  An expense that is
    not INCOMPLETE yet and that the operation accepts is APPROVED or in
    ERROR; its row is written as INCOMPLETE with the hold flag cleared,
    so that it can be neither released nor put on hold afterwards, and
    one activity is recorded. *)
Theorem markExpenseAsIncomplete_lifts_hold env req expense s updated s' :
  Expense.status expense <> INCOMPLETE ->
  markExpenseAsIncomplete env req expense s = (Ok updated, s') ->
  exists user,
    remoteUser req = Some user
    /\ Expense.status expense ∈ [APPROVED; ERROR]
    /\ updated = set_onHold false (transitioned INCOMPLETE user expense)
    /\ canReleaseHold req updated false = Ok false
    /\ canPutOnHold req updated false = Ok false
    /\ Expenses (world s')
       = <[Expense.id expense := updated]> (Expenses (world s))
    /\ journal s'
       = (journal s
          ++ [journalEntry COLLECTIVE_EXPENSE_MARKED_AS_INCOMPLETE user
                expense])%list.
Proof.
  intros Hstatus Hrun. unfold markExpenseAsIncomplete in Hrun.
  rewrite (bool_decide_eq_false_2 _ Hstatus) in Hrun.
  unfold bindOp, lift, liftR in Hrun.
  destruct (canMarkAsIncomplete env req expense true) as [[|]|e] eqn:Hcan;
    simpl in Hrun; try discriminate.
  apply canMarkAsIncomplete_true in Hcan as [Hin Hadmin].
  destruct (isHostAdmin_logged_in req expense Hadmin) as [user Huser].
  unfold remoteUser_id in Hrun. rewrite Huser in Hrun. simpl in Hrun.
  injection Hrun as <- <-.
  exists user. split; [exact Huser|]. split; [exact Hin|].
  split; [reflexivity|].
  split.
  { rewrite canReleaseHold_quiet. simpl. rewrite andb_false_r. reflexivity. }
  split.
  { rewrite canPutOnHold_quiet. unfold hasStatus. simpl.
    rewrite andb_false_r. reflexivity. }
  split; reflexivity.
Qed.

Lemma markExpenseAsIncomplete_lifts_hold_witness :
  (markExpenseAsIncomplete plainEnv (requestOf (Some hostAdmin))
     (set_onHold true approvedExpense)
     (sampleStore (set_onHold true approvedExpense))).1
  = Ok (set_onHold false (transitioned INCOMPLETE hostAdmin approvedExpense)).
Proof.
  destruct (markExpenseAsIncomplete plainEnv (requestOf (Some hostAdmin))
              (set_onHold true approvedExpense)
              (sampleStore (set_onHold true approvedExpense)))
    as [[updated|e] s'] eqn:Hrun; [|vm_compute in Hrun; discriminate].
  destruct (markExpenseAsIncomplete_lifts_hold plainEnv
              (requestOf (Some hostAdmin)) (set_onHold true approvedExpense)
              (sampleStore (set_onHold true approvedExpense)) updated s'
              ltac:(discriminate) Hrun)
    as (user & Huser & _ & -> & _).
  injection Huser as <-. reflexivity.
Defined.

(** ** Requests for a new approval *)

(** X27: [requestExpenseReApproval] is [unapproveExpense] under another
    name of activity.  On the same request, expense and world the two
    give the same result and write the same rows; where the one creates
    the activity COLLECTIVE_EXPENSE_UNAPPROVED the other creates
    COLLECTIVE_EXPENSE_RE_APPROVAL_REQUESTED, and neither creates any
    when the expense is PENDING already or the request is refused. *)
Theorem requestExpenseReApproval_follows_unapproveExpense env req expense s :
  let asked := requestExpenseReApproval env req expense s in
  let unapproved := unapproveExpense env req expense (world s) in
  let created :=
    match unapproved.1 with
    | Ok _ => negb (bool_decide (Expense.status expense = PENDING))
    | Throw _ => false
    end in
  asked.1 = unapproved.1
  /\ Expenses (world asked.2) = Expenses unapproved.2
  /\ trace (world asked.2) = trace (world s)
  /\ journal asked.2
     = (journal s
        ++ (if created
            then [HostActivity.mk COLLECTIVE_EXPENSE_RE_APPROVAL_REQUESTED
                    (Expense.id expense) (User.id <$> remoteUser req)]
            else []))%list
  /\ trace unapproved.2
     = (trace (world s)
        ++ (if created
            then [ActivityCreated COLLECTIVE_EXPENSE_UNAPPROVED
                    (Expense.id expense) (User.id <$> remoteUser req)]
            else []))%list.
Proof.
  unfold requestExpenseReApproval, unapproveExpense.
  case_bool_decide as Hpending; simpl.
  { rewrite !app_nil_r. repeat split. }
  unfold bindOp, bind, lift, liftR.
  destruct (canUnapprove env req expense true) as [[|]|e] eqn:Hcan; simpl;
    try (rewrite !app_nil_r; repeat split).
  unfold remoteUser_id.
  destruct (remoteUser req) as [user|]; simpl;
    try (rewrite !app_nil_r; repeat split).
  repeat split.
Qed.

(** X28: the hold is seen by its own two evaluators only.  Every other
    evaluator of a write answers for an expense on hold what it answers
    for the same expense off hold, in both modes: a hold does not, by
    itself, close payment, approval, edition or deletion. *)
Theorem hold_flag_is_read_by_hold_evaluators_only env svc :
  Forall
    (fun evaluator : Request -> Expense.t -> bool -> Result bool =>
       evaluator = canPutOnHold \/ evaluator = canReleaseHold
       \/ forall req expense held throw,
           evaluator req (set_onHold held expense) throw
           = evaluator req expense throw)
    (writeEvaluators env svc).
Proof.
  unfold writeEvaluators, statusEvaluators, fieldEvaluators. simpl.
  repeat (apply List.Forall_cons;
          [first [ left; reflexivity
                 | right; left; reflexivity
                 | right; right; intros req expense held throw; reflexivity ]
          |]).
  apply List.Forall_nil.
Qed.
